(** * SolanaM Image Studio: the image engines, embedded and verified

    A shallow embedding of the extension's four engines
      - [FilterManager]      (src/utils/FilterManager.ts),
      - [FileHandler]        (the file validator),
      - [CompressionManager] (format catalog and re-encoding),
      - [CropManager]        (crop rectangle, overlay handles, cropping)
    together with the properties their specification states about them.

    Conventions.
      - A JavaScript number is an IEEE 754 binary64 value.  Where an engine
        computes with numbers and a property is about the value computed -
        the filter options, the compression ratio, the pixel rectangle and
        the canvas of a crop, the clamps of a drag - the number is a
        primitive [float], with the operations of [Number] for what the
        language adds to the arithmetic ([Math.max], [Math.min], the
        conversion a canvas applies to its dimensions).
      - Elsewhere numbers are rationals [Q]: the sizes of files and
        images, which are only stored, compared and handed on, the quality
        handed to the encoder, and the settings in the store of
        [CropManager], which carries the properties about sharing, events
        and the order of calls.
      - Objects that are shared by reference live in an explicit store.
      - What the browser supplies (the canvas encoder, the data-URL
        serialiser, the printing of a number) is a [Variable] of the
        section that uses it. *)

From Stdlib Require Import QArith Qminmax Qpower Lqa.
From Stdlib Require Floats.
From Stdlib Require Import Ascii.
From stdpp Require Import base option list strings pretty gmap.

Local Open Scope string_scope.
Local Open Scope Q_scope.

(** The parts of an [HTMLImageElement] the engines read or write. *)
Record HTMLImageElement := mkImage {
  naturalWidth  : Q;
  naturalHeight : Q;
  offsetWidth   : Q;
  offsetHeight  : Q;
  style_filter  : string
}.

(** [Array.prototype.join]: the elements separated by [sep]. *)
Fixpoint join (sep : string) (l : list string) : string :=
  match l with
  | [] => ""
  | [x] => x
  | x :: rest => x +:+ sep +:+ join sep rest
  end.

(** [Array.prototype.push] with several arguments. *)
Definition push {A} (arr : list A) (items : list A) : list A := arr ++ items.

(** [Array.prototype.includes] on an array of strings. *)
Fixpoint includes (arr : list string) (x : string) : bool :=
  match arr with
  | [] => false
  | y :: rest => if String.eqb y x then true else includes rest x
  end.

(** ** Strings, as the scripts use them *)

(** [String.prototype.split] with a one-character separator. *)
Fixpoint splitOn (sep : ascii) (s : string) : list string :=
  match s with
  | EmptyString => [EmptyString]
  | String c rest =>
      if Ascii.eqb c sep then EmptyString :: splitOn sep rest
      else match splitOn sep rest with
           | first :: others => String c first :: others
           | [] => [String c EmptyString]
           end
  end.

(** [String.prototype.toUpperCase] on a character and on a string of
    ASCII characters; the MIME types and format names it is applied to are
    ASCII. *)
Definition upperChar (c : ascii) : ascii :=
  let n := nat_of_ascii c in
  if (97 <=? n)%nat && (n <=? 122)%nat then ascii_of_nat (n - 32) else c.

Fixpoint toUpperCase (s : string) : string :=
  match s with
  | EmptyString => EmptyString
  | String c rest => String (upperChar c) (toUpperCase rest)
  end.

(** [String.prototype.startsWith]. *)
Definition startsWith (s pre : string) : bool := String.prefix pre s.

Fixpoint dropChars (n : nat) (s : string) : string :=
  match n, s with
  | O, _ => s
  | S n', String _ rest => dropChars n' rest
  | S _, EmptyString => EmptyString
  end.

(** [String.prototype.replace] with a string pattern: the first occurrence
    is replaced. *)
Fixpoint replaceFirst (pat rep s : string) : string :=
  if String.prefix pat s then rep +:+ dropChars (String.length pat) s
  else match s with
       | EmptyString => EmptyString
       | String c rest => String c (replaceFirst pat rep rest)
       end.

(** A string used as a condition: the empty string is falsy. *)
Definition nonEmpty (s : string) : bool :=
  match s with
  | EmptyString => false
  | String _ _ => true
  end.

(** ** Numbers

    Binary64 arithmetic and comparison are the primitives of [PrimFloat];
    this module adds what JavaScript and the canvas define on top. *)
Module Number.
Import PrimFloat FloatOps SpecFloat.

(** [Math.max(a, b)]: [NaN] if either is, and [+0] above [-0]. *)
Definition Math_max (a b : float) : float :=
  match compare a b with
  | FEq => if get_sign a then b else a
  | FLt => b
  | FGt => a
  | FNotComparable => nan
  end.

(** [Math.min(a, b)]: [NaN] if either is, and [-0] below [+0]. *)
Definition Math_min (a b : float) : float :=
  match compare a b with
  | FEq => if get_sign a then a else b
  | FLt => a
  | FGt => b
  | FNotComparable => nan
  end.

(** The rational a finite number stands for; none for [NaN] and the
    infinities. *)
Definition exact (f : float) : option Q :=
  match Prim2SF f with
  | S754_zero _ => Some 0
  | S754_finite s m e =>
      Some ((if s then -1 else 1) * (inject_Z (Zpos m) * Qpower 2 e))
  | _ => None
  end.

(** The integer part of a number, truncated towards zero; 0 for [NaN] and
    the infinities. *)
Definition integerPart (f : float) : Z :=
  match Prim2SF f with
  | S754_finite s m e =>
      let n := if (0 <=? e)%Z then (Zpos m * 2 ^ e)%Z
               else (Zpos m / 2 ^ (- e))%Z in
      if s then (- n)%Z else n
  | _ => 0%Z
  end.

(** The conversion of a number to an [unsigned long] attribute. *)
Definition ToUint32 (f : float) : Z := (integerPart f mod 2 ^ 32)%Z.

(** A reflected [unsigned long] attribute keeps a value up to 2^31 - 1 and
    falls back to its default above. *)
Definition reflected (default : Z) (n : Z) : Z :=
  if (n <=? 2147483647)%Z then n else default.

(** What a canvas dimension reads after a number was assigned to it. *)
Definition canvasDimension (default : Z) (v : float) : Z :=
  reflected default (ToUint32 v).

(** The number, if it is an integer of magnitude up to 2^53 - 1: those
    are the numbers printed with all the decimal digits of the integer. *)
Definition safeInteger (f : float) : option Z :=
  match Prim2SF f with
  | S754_zero _ => Some 0%Z
  | S754_finite s m e =>
      if (0 <=? e)%Z then
        let n := (Zpos m * 2 ^ e)%Z in
        if (n <=? 9007199254740991)%Z then Some (if s then (- n)%Z else n)
        else None
      else if (Zpos m mod 2 ^ (- e) =? 0)%Z then
        Some (if s then (- (Zpos m / 2 ^ (- e)))%Z else (Zpos m / 2 ^ (- e))%Z)
      else None
  | _ => None
  end.

End Number.

(** ** Filter compositor *)
Module FilterManager.
Import PrimFloat.

Record FilterOptions := mkOptions {
  brightness : float;
  contrast   : float;
  saturation : float;
  blur       : float;
  filter     : string
}.

(** [a !== b] and [a > b] on numbers. *)
Definition strictNe (a b : float) : bool := negb (a =? b)%float.
Definition gt (a b : float) : bool := (b <? a)%float.

(** The [switch (options.filter)] of [applyFilters]: what each case pushes. *)
Definition presetCase (name : string) (filters : list string) : list string :=
  if String.eqb name "grayscale" then push filters ["grayscale(100%)"]
  else if String.eqb name "sepia" then push filters ["sepia(100%)"]
  else if String.eqb name "vintage" then
    push filters ["sepia(50%)"; "contrast(120%)"; "brightness(90%)"]
  else if String.eqb name "cool" then
    push filters ["hue-rotate(180deg)"; "saturate(120%)"]
  else if String.eqb name "warm" then
    push filters ["hue-rotate(30deg)"; "saturate(110%)"; "brightness(110%)"]
  else if String.eqb name "noir" then
    push filters ["grayscale(100%)"; "contrast(150%)"; "brightness(80%)"]
  else if String.eqb name "vivid" then
    push filters ["saturate(150%)"; "contrast(110%)"; "brightness(105%)"]
  else filters.

(** The table of presets, as printed in the specification. *)
Definition presetTable : list (string * list string) :=
  [ ("grayscale", ["grayscale(100%)"]);
    ("sepia",     ["sepia(100%)"]);
    ("vintage",   ["sepia(50%)"; "contrast(120%)"; "brightness(90%)"]);
    ("cool",      ["hue-rotate(180deg)"; "saturate(120%)"]);
    ("warm",      ["hue-rotate(30deg)"; "saturate(110%)"; "brightness(110%)"]);
    ("noir",      ["grayscale(100%)"; "contrast(150%)"; "brightness(80%)"]);
    ("vivid",     ["saturate(150%)"; "contrast(110%)"; "brightness(105%)"]) ].

Definition presetNames : list string := presetTable.*1.

Fixpoint lookupPreset (table : list (string * list string)) (name : string)
  : list string :=
  match table with
  | [] => []
  | (n, fns) :: rest => if decide (n = name) then fns else lookupPreset rest name
  end.

Section Host.
(** How the language prints a number inside a template literal
    ([Number::toString]). *)
Variable Number_toString : float -> string.

(** The array [filters] as it stands just before the final assignment. *)
Definition buildFilters (options : FilterOptions) : list string :=
  let filters := [] in
  let filters :=
    if strictNe (brightness options) 100
    then push filters ["brightness(" +:+ Number_toString (brightness options) +:+ "%)"]
    else filters in
  let filters :=
    if strictNe (contrast options) 100
    then push filters ["contrast(" +:+ Number_toString (contrast options) +:+ "%)"]
    else filters in
  let filters :=
    if strictNe (saturation options) 100
    then push filters ["saturate(" +:+ Number_toString (saturation options) +:+ "%)"]
    else filters in
  let filters :=
    if gt (blur options) 0
    then push filters ["blur(" +:+ Number_toString (blur options) +:+ "px)"]
    else filters in
  presetCase (filter options) filters.

(** [applyFilters(element, options)]: the element with its new
    [style.filter]. *)
Definition applyFilters (element : HTMLImageElement) (options : FilterOptions)
  : HTMLImageElement :=
  mkImage (naturalWidth element) (naturalHeight element)
          (offsetWidth element) (offsetHeight element)
          (join " " (buildFilters options)).

(** *** The chain as the specification words it *)

(** One optional entry of the numeric part. *)
Definition entry (present : Prop) `{Decision present} (fn : string) (n : float)
    (unit : string) : list string :=
  if decide present then [fn +:+ "(" +:+ Number_toString n +:+ unit +:+ ")"]
  else [].

(** The numeric adjustments, blur being kept whenever it differs from 0. *)
Definition spec_numeric_ne0 (o : FilterOptions) : list string :=
  entry ((brightness o =? 100)%float = false) "brightness" (brightness o) "%" ++
  entry ((contrast o =? 100)%float = false) "contrast" (contrast o) "%" ++
  entry ((saturation o =? 100)%float = false) "saturate" (saturation o) "%" ++
  entry ((blur o =? 0)%float = false) "blur" (blur o) "px".

(** The numeric adjustments, blur being kept only when it is greater than
    0. *)
Definition spec_numeric_pos (o : FilterOptions) : list string :=
  entry ((brightness o =? 100)%float = false) "brightness" (brightness o) "%" ++
  entry ((contrast o =? 100)%float = false) "contrast" (contrast o) "%" ++
  entry ((saturation o =? 100)%float = false) "saturate" (saturation o) "%" ++
  entry ((0 <? blur o)%float = true) "blur" (blur o) "px".

Definition spec_chain_ne0 (o : FilterOptions) : list string :=
  spec_numeric_ne0 o ++ lookupPreset presetTable (filter o).

Definition spec_chain_pos (o : FilterOptions) : list string :=
  spec_numeric_pos o ++ lookupPreset presetTable (filter o).
End Host.

(** A printer that agrees with the language on the integers of magnitude
    up to 2^53 - 1, which it prints in decimal digits; it stands in for
    the host where a property is run on such numbers. *)
Definition printInteger (n : float) : string :=
  match Number.safeInteger n with
  | Some z => pretty z
  | None => "?"
  end.

End FilterManager.

(** ** File validator *)
Module FileHandler.

Record File := mkFile {
  name : string;
  size : Q;
  type : string
}.

Record FileValidation := mkValidation {
  valid : bool;
  error : option string
}.

Definition maxFileSize : Q := 10 * 1024 * 1024.

Definition allowedTypes : list string :=
  [ "image/jpeg"; "image/jpg"; "image/png"; "image/webp"; "image/gif";
    "image/bmp"; "image/tiff"; "image/avif"; "image/svg+xml"; "image/x-icon" ].

Definition typeError : string :=
  "Please select a valid image file (JPEG, PNG, WebP, GIF, BMP, TIFF)".

Definition sizeError : string := "File size must be less than 10MB".

(** [a > b] on numbers. *)
Definition gt (a b : Q) : bool := negb (Qle_bool a b).

Definition validateImageFile (file : File) : FileValidation :=
  if negb (includes allowedTypes (type file)) then
    mkValidation false (Some typeError)
  else if gt (size file) maxFileSize then
    mkValidation false (Some sizeError)
  else
    mkValidation true None.

End FileHandler.

(** ** The canvas, as far as the engines drive it *)

(** A call of [CanvasRenderingContext2D.drawImage], in its three-argument
    and its nine-argument form. *)
Inductive DrawCall :=
| DrawImage3 (image : HTMLImageElement) (dx dy : Q)
| DrawImage9 (image : HTMLImageElement) (sx sy sw sh dx dy dw dh : Q).

Record Canvas := mkCanvas {
  canvas_width  : Q;
  canvas_height : Q;
  drawn         : list DrawCall
}.

(** [document.createElement('canvas')]: 300 by 150 and blank. *)
Definition createCanvas : Canvas := mkCanvas 300 150 [].

(** Assigning a dimension resizes the canvas and blanks it.  The engines
    that use this canvas assign it an image's natural size, an integer
    the canvas keeps as it is; for the assignment of a computed number see
    [CropArithmetic.set_width]. *)
Definition set_width (c : Canvas) (w : Q) : Canvas := mkCanvas w (canvas_height c) [].
Definition set_height (c : Canvas) (h : Q) : Canvas := mkCanvas (canvas_width c) h [].
Definition drawImage (c : Canvas) (d : DrawCall) : Canvas :=
  mkCanvas (canvas_width c) (canvas_height c) (drawn c ++ [d]).

(** How an asynchronous operation settles. *)
Inductive Promise (A : Type) :=
| Resolved (a : A)
| Rejected (reason : string).
Arguments Resolved {A} a.
Arguments Rejected {A} reason.

(** ** Format catalog and compression engine *)
Module CompressionManager.
Import PrimFloat.

Record CompressionOptions := mkCompressionOptions {
  quality : Q;
  format : string;
  maintainAspectRatio : bool
}.

(** The byte counts [originalSize] and [blob.size] are numbers of the
    language; the ratio is computed from them in binary64. *)
Record Blob := mkBlob {
  blob_size : float;
  blob_type : string
}.

Record CompressionResult := mkResult {
  blob : Blob;
  dataUrl : string;
  originalSize : float;
  compressedSize : float;
  compressionRatio : float
}.

Record FormatInfo := mkFormat {
  extension : string;
  mimeType : string;
  supportsQuality : bool;
  description : string
}.

Definition jpeg := mkFormat "jpg" "image/jpeg" true "Best for photos".
Definition png  := mkFormat "png" "image/png" false "Best for graphics".
Definition webp := mkFormat "webp" "image/webp" true "Modern format".
Definition avif := mkFormat "avif" "image/avif" true "Next-gen format".
Definition bmp  := mkFormat "bmp" "image/bmp" false "Uncompressed".
Definition tiff := mkFormat "tiff" "image/tiff" false "High quality".
Definition ico  := mkFormat "ico" "image/x-icon" false "Icon format".
Definition svg  := mkFormat "svg" "image/svg+xml" false "Vector format".

(** The own properties of the object literal [formatMap]. *)
Definition formatMap : gmap string FormatInfo :=
  <["jpeg" := jpeg]> (<["png" := png]> (<["webp" := webp]> (<["avif" := avif]>
  (<["bmp" := bmp]> (<["tiff" := tiff]> (<["ico" := ico]> (<["svg" := svg]> ∅))))))).

(** The eight names the catalog lists. *)
Definition knownFormats : list string :=
  ["jpeg"; "png"; "webp"; "avif"; "bmp"; "tiff"; "ico"; "svg"].

(** [formatMap] is an ordinary object, so a property it does not own is
    looked up on [Object.prototype].  These are that object's string
    keys; each holds a function, except [__proto__], an accessor that
    yields [Object.prototype] itself. *)
Definition Object_prototype_keys : list string :=
  [ "constructor"; "hasOwnProperty"; "isPrototypeOf"; "propertyIsEnumerable";
    "toLocaleString"; "toString"; "valueOf"; "__proto__";
    "__defineGetter__"; "__defineSetter__"; "__lookupGetter__"; "__lookupSetter__" ].

(** What an expression [formatMap[key]] can evaluate to. *)
Inductive JSValue :=
| Undefined
| Descriptor (info : FormatInfo)
| Inherited (key : string).

(** [o[key]]: own property first, then the prototype. *)
Definition Get (o : gmap string FormatInfo) (key : string) : JSValue :=
  match o !! key with
  | Some info => Descriptor info
  | None => if includes Object_prototype_keys key then Inherited key else Undefined
  end.

(** Objects and functions are truthy, [undefined] is not. *)
Definition truthy (v : JSValue) : bool :=
  match v with
  | Undefined => false
  | Descriptor _ | Inherited _ => true
  end.

(** [a || b]. *)
Definition or_else (a b : JSValue) : JSValue := if truthy a then a else b.

Definition getFormatInfo (format : string) : JSValue :=
  or_else (Get formatMap format) (Get formatMap "jpeg").

(** [formatInfo.supportsQuality] used as a condition; [None] is the
    [TypeError] of reading a property of [undefined].  The members of
    [Object.prototype] have no such property, and [undefined] is falsy. *)
Definition supportsQuality_of (v : JSValue) : option bool :=
  match v with
  | Undefined => None
  | Descriptor info => Some (supportsQuality info)
  | Inherited _ => Some false
  end.

(** [formatInfo.mimeType]; the inner [None] is [undefined]. *)
Definition mimeType_of (v : JSValue) : option (option string) :=
  match v with
  | Undefined => None
  | Descriptor info => Some (Some (mimeType info))
  | Inherited _ => Some None
  end.

Section Host.
(** Whether [canvas.getContext('2d')] yields a context. *)
Variable contextAvailable : bool.
(** [canvas.toBlob]'s encoder: the canvas, the MIME type and the quality
    give a blob, or none. *)
Variable encode : Canvas -> option string -> Q -> option Blob.
(** [FileReader.readAsDataURL]: the data URL, or none on a read error. *)
Variable readAsDataURL : Blob -> option string.

Definition compressImage (image : HTMLImageElement)
    (options : CompressionOptions) (originalSize : float)
  : Promise CompressionResult :=
  let canvas := createCanvas in
  if negb contextAvailable then Rejected "Canvas context not available"
  else
    let canvas := set_width canvas (naturalWidth image) in
    let canvas := set_height canvas (naturalHeight image) in
    let canvas := drawImage canvas (DrawImage3 image 0 0) in
    let formatInfo := getFormatInfo (format options) in
    match supportsQuality_of formatInfo, mimeType_of formatInfo with
    | Some supports, Some mime =>
        let quality := if supports then quality options / 100 else 1 in
        match encode canvas mime quality with
        | None => Rejected "Failed to compress image"
        | Some blob =>
            match readAsDataURL blob with
            | None => Rejected "Failed to read compressed image"
            | Some url =>
                let compressionRatio :=
                  (((originalSize - blob_size blob) / originalSize) * 100)%float in
                Resolved (mkResult blob url originalSize (blob_size blob)
                                   compressionRatio)
            end
        end
    | _, _ => Rejected "TypeError"
    end.
End Host.

End CompressionManager.

(** ** A guard on the encoder *)
Module EncoderGuard.
Import CompressionManager.

(** The encoder the call would behave the same with if it refused every
    quality outside [0, 1] and every canvas that is not the image drawn
    once at its natural size. *)
Definition guarded (image : HTMLImageElement)
    (encode : Canvas -> option string -> Q -> option Blob)
    (canvas : Canvas) (mime : option string) (q : Q) : option Blob :=
  if Qle_bool 0 q && Qle_bool q 1
     && Qeq_bool (canvas_width canvas) (naturalWidth image)
     && Qeq_bool (canvas_height canvas) (naturalHeight image)
     && (length (drawn canvas) =? 1)%nat
  then encode canvas mime q else None.

End EncoderGuard.

(** ** The ratio as the specification words it

    (original - compressed) / original * 100 in exact rational
    arithmetic. *)
Module RatioSpec.

Definition exactRatio (originalSize compressedSize : Q) : Q :=
  (originalSize - compressedSize) / originalSize * 100.

End RatioSpec.

(** ** Crop engine: the settings object, the store and the listeners

    The manager's state and the three listeners of a drag, with the
    settings objects in a store, for the properties about sharing, events
    and what a call leaves untouched.  The numbers are rationals here;
    [CropArithmetic] below has the arithmetic of the same methods in
    binary64. *)
Module CropManager.

Record CropSettings := mkCrop {
  x : Q;
  y : Q;
  width : Q;
  height : Q;
  enabled : bool
}.

(** [Partial<CropSettings>]: each property present or absent. *)
Record PartialCropSettings := mkPartial {
  x_opt : option Q;
  y_opt : option Q;
  width_opt : option Q;
  height_opt : option Q;
  enabled_opt : option bool
}.

(** The object spread [{ ...base, ...settings }]. *)
Definition spread (base : CropSettings) (settings : PartialCropSettings)
  : CropSettings :=
  mkCrop (default (x base) (x_opt settings))
         (default (y base) (y_opt settings))
         (default (width base) (width_opt settings))
         (default (height base) (height_opt settings))
         (default (enabled base) (enabled_opt settings)).

(** A complete settings object passed where a partial one is expected. *)
Definition whole (s : CropSettings) : PartialCropSettings :=
  mkPartial (Some (x s)) (Some (y s)) (Some (width s)) (Some (height s))
            (Some (enabled s)).

Definition with_x (v : Q) (s : CropSettings) : CropSettings :=
  mkCrop v (y s) (width s) (height s) (enabled s).
Definition with_y (v : Q) (s : CropSettings) : CropSettings :=
  mkCrop (x s) v (width s) (height s) (enabled s).
Definition with_width (v : Q) (s : CropSettings) : CropSettings :=
  mkCrop (x s) (y s) v (height s) (enabled s).
Definition with_height (v : Q) (s : CropSettings) : CropSettings :=
  mkCrop (x s) (y s) (width s) v (enabled s).

(** *** The store

    Settings objects are allocated in a growing store and named by their
    index.  The manager's field [cropSettings] is a reference into it, and
    so is the [detail] of every dispatched [cropUpdate] event. *)
Definition ref := nat.

Record State := mkState {
  heap : list CropSettings;
  this_cropSettings : ref;
  dispatched : list ref
}.

(** A computation over the store; [None] is a read through a reference
    that was never allocated. *)
Definition M (A : Type) : Type := State -> option (A * State).

Definition ret {A} (a : A) : M A := fun σ => Some (a, σ).

Definition bind {A B} (c : M A) (k : A -> M B) : M B :=
  fun σ => match c σ with
           | Some (a, σ') => k a σ'
           | None => None
           end.

#[local] Instance M_ret : MRet M := @ret.
#[local] Instance M_bind : MBind M := fun A B k c => bind c k.

Definition deref (r : ref) : M CropSettings :=
  fun σ => match heap σ !! r with
           | Some v => Some (v, σ)
           | None => None
           end.

Definition alloc (v : CropSettings) : M ref :=
  fun σ => Some (length (heap σ),
                 mkState (heap σ ++ [v]) (this_cropSettings σ) (dispatched σ)).

(** Overwriting the object a reference names; a reference outside the
    store names no object and nothing is written. *)
Definition assign (r : ref) (v : CropSettings) : M unit :=
  fun σ => Some (tt, mkState (<[r := v]> (heap σ)) (this_cropSettings σ)
                             (dispatched σ)).

Definition get_this : M ref := fun σ => Some (this_cropSettings σ, σ).

Definition set_this (r : ref) : M unit :=
  fun σ => Some (tt, mkState (heap σ) r (dispatched σ)).

(** [document.dispatchEvent(new CustomEvent('cropUpdate', { detail }))]. *)
Definition dispatchCropUpdate (detail : ref) : M unit :=
  fun σ => Some (tt, mkState (heap σ) (this_cropSettings σ)
                             (dispatched σ ++ [detail])).

(** The settings the manager currently holds. *)
Definition current (σ : State) : option CropSettings :=
  heap σ !! this_cropSettings σ.

Definition defaultSettings : CropSettings := mkCrop 0 0 100 100 false.

(** [new CropManager()]. *)
Definition construct : State := mkState [defaultSettings] 0%nat [].

(** *** Methods *)

Definition setCropSettings (settings : PartialCropSettings) : M unit :=
  this ← get_this;
  old ← deref this;
  fresh ← alloc (spread old settings);
  set_this fresh.

Definition getCropSettings : M ref :=
  this ← get_this;
  cur ← deref this;
  alloc cur.

Definition resetCrop : M unit :=
  fresh ← alloc (mkCrop 0 0 100 100 false);
  set_this fresh.

(** *** Overlay interactivity *)

Definition handles : list string :=
  ["nw"; "ne"; "sw"; "se"; "n"; "s"; "w"; "e"].

(** The variables the three listeners of [addCropInteractivity] close
    over. *)
Record Closure := mkClosure {
  isDragging : bool;
  isResizing : bool;
  currentHandle : string;
  startX : Q;
  startY : Q;
  startCropX : Q;
  startCropY : Q;
  startCropWidth : Q;
  startCropHeight : Q
}.

Definition initialClosure : Closure :=
  mkClosure false false "" 0 0 0 0 0 0.

(** A mouse event: the pointer position, whether the target carries the
    class [crop-handle], and the target's [dataset.handle]. *)
Record MouseEvent := mkMouse {
  clientX : Q;
  clientY : Q;
  target_isHandle : bool;
  target_handle : option string
}.

Definition onMouseDown (e : MouseEvent) (c : Closure) : M Closure :=
  let isResizing' := if target_isHandle e then true else isResizing c in
  let currentHandle' :=
    if target_isHandle e then default "" (target_handle e)
    else currentHandle c in
  let isDragging' := if target_isHandle e then isDragging c else true in
  this ← get_this;
  cropSettings ← deref this;
  ret (mkClosure isDragging' isResizing' currentHandle'
                 (clientX e) (clientY e)
                 (x cropSettings) (y cropSettings)
                 (width cropSettings) (height cropSettings)).

(** The [switch (currentHandle)] of the resize branch, applied to the
    local copy [newSettings]. *)
Definition resizeCase (c : Closure) (deltaXPercent deltaYPercent : Q)
    (newSettings : CropSettings) : CropSettings :=
  let handle := currentHandle c in
  if String.eqb handle "se" then
    let newSettings :=
      with_width (Qmax 10 (Qmin (100 - startCropX c)
                                (startCropWidth c + deltaXPercent))) newSettings in
    with_height (Qmax 10 (Qmin (100 - startCropY c)
                               (startCropHeight c + deltaYPercent))) newSettings
  else if String.eqb handle "nw" then
    let newWidth := Qmax 10 (startCropWidth c - deltaXPercent) in
    let newHeight := Qmax 10 (startCropHeight c - deltaYPercent) in
    let newSettings :=
      with_x (Qmax 0 (startCropX c + (startCropWidth c - newWidth))) newSettings in
    let newSettings :=
      with_y (Qmax 0 (startCropY c + (startCropHeight c - newHeight))) newSettings in
    let newSettings := with_width newWidth newSettings in
    with_height newHeight newSettings
  else if String.eqb handle "ne" then
    let newSettings :=
      with_width (Qmax 10 (Qmin (100 - startCropX c)
                                (startCropWidth c + deltaXPercent))) newSettings in
    let newHeightNE := Qmax 10 (startCropHeight c - deltaYPercent) in
    let newSettings :=
      with_y (Qmax 0 (startCropY c + (startCropHeight c - newHeightNE))) newSettings in
    with_height newHeightNE newSettings
  else if String.eqb handle "sw" then
    let newWidthSW := Qmax 10 (startCropWidth c - deltaXPercent) in
    let newSettings :=
      with_x (Qmax 0 (startCropX c + (startCropWidth c - newWidthSW))) newSettings in
    let newSettings := with_width newWidthSW newSettings in
    with_height (Qmax 10 (Qmin (100 - startCropY c)
                               (startCropHeight c + deltaYPercent))) newSettings
  else if String.eqb handle "n" then
    let newHeightN := Qmax 10 (startCropHeight c - deltaYPercent) in
    let newSettings :=
      with_y (Qmax 0 (startCropY c + (startCropHeight c - newHeightN))) newSettings in
    with_height newHeightN newSettings
  else if String.eqb handle "s" then
    with_height (Qmax 10 (Qmin (100 - startCropY c)
                               (startCropHeight c + deltaYPercent))) newSettings
  else if String.eqb handle "w" then
    let newWidthW := Qmax 10 (startCropWidth c - deltaXPercent) in
    let newSettings :=
      with_x (Qmax 0 (startCropX c + (startCropWidth c - newWidthW))) newSettings in
    with_width newWidthW newSettings
  else if String.eqb handle "e" then
    with_width (Qmax 10 (Qmin (100 - startCropX c)
                              (startCropWidth c + deltaXPercent))) newSettings
  else newSettings.

(** The [mousemove] listener of the document, over the store: what it
    allocates, what it leaves the manager holding and what it dispatches.
    The values are rationals, computed exactly and with the quotient by a
    displayed size of 0 left at 0; the numbers the listener computes are
    those of [CropArithmetic.onMouseMove]. *)
Definition onMouseMove (previewImage : HTMLImageElement) (e : MouseEvent)
    (c : Closure) : M unit :=
  if negb (isDragging c) && negb (isResizing c) then ret tt
  else
    let deltaX := clientX e - startX c in
    let deltaY := clientY e - startY c in
    let imageWidth := offsetWidth previewImage in
    let imageHeight := offsetHeight previewImage in
    let deltaXPercent := (deltaX / imageWidth) * 100 in
    let deltaYPercent := (deltaY / imageHeight) * 100 in
    (if isDragging c then
       this ← get_this;
       cropSettings ← deref this;
       let newX := Qmax 0 (Qmin (100 - width cropSettings)
                                (startCropX c + deltaXPercent)) in
       let newY := Qmax 0 (Qmin (100 - height cropSettings)
                                (startCropY c + deltaYPercent)) in
       setCropSettings (mkPartial (Some newX) (Some newY) None None None)
     else if isResizing c then
       this ← get_this;
       cropSettings ← deref this;
       let newSettings := cropSettings in
       let newSettings := resizeCase c deltaXPercent deltaYPercent newSettings in
       setCropSettings (whole newSettings)
     else ret tt);;
    this ← get_this;
    dispatchCropUpdate this.

Definition onMouseUp (c : Closure) : Closure :=
  mkClosure false false ""
            (startX c) (startY c) (startCropX c) (startCropY c)
            (startCropWidth c) (startCropHeight c).

(** The pointer moves of one gesture, delivered in order to the listener. *)
Fixpoint onMouseMoves (previewImage : HTMLImageElement)
    (moves : list MouseEvent) (c : Closure) : M unit :=
  match moves with
  | [] => ret tt
  | e :: rest => onMouseMove previewImage e c;; onMouseMoves previewImage rest c
  end.

(** A whole gesture: press, moves, release. *)
Definition gesture (previewImage : HTMLImageElement) (down : MouseEvent)
    (moves : list MouseEvent) : M Closure :=
  c ← onMouseDown down initialClosure;
  onMouseMoves previewImage moves c;;
  ret (onMouseUp c).

(** A press on the overlay followed by one pointer move. *)
Definition pressThenMove (previewImage : HTMLImageElement)
    (down move : MouseEvent) : M unit :=
  c ← onMouseDown down initialClosure;
  onMouseMove previewImage move c.

(** *** The geometric bounds of the data model *)

Definition inBounds (s : CropSettings) : Prop :=
  0 <= x s /\ 0 <= y s /\ 10 <= width s /\ 10 <= height s /\
  x s + width s <= 100 /\ y s + height s <= 100.

(** The closure as [onMouseDown] leaves it when the settings are [s]. *)
Definition pressedOn (s : CropSettings) (c : Closure) : Prop :=
  startCropX c = x s /\ startCropY c = y s /\
  startCropWidth c = width s /\ startCropHeight c = height s.

(** One pointer move with the closure [c], from settings [s]: the new
    settings, as a function of the two percentage deltas. *)
Definition moved (c : Closure) (s : CropSettings) (dx dy : Q) : CropSettings :=
  if isDragging c then
    spread s (mkPartial (Some (Qmax 0 (Qmin (100 - width s) (startCropX c + dx))))
                        (Some (Qmax 0 (Qmin (100 - height s) (startCropY c + dy))))
                        None None None)
  else if isResizing c then resizeCase c dx dy s
  else s.

(** The partial object [{ ...first, ...second }]: a property of [second]
    wins over the same property of [first]. *)
Definition overlayPartial (first second : PartialCropSettings)
  : PartialCropSettings :=
  mkPartial (match x_opt second with Some v => Some v | None => x_opt first end)
            (match y_opt second with Some v => Some v | None => y_opt first end)
            (match width_opt second with Some v => Some v | None => width_opt first end)
            (match height_opt second with Some v => Some v | None => height_opt first end)
            (match enabled_opt second with Some v => Some v | None => enabled_opt first end).

(** The manager's reference names an allocated object. *)
Definition wf (σ : State) : Prop := (this_cropSettings σ < length (heap σ))%nat.

End CropManager.

(** ** Crop engine: the arithmetic, in binary64

    [applyCrop] and the listeners of [addCropInteractivity] once more, as
    functions of the settings object [this.cropSettings] they read and
    replace, with the numbers and operations of the language: the
    percentages, the pointer coordinates and the image's dimensions are
    binary64 numbers, and a canvas dimension is the [unsigned long] the
    canvas makes of the number assigned. *)
Module CropArithmetic.
Import PrimFloat Number.
Local Open Scope float_scope.

Record CropSettings := mkCrop {
  x : float;
  y : float;
  width : float;
  height : float;
  enabled : bool
}.

(** The dimensions of an [HTMLImageElement], as the numbers reading them
    yields. *)
Record ImageElement := mkImageElement {
  naturalWidth  : float;
  naturalHeight : float;
  offsetWidth   : float;
  offsetHeight  : float
}.

(** The calls made on the canvas's 2d context. *)
Inductive DrawCall :=
| DrawImage3 (image : ImageElement) (dx dy : float)
| DrawImage9 (image : ImageElement) (sx sy sw sh dx dy dw dh : float).

Record Canvas := mkCanvas {
  canvas_width  : Z;
  canvas_height : Z;
  drawn         : list DrawCall
}.

Record CropResult := mkCropResult {
  canvas : Canvas;
  dataUrl : string;
  croppedWidth : float;
  croppedHeight : float
}.

(** [document.createElement('canvas')]: 300 by 150 and blank. *)
Definition createCanvas : Canvas := mkCanvas 300 150 [].

(** [canvas.width = v] and [canvas.height = v]: the number is converted to
    an [unsigned long], out of range the default is taken, and the canvas
    is blanked. *)
Definition set_width (c : Canvas) (v : float) : Canvas :=
  mkCanvas (canvasDimension 300 v) (canvas_height c) [].
Definition set_height (c : Canvas) (v : float) : Canvas :=
  mkCanvas (canvas_width c) (canvasDimension 150 v) [].
Definition drawImage (c : Canvas) (d : DrawCall) : Canvas :=
  mkCanvas (canvas_width c) (canvas_height c) (drawn c ++ [d]).


Section Host.
(** [canvas.toDataURL()]. *)
Variable toDataURL : Canvas -> string.

(** [applyCrop(sourceImage)], reading [this.cropSettings]; a 2d context is
    taken to exist, as the source asserts. *)
Definition applyCrop (cropSettings : CropSettings) (sourceImage : ImageElement)
  : CropResult :=
  let canvas := createCanvas in
  if negb (enabled cropSettings) then
    let canvas := set_width canvas (naturalWidth sourceImage) in
    let canvas := set_height canvas (naturalHeight sourceImage) in
    let canvas := drawImage canvas (DrawImage3 sourceImage 0 0) in
    mkCropResult canvas (toDataURL canvas)
                 (naturalWidth sourceImage) (naturalHeight sourceImage)
  else
    let sourceWidth := naturalWidth sourceImage in
    let sourceHeight := naturalHeight sourceImage in
    let cropX := (x cropSettings / 100) * sourceWidth in
    let cropY := (y cropSettings / 100) * sourceHeight in
    let cropWidth := (width cropSettings / 100) * sourceWidth in
    let cropHeight := (height cropSettings / 100) * sourceHeight in
    let canvas := set_width canvas cropWidth in
    let canvas := set_height canvas cropHeight in
    let canvas :=
      drawImage canvas
        (DrawImage9 sourceImage cropX cropY cropWidth cropHeight
                    0 0 cropWidth cropHeight) in
    mkCropResult canvas (toDataURL canvas) cropWidth cropHeight.
End Host.

(** *** Overlay interactivity *)

(** The variables the three listeners of [addCropInteractivity] close
    over. *)
Record Closure := mkClosure {
  isDragging : bool;
  isResizing : bool;
  currentHandle : string;
  startX : float;
  startY : float;
  startCropX : float;
  startCropY : float;
  startCropWidth : float;
  startCropHeight : float
}.

Definition initialClosure : Closure :=
  mkClosure false false "" 0 0 0 0 0 0.

Record MouseEvent := mkMouse {
  clientX : float;
  clientY : float;
  target_isHandle : bool;
  target_handle : option string
}.

Definition with_x (v : float) (s : CropSettings) : CropSettings :=
  mkCrop v (y s) (width s) (height s) (enabled s).
Definition with_y (v : float) (s : CropSettings) : CropSettings :=
  mkCrop (x s) v (width s) (height s) (enabled s).
Definition with_width (v : float) (s : CropSettings) : CropSettings :=
  mkCrop (x s) (y s) v (height s) (enabled s).
Definition with_height (v : float) (s : CropSettings) : CropSettings :=
  mkCrop (x s) (y s) (width s) v (enabled s).

(** The [mousedown] listener of the crop box. *)
Definition onMouseDown (e : MouseEvent) (c : Closure)
    (cropSettings : CropSettings) : Closure :=
  let isResizing' := if target_isHandle e then true else isResizing c in
  let currentHandle' :=
    if target_isHandle e then default "" (target_handle e)
    else currentHandle c in
  let isDragging' := if target_isHandle e then isDragging c else true in
  mkClosure isDragging' isResizing' currentHandle'
            (clientX e) (clientY e)
            (x cropSettings) (y cropSettings)
            (width cropSettings) (height cropSettings).

(** The [switch (currentHandle)] of the resize branch, applied to the
    local copy [newSettings]. *)
Definition resizeCase (c : Closure) (deltaXPercent deltaYPercent : float)
    (newSettings : CropSettings) : CropSettings :=
  let handle := currentHandle c in
  if String.eqb handle "se" then
    let newSettings :=
      with_width (Math_max 10 (Math_min (100 - startCropX c)
                                        (startCropWidth c + deltaXPercent)))
                 newSettings in
    with_height (Math_max 10 (Math_min (100 - startCropY c)
                                       (startCropHeight c + deltaYPercent)))
                newSettings
  else if String.eqb handle "nw" then
    let newWidth := Math_max 10 (startCropWidth c - deltaXPercent) in
    let newHeight := Math_max 10 (startCropHeight c - deltaYPercent) in
    let newSettings :=
      with_x (Math_max 0 (startCropX c + (startCropWidth c - newWidth)))
             newSettings in
    let newSettings :=
      with_y (Math_max 0 (startCropY c + (startCropHeight c - newHeight)))
             newSettings in
    let newSettings := with_width newWidth newSettings in
    with_height newHeight newSettings
  else if String.eqb handle "ne" then
    let newSettings :=
      with_width (Math_max 10 (Math_min (100 - startCropX c)
                                        (startCropWidth c + deltaXPercent)))
                 newSettings in
    let newHeightNE := Math_max 10 (startCropHeight c - deltaYPercent) in
    let newSettings :=
      with_y (Math_max 0 (startCropY c + (startCropHeight c - newHeightNE)))
             newSettings in
    with_height newHeightNE newSettings
  else if String.eqb handle "sw" then
    let newWidthSW := Math_max 10 (startCropWidth c - deltaXPercent) in
    let newSettings :=
      with_x (Math_max 0 (startCropX c + (startCropWidth c - newWidthSW)))
             newSettings in
    let newSettings := with_width newWidthSW newSettings in
    with_height (Math_max 10 (Math_min (100 - startCropY c)
                                       (startCropHeight c + deltaYPercent)))
                newSettings
  else if String.eqb handle "n" then
    let newHeightN := Math_max 10 (startCropHeight c - deltaYPercent) in
    let newSettings :=
      with_y (Math_max 0 (startCropY c + (startCropHeight c - newHeightN)))
             newSettings in
    with_height newHeightN newSettings
  else if String.eqb handle "s" then
    with_height (Math_max 10 (Math_min (100 - startCropY c)
                                       (startCropHeight c + deltaYPercent)))
                newSettings
  else if String.eqb handle "w" then
    let newWidthW := Math_max 10 (startCropWidth c - deltaXPercent) in
    let newSettings :=
      with_x (Math_max 0 (startCropX c + (startCropWidth c - newWidthW)))
             newSettings in
    with_width newWidthW newSettings
  else if String.eqb handle "e" then
    with_width (Math_max 10 (Math_min (100 - startCropX c)
                                      (startCropWidth c + deltaXPercent)))
               newSettings
  else newSettings.

(** The [mousemove] listener of the document: the settings it leaves in
    [this.cropSettings]. *)
Definition onMouseMove (previewImage : ImageElement) (e : MouseEvent)
    (c : Closure) (cropSettings : CropSettings) : CropSettings :=
  if negb (isDragging c) && negb (isResizing c) then cropSettings
  else
    let deltaX := clientX e - startX c in
    let deltaY := clientY e - startY c in
    let imageWidth := offsetWidth previewImage in
    let imageHeight := offsetHeight previewImage in
    let deltaXPercent := (deltaX / imageWidth) * 100 in
    let deltaYPercent := (deltaY / imageHeight) * 100 in
    if isDragging c then
      let newX := Math_max 0 (Math_min (100 - width cropSettings)
                                       (startCropX c + deltaXPercent)) in
      let newY := Math_max 0 (Math_min (100 - height cropSettings)
                                       (startCropY c + deltaYPercent)) in
      with_y newY (with_x newX cropSettings)
    else if isResizing c then
      let newSettings := cropSettings in
      resizeCase c deltaXPercent deltaYPercent newSettings
    else cropSettings.

(** A whole gesture: a press, then the pointer moves in order; the release
    changes no setting. *)
Definition gesture (previewImage : ImageElement) (down : MouseEvent)
    (moves : list MouseEvent) (cropSettings : CropSettings) : CropSettings :=
  let c := onMouseDown down initialClosure cropSettings in
  fold_left (fun s e => onMouseMove previewImage e c s) moves cropSettings.

(** *** What the clamps are to keep *)

(** [v] is [NaN], or lies between [lo] and [hi] as the language compares
    numbers. *)
Definition within (lo hi v : float) : Prop :=
  is_nan v = true \/ ((lo <=? v) = true /\ (v <=? hi) = true).

(** [v] is [NaN], or at least [lo]. *)
Definition atLeast (lo v : float) : Prop :=
  is_nan v = true \/ (lo <=? v) = true.

Definition lowerBounds (s : CropSettings) : Prop :=
  atLeast 0 (x s) /\ atLeast 0 (y s)
  /\ atLeast 10 (width s) /\ atLeast 10 (height s).

(** The handles that move neither the left nor the top edge. *)
Definition trailingEdgeHandles : list string := ["se"; "s"; "e"].

End CropArithmetic.

(** ** A sample host

    Concrete stand-ins for what the browser supplies, used where a property
    is run on closed inputs. *)
Module SampleHost.
Import PrimFloat CompressionManager.

(** An encoder whose output grows with the quality it is given. *)
Definition encode (canvas : Canvas) (mime : option string) (quality : Q)
  : option Blob :=
  Some (mkBlob (if Qle_bool quality (1 # 2) then 20000 else 40000)
               (default "image/png" mime)).

(** An encoder that always yields [size] bytes. *)
Definition encodeTo (size : float) (canvas : Canvas) (mime : option string)
    (quality : Q) : option Blob :=
  Some (mkBlob size (default "image/png" mime)).

Definition readAsDataURL (b : Blob) : option string :=
  Some ("data:" +:+ blob_type b +:+ ";base64,").

Definition toDataURL (canvas : Canvas) : string := "data:image/png;base64,".

Definition photo : HTMLImageElement := mkImage 200 200 400 400 "".

(** A manager whose crop was set to the middle half of the image. *)
Definition middleHalf : CropManager.State :=
  CropManager.mkState
    [CropManager.defaultSettings; CropManager.mkCrop 25 25 50 50 true] 1%nat [].

(** A manager whose sliders were set to left 40, top 20, width 50 and
    height 50, and the preview it overlays, displayed 200 by 150. *)
Definition sliders_40_20_50_50 : CropManager.State :=
  CropManager.mkState
    [CropManager.defaultSettings; CropManager.mkCrop 40 20 50 50 true] 1%nat [].

Definition preview : HTMLImageElement := mkImage 800 600 200 150 "".

(** A press on the north-west handle, and a move 130 pixels to the left
    of it. *)
Definition pressNW : CropManager.MouseEvent :=
  CropManager.mkMouse 500 300 true (Some "nw").

Definition moveLeft130 : CropManager.MouseEvent :=
  CropManager.mkMouse 370 300 false None.

(** The same image, preview and pointer events for [CropArithmetic], and
    a source 101 pixels wide and high. *)
Definition canvasURL (canvas : CropArithmetic.Canvas) : string :=
  "data:image/png;base64,".

Definition photoSize : CropArithmetic.ImageElement :=
  CropArithmetic.mkImageElement 200 200 400 400.


Definition previewSize : CropArithmetic.ImageElement :=
  CropArithmetic.mkImageElement 800 600 200 150.

(** A preview that is not displayed: its offset size is 0 by 0. *)
Definition hiddenSize : CropArithmetic.ImageElement :=
  CropArithmetic.mkImageElement 800 600 0 0.

Definition pressOn (handle : string) : CropArithmetic.MouseEvent :=
  CropArithmetic.mkMouse 500 300 true (Some handle).

Definition pressBody : CropArithmetic.MouseEvent :=
  CropArithmetic.mkMouse 500 300 false None.

Definition moveTo (clientX clientY : float) : CropArithmetic.MouseEvent :=
  CropArithmetic.mkMouse clientX clientY false None.

End SampleHost.

(** ** File metadata and loading *)
Module FileHandlerIO.
Import FileHandler.

Record FileInfo := mkFileInfo {
  info_name : string;
  info_size : string;
  info_type : string
}.

(** What the [FileReader] reports: [onload] with its [result], which may
    be null, or [onerror]. *)
Inductive ReaderEvent :=
| OnLoad (result : option string)
| OnError.

Section Host.
(** The private [formatFileSize]; its logarithm and [toFixed] are
    floating-point operations and are left to the host. *)
Variable formatFileSize : Q -> string.
Variable readAsDataURL : File -> ReaderEvent.

(** [getFileInfo(file)]; [None] is the [TypeError] of calling
    [toUpperCase] on [undefined] when the type has no second part. *)
Definition getFileInfo (file : File) : option FileInfo :=
  let name := name file in
  let size := formatFileSize (size file) in
  match splitOn "/"%char (type file) !! 1%nat with
  | Some subtype => Some (mkFileInfo name size (toUpperCase subtype))
  | None => None
  end.

Definition loadImage (file : File) : Promise string :=
  match readAsDataURL file with
  | OnLoad (Some result) =>
      if nonEmpty result then Resolved result
      else Rejected "Failed to read file"
  | OnLoad None => Rejected "Failed to read file"
  | OnError => Rejected "Failed to read file"
  end.
End Host.

(** The labels of the ten allowed types. *)
Definition allowedLabels : list string :=
  [ "JPEG"; "JPG"; "PNG"; "WEBP"; "GIF"; "BMP"; "TIFF"; "AVIF"; "SVG+XML";
    "X-ICON" ].

End FileHandlerIO.

(** ** Content script (content.js) *)
Module ContentScript.

(** What a lookup in a table of strings can evaluate to: a member
    inherited from [Object.prototype] when the table has no own property
    of that name. *)
Inductive StrValue :=
| SUndefined
| SString (s : string)
| SInherited (key : string).

Definition GetStr (o : gmap string string) (key : string) : StrValue :=
  match o !! key with
  | Some s => SString s
  | None =>
      if includes CompressionManager.Object_prototype_keys key
      then SInherited key else SUndefined
  end.

Definition truthyStr (v : StrValue) : bool :=
  match v with
  | SUndefined => false
  | SString s => nonEmpty s
  | SInherited _ => true
  end.

Definition or_str (a b : StrValue) : StrValue := if truthyStr a then a else b.

Definition mimeTypes : gmap string string :=
  <["jpeg" := "image/jpeg"]> (<["png" := "image/png"]>
  (<["webp" := "image/webp"]> (<["avif" := "image/avif"]> ∅))).

Definition extensions : gmap string string :=
  <["jpeg" := "jpg"]> (<["png" := "png"]>
  (<["webp" := "webp"]> (<["avif" := "avif"]> ∅))).

(** The four names both tables list. *)
Definition exportFormats : list string := ["jpeg"; "png"; "webp"; "avif"].

Definition getMimeType (format : string) : StrValue :=
  or_str (GetStr mimeTypes format) (SString "image/png").

Definition getExtension (format : string) : StrValue :=
  or_str (GetStr extensions format) (SString "png").

(** An [img] element of the page. *)
Record PageImage := mkPageImage {
  element : HTMLImageElement;
  img_src : string;
  img_alt : string
}.

Record ExtractedImage := mkExtracted {
  ex_src : string;
  ex_alt : string;
  ex_width : Q;
  ex_height : Q;
  ex_dataUrl : string
}.

(** The payload of an import. *)
Record ImageData := mkImageData {
  src : string;
  dataUrl : string;
  width : Q;
  height : Q;
  timestamp : Z
}.

(** The answers of the message listener, one shape per action:
    [{success: true, imageData}], [{success: true}], [{images}], and
    [{success: false, error}] or [{error}] on failure. *)
Inductive ProcessResponse :=
| ProcessOk (imageData : ImageData)
| ProcessFailed (error : string).

Inductive ExportResponse :=
| ExportOk
| ExportFailed (error : string).

(** What [exportImageDirect] hands to the browser for download: the name
    [solanam-export-<now>.<extension>] and the encoded blob. *)
Record Download := mkDownload {
  file_stem : string;
  file_extension : StrValue;
  content : CompressionManager.Blob
}.

(** [a > b] on numbers. *)
Definition gt (a b : Q) : bool := negb (Qle_bool a b).

Section Host.
(** [canvas.toDataURL('image/png')]: the URL, or the message of the
    exception it throws (a canvas tainted by a cross-origin image). *)
Variable toDataURL : Canvas -> string + string.
(** Loading an image from a URL: [onload] with the decoded element, or
    [onerror]. *)
Variable load : string -> option HTMLImageElement.
(** [canvas.toBlob] with a MIME type and an optional quality: a blob or
    null, or the message of the exception it throws. *)
Variable toBlob : Canvas -> StrValue -> option Q
                  -> option CompressionManager.Blob + string.
(** [Date.now()]. *)
Variable now : Z.

(** The canvas every function of the script prepares: the image's natural
    size, the image drawn at the origin. *)
Definition canvasOf (img : HTMLImageElement) : Canvas :=
  let canvas := createCanvas in
  let canvas := set_width canvas (naturalWidth img) in
  let canvas := set_height canvas (naturalHeight img) in
  drawImage canvas (DrawImage3 img 0 0).

Definition processImageFromContext (imageUrl : string) : Promise ImageData :=
  match load imageUrl with
  | Some img =>
      match toDataURL (canvasOf img) with
      | inl dataUrl =>
          Resolved (mkImageData imageUrl dataUrl (naturalWidth img)
                                (naturalHeight img) now)
      | inr message => Rejected ("Failed to process image: " +:+ message)
      end
  | None => Rejected "Failed to load image from URL"
  end.

Definition exportImageDirect (imageUrl format : string) : Promise Download :=
  match load imageUrl with
  | Some img =>
      let canvas := canvasOf img in
      let mimeType := getMimeType format in
      let quality := if String.eqb format "jpeg" then Some (9 # 10) else None in
      match toBlob canvas mimeType quality with
      | inl (Some blob) =>
          Resolved (mkDownload ("solanam-export-" +:+ pretty now)
                               (getExtension format) blob)
      | inl None => Rejected "Failed to create blob"
      | inr message => Rejected message
      end
  | None => Rejected "Failed to load image"
  end.

(** The two branches of the message listener the background script
    talks to. *)
Definition onProcessImageFromContext (imageUrl : string) : ProcessResponse :=
  match processImageFromContext imageUrl with
  | Resolved imageData => ProcessOk imageData
  | Rejected message => ProcessFailed message
  end.

Definition onExportImageDirect (imageUrl format : string)
  : ExportResponse * option Download :=
  match exportImageDirect imageUrl format with
  | Resolved download => (ExportOk, Some download)
  | Rejected message => (ExportFailed message, None)
  end.

(** The body of the loop of [extractPageImages] for one element: the
    entry pushed, if any. *)
Definition extractOne (img : PageImage) : option ExtractedImage :=
  if nonEmpty (img_src img)
     && gt (naturalWidth (element img)) 100
     && gt (naturalHeight (element img)) 100
  then
    match toDataURL (canvasOf (element img)) with
    | inl dataUrl =>
        Some (mkExtracted (img_src img)
                          (if nonEmpty (img_alt img) then img_alt img else "Image")
                          (naturalWidth (element img))
                          (naturalHeight (element img)) dataUrl)
    | inr _ => None
    end
  else None.

Fixpoint extractPageImages (imgElements : list PageImage)
  : list ExtractedImage :=
  match imgElements with
  | [] => []
  | img :: rest =>
      match extractOne img with
      | Some entry => entry :: extractPageImages rest
      | None => extractPageImages rest
      end
  end.
End Host.

End ContentScript.

(** ** Background script (background.js) *)
Module Background.
Import ContentScript.

Record MenuItem := mkMenuItem {
  item_id : string;
  item_parentId : option string;
  item_title : option string;
  item_separator : bool
}.

Record ExportFormat := mkExportFormat {
  fmt_id : string;
  fmt_title : string;
  fmt_format : string
}.

Definition formats : list ExportFormat :=
  [ mkExportFormat "export-jpeg" "Export as JPEG" "jpeg";
    mkExportFormat "export-png" "Export as PNG" "png";
    mkExportFormat "export-webp" "Export as WebP" "webp";
    mkExportFormat "export-avif" "Export as AVIF" "avif" ].

(** The items [createContextMenus] creates, in order, after
    [removeAll]. *)
Definition createContextMenus : list MenuItem :=
  let menus := [] in
  let menus := push menus [mkMenuItem "solanam-main" None
                             (Some "SolanaM Image Studio") false] in
  let menus := push menus [mkMenuItem "solanam-import" (Some "solanam-main")
                             (Some "📥 Import to Studio") false] in
  let menus := push menus [mkMenuItem "solanam-export" (Some "solanam-main")
                             (Some "📤 Quick Export") false] in
  let menus :=
    fold_left (fun menus format =>
                 push menus [mkMenuItem (fmt_id format) (Some "solanam-export")
                               (Some (fmt_title format)) false])
              formats menus in
  let menus := push menus [mkMenuItem "separator" (Some "solanam-main")
                             None true] in
  push menus [mkMenuItem "solanam-about" (Some "solanam-main")
                (Some "🌟 About SolanaM Ecosystem") false].

(** The items that only structure the menu. *)
Definition structuralIds : list string :=
  ["solanam-main"; "solanam-export"; "separator"].

(** What [chrome.storage.local] holds under a key. *)
Inductive Stored :=
| StoredImage (imageData : ImageData)
| StoredNumber (n : Z).

Record Notification := mkNotification {
  note_title : string;
  note_message : string
}.

Record State := mkState {
  storage : gmap string Stored;
  notifications : list Notification;
  tabsOpened : list string
}.

Definition initial : State := mkState ∅ [] [].

(** The [info] of a context-menu click. *)
Record ClickInfo := mkClick {
  menuItemId : string;
  srcUrl : string
}.

(** [chrome.tabs.sendMessage] to the tab's content script, per action: a
    response, or none when the call yields [undefined] or throws, both of
    which the callers ignore. *)
Record Channel := mkChannel {
  sendProcess : string -> option ProcessResponse;
  sendExport : string -> string -> option ExportResponse
}.

Definition importImage (send : Channel) (now : Z) (info : ClickInfo)
    (st : State) : State :=
  match sendProcess send (srcUrl info) with
  | Some (ProcessOk imageData) =>
      mkState (<["contextImageTimestamp" := StoredNumber now]>
                 (<["contextImage" := StoredImage imageData]> (storage st)))
              (notifications st ++
                 [mkNotification "SolanaM Image Studio"
                    "Image imported successfully! Open the extension to edit."])
              (tabsOpened st)
  | Some (ProcessFailed _) | None => st
  end.

Definition exportImage (send : Channel) (info : ClickInfo) (format : string)
    (st : State) : State :=
  match sendExport send (srcUrl info) format with
  | Some ExportOk =>
      mkState (storage st)
              (notifications st ++
                 [mkNotification "SolanaM Image Studio"
                    ("Image exported as " +:+ toUpperCase format
                     +:+ " successfully!")])
              (tabsOpened st)
  | Some (ExportFailed _) | None => st
  end.

Definition showAbout (st : State) : State :=
  mkState (storage st) (notifications st) (tabsOpened st ++ ["https://solanam.com"]).

Definition handleContextMenuClick (send : Channel) (now : Z) (info : ClickInfo)
    (st : State) : State :=
  if String.eqb (menuItemId info) "solanam-import" then
    importImage send now info st
  else if startsWith (menuItemId info) "export-" then
    let format := replaceFirst "export-" "" (menuItemId info) in
    exportImage send info format st
  else if String.eqb (menuItemId info) "solanam-about" then
    showAbout st
  else st.

(** What the popup is answered. *)
Inductive Reply :=
| ContextImage (imageData : Stored)
| Ok
| Error (error : string).

(** [result.contextImageTimestamp || 0] and then [now - timestamp]: the
    difference, or none when the stored value is no number. *)
Definition age (now : Z) (stored : option Stored) : option Z :=
  match stored with
  | None => Some (now - 0)%Z
  | Some (StoredNumber n) => Some (now - (if (n =? 0)%Z then 0 else n))%Z
  | Some (StoredImage _) => None
  end.

(** A stored value used as a condition. *)
Definition truthyStored (stored : option Stored) : bool :=
  match stored with
  | None => false
  | Some (StoredImage _) => true
  | Some (StoredNumber n) => negb (n =? 0)%Z
  end.

Definition handleMessage (action : string) (now : Z) (st : State)
  : Reply * State :=
  if String.eqb action "getContextImage" then
    let contextImage := storage st !! "contextImage" in
    let recent :=
      match age now (storage st !! "contextImageTimestamp") with
      | Some d => (d <? 30000)%Z
      | None => false
      end in
    match contextImage with
    | Some image =>
        if truthyStored contextImage && recent then
          (ContextImage image,
           mkState (delete "contextImageTimestamp"
                           (delete "contextImage" (storage st)))
                   (notifications st) (tabsOpened st))
        else (Error "No recent context image", st)
    | None => (Error "No recent context image", st)
    end
  else if String.eqb action "openSettings" then (Ok, st)
  else (Error "Unknown action", st).

End Background.

(** ** The crop overlay and the document's listeners *)
Module CropOverlay.
Import CropManager.

(** The left and top of a [getBoundingClientRect()]. *)
Record ClientRect := mkClientRect {
  rect_left : Q;
  rect_top : Q
}.

(** Where the preview image and its parent element are displayed. *)
Record Layout := mkLayout {
  imageRect : ClientRect;
  containerRect : ClientRect
}.

Inductive BoxChild :=
| Guidelines
| Handle (name : string).

(** The [crop-box]: the pixel values of its [style.left], [top], [width]
    and [height], and its children in order.  The four values are
    rationals, computed exactly; the properties of the overlay are about
    its elements and the listeners, not about these values. *)
Record CropBox := mkCropBox {
  box_left : Q;
  box_top : Q;
  box_width : Q;
  box_height : Q;
  box_children : list BoxChild
}.

(** A child of the preview's parent element: a [crop-overlay] with its
    box, or any other element, none of which carries that class. *)
Inductive Node :=
| Overlay (box : CropBox)
| Other (tag : string).

(** A pair of listeners [addCropInteractivity] registered on the
    document, with the variables and the image they close over. *)
Record Listener := mkListener {
  closure : Closure;
  captured : HTMLImageElement
}.

Record Page := mkPage {
  engine : State;
  container : option (list Node);
  listeners : list Listener
}.

(** [container.querySelector('.crop-overlay')] followed by [remove()]. *)
Fixpoint removeFirstOverlay (children : list Node) : list Node :=
  match children with
  | [] => []
  | Overlay _ :: rest => rest
  | Other tag :: rest => Other tag :: removeFirstOverlay rest
  end.

Definition isOverlay (n : Node) : bool :=
  match n with
  | Overlay _ => true
  | Other _ => false
  end.

Definition overlays (page : Page) : list Node :=
  match container page with
  | Some children => filter (fun n => isOverlay n = true) children
  | None => []
  end.

Definition applyCropOverlay (previewImage : HTMLImageElement)
    (layout : Layout) (page : Page) : option Page :=
  match container page with
  | None => Some page
  | Some children =>
      let children := removeFirstOverlay children in
      match current (engine page) with
      | None => None
      | Some cropSettings =>
          if negb (enabled cropSettings) then
            Some (mkPage (engine page) (Some children) (listeners page))
          else
            let relativeLeft :=
              rect_left (imageRect layout) - rect_left (containerRect layout) in
            let relativeTop :=
              rect_top (imageRect layout) - rect_top (containerRect layout) in
            let cropLeft :=
              relativeLeft + (x cropSettings / 100) * offsetWidth previewImage in
            let cropTop :=
              relativeTop + (y cropSettings / 100) * offsetHeight previewImage in
            let cropWidth := (width cropSettings / 100) * offsetWidth previewImage in
            let cropHeight :=
              (height cropSettings / 100) * offsetHeight previewImage in
            let cropBox :=
              mkCropBox cropLeft cropTop cropWidth cropHeight
                        (Guidelines :: map Handle handles) in
            Some (mkPage (engine page)
                         (Some (children ++ [Overlay cropBox])%list)
                         (listeners page ++ [mkListener initialClosure previewImage]))
      end
  end.

(** A [mousedown] on the box of the k-th registered listener. *)
Definition cropBoxMouseDown (k : nat) (e : MouseEvent) (page : Page)
  : option Page :=
  match listeners page !! k with
  | None => Some page
  | Some l =>
      match onMouseDown e (closure l) (engine page) with
      | Some (c, σ) =>
          Some (mkPage σ (container page)
                       (<[k := mkListener c (captured l)]> (listeners page)))
      | None => None
      end
  end.

(** A [mousemove] on the document: every registered listener runs, in
    the order of registration. *)
Fixpoint runMoveListeners (e : MouseEvent) (ls : list Listener) : M unit :=
  match ls with
  | [] => ret tt
  | l :: rest =>
      bind (onMouseMove (captured l) e (closure l))
           (fun _ => runMoveListeners e rest)
  end.

Definition documentMouseMove (e : MouseEvent) (page : Page) : option Page :=
  match runMoveListeners e (listeners page) (engine page) with
  | Some (_, σ) => Some (mkPage σ (container page) (listeners page))
  | None => None
  end.

(** A [mouseup] on the document. *)
Definition documentMouseUp (page : Page) : Page :=
  mkPage (engine page) (container page)
         (map (fun l => mkListener (onMouseUp (closure l)) (captured l))
              (listeners page)).

Definition idle (l : Listener) : Prop :=
  isDragging (closure l) = false /\ isResizing (closure l) = false.

(** [new CropManager()] beside an image with the given siblings. *)
Definition construct (children : option (list Node)) : Page :=
  mkPage CropManager.construct children [].

(** Rendering the overlay n times over. *)
Fixpoint render (n : nat) (previewImage : HTMLImageElement) (layout : Layout)
    (page : Page) : option Page :=
  match n with
  | O => Some page
  | S n' =>
      match applyCropOverlay previewImage layout page with
      | Some page' => render n' previewImage layout page'
      | None => None
      end
  end.

End CropOverlay.

(** ** The orchestrator's handling of files and of the crop engine
    (components/ImageProcessor.ts)

    The fields and calls of [ImageProcessor] that concern the file
    validator and the crop engine; the markup it rewrites is left out, and
    its calls into the overlay, the compression and the toasts are
    recorded in order. *)
Module ImageProcessor.
Import FileHandler FileHandlerIO.

Inductive Call :=
| ShowProgress (progress : Z)
| HideProgress
| ToastError (message : option string)
| ToastSuccess (message : string)
| ApplyCropOverlay
| RemoveCropOverlay
| UpdateCompression
| UpdateCompressionLater
| ClearFilter.

Record Studio := mkStudio {
  cropManager : CropManager.State;
  currentImage : option HTMLImageElement;
  currentFile : option File;
  compressionResult : option CompressionManager.CompressionResult;
  isCropEnabled : bool;
  calls : list Call
}.

(** The values [parseInt] reads off the four crop sliders. *)
Record Sliders := mkSliders {
  cropLeft : Z;
  cropTop : Z;
  cropWidth : Z;
  cropHeight : Z
}.

(** The ranges the markup gives the sliders. *)
Definition inRange (sl : Sliders) : Prop :=
  (0 <= cropLeft sl <= 50)%Z /\ (0 <= cropTop sl <= 50)%Z
  /\ (10 <= cropWidth sl <= 100)%Z /\ (10 <= cropHeight sl <= 100)%Z.

(** [new ImageProcessor()]. *)
Definition construct : Studio :=
  mkStudio CropManager.construct None None None false [].

Definition withManager (st : Studio) (r : option (unit * CropManager.State))
    (k : Studio -> Studio) : option Studio :=
  match r with
  | Some (_, σ) =>
      Some (k (mkStudio σ (currentImage st) (currentFile st)
                        (compressionResult st) (isCropEnabled st) (calls st)))
  | None => None
  end.

Definition call (c : list Call) (st : Studio) : Studio :=
  mkStudio (cropManager st) (currentImage st) (currentFile st)
           (compressionResult st) (isCropEnabled st) (calls st ++ c).

Definition updateCrop (sl : Sliders) (st : Studio) : option Studio :=
  match currentImage st with
  | None => Some st
  | Some _ =>
      if negb (isCropEnabled st) then Some st
      else
        withManager st
          (CropManager.setCropSettings
             (CropManager.mkPartial (Some (inject_Z (cropLeft sl)))
                                    (Some (inject_Z (cropTop sl)))
                                    (Some (inject_Z (cropWidth sl)))
                                    (Some (inject_Z (cropHeight sl)))
                                    (Some true))
             (cropManager st))
          (call [ApplyCropOverlay; UpdateCompression])
  end.

Definition toggleCrop (sl : Sliders) (st : Studio) : option Studio :=
  let st := mkStudio (cropManager st) (currentImage st) (currentFile st)
                     (compressionResult st) (negb (isCropEnabled st))
                     (calls st) in
  if isCropEnabled st then
    match withManager st
            (CropManager.setCropSettings
               (CropManager.mkPartial None None None None (Some true))
               (cropManager st))
            (fun st => st) with
    | Some st => updateCrop sl st
    | None => None
    end
  else
    withManager st
      (CropManager.setCropSettings
         (CropManager.mkPartial None None None None (Some false))
         (cropManager st))
      (call [RemoveCropOverlay; UpdateCompression]).

Definition resetToUpload (st : Studio) : option Studio :=
  let st := mkStudio (cropManager st) None None None false (calls st) in
  withManager st (CropManager.resetCrop (cropManager st))
              (call [ToastSuccess "Ready for new image!"]).

Definition resetAll (sl : Sliders) (st : Studio) : option Studio :=
  match (if isCropEnabled st then toggleCrop sl st else Some st) with
  | Some st =>
      Some (call [ClearFilter; UpdateCompressionLater;
                  ToastSuccess "All settings reset!"] st)
  | None => None
  end.

(** The [onload] of the preview image after an upload. *)
Definition imageLoaded (previewImage : HTMLImageElement) (file : File)
    (st : Studio) : Studio :=
  mkStudio (cropManager st) (Some previewImage) (Some file)
           (compressionResult st) (isCropEnabled st)
           (calls st ++ [ShowProgress 80; ShowProgress 100]).

(** The callback [onload] sets up half a second later. *)
Definition imageShown (st : Studio) : Studio :=
  call [HideProgress; UpdateCompression;
        ToastSuccess "Image loaded successfully!"] st.

(** [handleFileUpload] up to the assignment of [previewImage.src]: the
    new state and the URL assigned, if any. *)
Definition handleFileUpload (readAsDataURL : File -> ReaderEvent)
    (file : File) (st : Studio) : Studio * option string :=
  let st := call [ShowProgress 20] st in
  let validation := validateImageFile file in
  if negb (valid validation) then
    (call [ToastError (error validation)] st, None)
  else
    let st := call [ShowProgress 40] st in
    match loadImage readAsDataURL file with
    | Resolved imageUrl => (call [ShowProgress 60] st, Some imageUrl)
    | Rejected _ =>
        (call [HideProgress;
               ToastError (Some "Error loading image. Please try again.")] st,
         None)
    end.

(** The listener of [cropUpdate] runs once for every event a gesture
    dispatches, one for each pointer move: it re-renders the overlay and
    recompresses. *)
Fixpoint onCropUpdates (events : nat) : list Call :=
  match events with
  | O => []
  | S n => ApplyCropOverlay :: UpdateCompression :: onCropUpdates n
  end.

(** What the user and the page can do to the crop state; a gesture is
    allowed whether or not an overlay is displayed. *)
Inductive Action :=
| ToggleCrop (sl : Sliders)
| SliderInput (sl : Sliders)
| NewImage
| ResetAll (sl : Sliders)
| ImageLoaded (previewImage : HTMLImageElement) (file : File)
| ImageShown
| Gesture (previewImage : HTMLImageElement) (down : CropManager.MouseEvent)
          (moves : list CropManager.MouseEvent).

Definition step (a : Action) (st : Studio) : option Studio :=
  match a with
  | ToggleCrop sl => toggleCrop sl st
  | SliderInput sl => updateCrop sl st
  | NewImage => resetToUpload st
  | ResetAll sl => resetAll sl st
  | ImageLoaded previewImage file => Some (imageLoaded previewImage file st)
  | ImageShown => Some (imageShown st)
  | Gesture previewImage down moves =>
      match CropManager.gesture previewImage down moves (cropManager st) with
      | Some (_, σ) =>
          Some (mkStudio σ (currentImage st) (currentFile st)
                         (compressionResult st) (isCropEnabled st)
                         (calls st ++ onCropUpdates (length moves)))
      | None => None
      end
  end.

Fixpoint run (actions : list Action) (st : Studio) : option Studio :=
  match actions with
  | [] => Some st
  | a :: rest =>
      match step a st with
      | Some st' => run rest st'
      | None => None
      end
  end.

(** The orchestrator's flag and the manager's [enabled] agree. *)
Definition consistent (st : Studio) : Prop :=
  exists s, CropManager.current (cropManager st) = Some s
            /\ CropManager.enabled s = isCropEnabled st.

End ImageProcessor.

(** ** Theme (utils/app and components/ImageProcessor.ts) *)
Module Theme.

(** What of the browser the theme code reads and writes. *)
Record Browser := mkBrowser {
  localStorage : gmap string string;
  dataTheme : option string;
  title : string;
  viewport : option string;
  errorListeners : nat
}.

(** [savedTheme === 'dark' || (!savedTheme && prefersDark)], where
    [savedTheme] is what [localStorage.getItem] returned. *)
Definition darkFrom (savedTheme : option string) (prefersDark : bool) : bool :=
  match savedTheme with
  | Some s => String.eqb s "dark" || (negb (nonEmpty s) && prefersDark)
  | None => prefersDark
  end.

Definition themeName (isDarkMode : bool) : string :=
  if isDarkMode then "dark" else "light".

Section Host.
(** [window.matchMedia('(prefers-color-scheme: dark)').matches]. *)
Variable prefersDark : bool.

Definition initializeApp (b : Browser) : Browser :=
  let savedTheme := localStorage b !! "solanam-theme" in
  let isDarkMode := darkFrom savedTheme prefersDark in
  mkBrowser (localStorage b) (Some (themeName isDarkMode))
            "SolanaM Image Studio"
            (match viewport b with
             | Some content => Some content
             | None => Some "width=device-width, initial-scale=1.0"
             end)
            (errorListeners b + 2).

(** [ImageProcessor.applyTheme]. *)
Definition applyTheme (isDarkMode : bool) (b : Browser) : Browser :=
  mkBrowser (localStorage b) (Some (themeName isDarkMode)) (title b)
            (viewport b) (errorListeners b).

(** [ImageProcessor.initializeTheme]: the new [isDarkMode] and the
    browser. *)
Definition initializeTheme (b : Browser) : bool * Browser :=
  let savedTheme := localStorage b !! "theme" in
  let isDarkMode := darkFrom savedTheme prefersDark in
  (isDarkMode, applyTheme isDarkMode b).

(** The theme at the end of [main]: [initializeApp()], then the
    constructor of [ImageProcessor]. *)
Definition startup (b : Browser) : bool * Browser :=
  initializeTheme (initializeApp b).
End Host.

(** [ImageProcessor.toggleTheme]. *)
Definition toggleTheme (isDarkMode : bool) (b : Browser) : bool * Browser :=
  let isDarkMode := negb isDarkMode in
  let b := mkBrowser (<["theme" := themeName isDarkMode]> (localStorage b))
                     (dataTheme b) (title b) (viewport b) (errorListeners b) in
  (isDarkMode, applyTheme isDarkMode b).

End Theme.

(** ** The content script as the background script's channel, and sample
    pages *)
Module SampleExtension.
Import PrimFloat.
Import ContentScript Background.

(** The channel to a tab whose content script runs on the given host. *)
Definition contentChannel (toDataURL : Canvas -> string + string)
    (load : string -> option HTMLImageElement)
    (toBlob : Canvas -> StrValue -> option Q
              -> option CompressionManager.Blob + string)
    (now : Z) : Channel :=
  mkChannel
    (fun imageUrl =>
       Some (onProcessImageFromContext toDataURL load now imageUrl))
    (fun imageUrl format =>
       Some (onExportImageDirect load toBlob now imageUrl format).1).

(** A host on which every canvas exports, except those of images 333
    pixels wide, which are tainted. *)
Definition toDataURL (canvas : Canvas) : string + string :=
  if Qeq_bool (canvas_width canvas) 333 then inr "SecurityError"
  else inl "data:image/png;base64,AAAA".

Definition banner : HTMLImageElement := mkImage 640 480 320 240 "".

Definition load (url : string) : option HTMLImageElement :=
  if String.eqb url "https://example.org/banner.png" then Some banner else None.

Definition toBlob (canvas : Canvas) (mime : StrValue) (quality : option Q)
  : option CompressionManager.Blob + string :=
  inl (Some (CompressionManager.mkBlob 2048
               (match mime with SString s => s | _ => "image/png" end))).

Definition page : list PageImage :=
  [ mkPageImage (mkImage 640 480 320 240 "") "https://example.org/banner.png" "";
    mkPageImage (mkImage 16 16 16 16 "") "https://example.org/icon.png" "icon";
    mkPageImage (mkImage 333 400 333 400 "") "https://cdn.example.net/x.png" "x";
    mkPageImage (mkImage 300 200 300 200 "") "" "inline";
    mkPageImage (mkImage 300 200 300 200 "") "https://example.org/cat.jpg" "a cat" ].

Definition bannerData : ImageData :=
  mkImageData "https://example.org/banner.png" "data:image/png;base64,AAAA"
              640 480 1700000000000.

End SampleExtension.

(** * Properties *)

(** ** Arrays of strings *)

Lemma includes_elem_of (arr : list string) (s : string) :
  includes arr s = true <-> s ∈ arr.
Proof.
  induction arr as [|y rest IH]; simpl.
  - split; [discriminate | intros H; inversion H].
  - destruct (String.eqb_spec y s) as [->|Hne].
    + split; [intros _; left | reflexivity].
    + rewrite IH. split; [intros H; by right |].
      intros H. apply elem_of_cons in H as [->|H]; [congruence | exact H].
Qed.

Lemma includes_not_elem_of (arr : list string) (s : string) :
  includes arr s = false <-> s ∉ arr.
Proof.
  rewrite <- includes_elem_of. destruct (includes arr s); split; congruence.
Qed.

(** ** Numbers *)
Module NumberSpec.
Import PrimFloat FloatOps SpecFloat FloatAxioms.
Import Number.

Lemma SFcompare_None (p q : spec_float) :
  SFcompare p q = None <-> p = S754_nan \/ q = S754_nan.
Proof.
  destruct p as [[]|[]| |[] ? ?], q as [[]|[]| |[] ? ?]; simpl;
    (split; [intros H; try discriminate H; auto
           | intros [H|H]; try discriminate H; reflexivity]).
Qed.

Lemma SFcompare_refl (p : spec_float) :
  p <> S754_nan -> SFcompare p p = Some Eq.
Proof.
  destruct p as [[]|[]| |[] m e]; simpl; try congruence; intros _;
    rewrite Z.compare_refl, Pos.compare_cont_refl; reflexivity.
Qed.

Lemma SFcompare_antisym (p q : spec_float) (c : comparison) :
  SFcompare p q = Some c -> SFcompare q p = Some (CompOpp c).
Proof.
  assert (forall m1 m2, Pos.compare_cont Eq m2 m1
                        = CompOpp (Pos.compare_cont Eq m1 m2)) as Hpos.
  { intros m1 m2. by rewrite (Pos.compare_cont_antisym m1 m2 Eq). }
  destruct p as [[]|[]| |[] m1 e1], q as [[]|[]| |[] m2 e2]; simpl;
    try discriminate; try (intros [= <-]; reflexivity);
    intros [= <-]; rewrite (Z.compare_antisym e1 e2), Hpos;
    destruct (e1 ?= e2)%Z; simpl; try reflexivity;
    by rewrite ?CompOpp_involutive.
Qed.

Lemma is_nan_spec (f : float) : is_nan f = true <-> Prim2SF f = S754_nan.
Proof.
  unfold is_nan. rewrite eqb_spec. unfold SFeqb. split.
  - intros H. destruct (Prim2SF f) eqn:E; try reflexivity;
      rewrite SFcompare_refl in H by discriminate; discriminate.
  - intros ->. reflexivity.
Qed.

Lemma is_nan_false (f : float) : is_nan f = false <-> Prim2SF f <> S754_nan.
Proof.
  rewrite <- is_nan_spec. destruct (is_nan f); split; congruence.
Qed.

(** What the four outcomes of a comparison say. *)
Lemma compare_cases (a b : float) :
  match compare a b with
  | FNotComparable => is_nan a = true \/ is_nan b = true
  | FLt => is_nan a = false /\ is_nan b = false
           /\ (a <? b)%float = true /\ (a <=? b)%float = true
           /\ (b <? a)%float = false
  | FGt => is_nan a = false /\ is_nan b = false
           /\ (b <? a)%float = true /\ (b <=? a)%float = true
           /\ (a <? b)%float = false
  | FEq => is_nan a = false /\ is_nan b = false
           /\ (a <=? b)%float = true /\ (b <=? a)%float = true
           /\ (a <? b)%float = false /\ (b <? a)%float = false
  end.
Proof.
  rewrite compare_spec, !ltb_spec, !leb_spec. unfold SFltb, SFleb.
  destruct (SFcompare (Prim2SF a) (Prim2SF b)) as [c|] eqn:E.
  - assert (is_nan a = false /\ is_nan b = false) as [Ha Hb].
    { split; apply is_nan_false; intros H;
        assert (SFcompare (Prim2SF a) (Prim2SF b) = None) as E'
          by (apply SFcompare_None; auto); congruence. }
    rewrite (SFcompare_antisym _ _ _ E).
    destruct c; simpl; by repeat split.
  - simpl. apply SFcompare_None in E as [E|E]; [left | right];
      by apply is_nan_spec.
Qed.

Lemma leb_refl (a : float) : is_nan a = false -> (a <=? a)%float = true.
Proof.
  intros H. apply is_nan_false in H. rewrite leb_spec. unfold SFleb.
  by rewrite SFcompare_refl.
Qed.

Lemma leb_not_nan (a b : float) :
  (a <=? b)%float = true -> is_nan a = false /\ is_nan b = false.
Proof.
  rewrite leb_spec. unfold SFleb. rewrite !is_nan_false.
  destruct (SFcompare (Prim2SF a) (Prim2SF b)) eqn:E; [|discriminate].
  intros _. split; intros H;
    assert (SFcompare (Prim2SF a) (Prim2SF b) = None) as E'
      by (apply SFcompare_None; auto); congruence.
Qed.

(** [a <= b] excludes [b < a]. *)
Lemma leb_not_gt (a b : float) :
  (a <=? b)%float = true -> (b <? a)%float = false.
Proof.
  intros H. pose proof (compare_cases a b) as Hc.
  destruct (compare a b); try tauto.
  - destruct Hc as (_ & _ & Hlt & _ & _).
    pose proof (compare_cases b a) as Hc'.
    rewrite leb_spec in H. rewrite ltb_spec in Hlt. unfold SFleb, SFltb in *.
    destruct (SFcompare (Prim2SF b) (Prim2SF a)) as [[]|] eqn:E;
      try discriminate.
    rewrite (SFcompare_antisym _ _ _ E) in H. discriminate.
  - destruct Hc as [Hn|Hn]; apply leb_not_nan in H as [Ha Hb]; congruence.
Qed.

(** [Math.max] yields [NaN] when an argument is [NaN], and otherwise one of
    its arguments, no smaller than the other. *)
Lemma Math_max_cases (a b : float) :
  (Math_max a b = nan /\ (is_nan a = true \/ is_nan b = true))
  \/ (is_nan a = false /\ is_nan b = false
      /\ ((Math_max a b = a /\ (b <=? a)%float = true)
          \/ (Math_max a b = b /\ (a <=? b)%float = true))).
Proof.
  unfold Math_max. pose proof (compare_cases a b) as Hc.
  destruct (compare a b).
  - right. destruct Hc as (Ha & Hb & Hab & Hba & _).
    split; [exact Ha|]. split; [exact Hb|].
    destruct (get_sign a); [right | left]; by split.
  - right. destruct Hc as (Ha & Hb & _ & Hab & _). by repeat split; [..|right].
  - right. destruct Hc as (Ha & Hb & _ & Hba & _). by repeat split; [..|left].
  - by left.
Qed.

Lemma Math_min_cases (a b : float) :
  (Math_min a b = nan /\ (is_nan a = true \/ is_nan b = true))
  \/ (is_nan a = false /\ is_nan b = false
      /\ ((Math_min a b = a /\ (a <=? b)%float = true)
          \/ (Math_min a b = b /\ (b <=? a)%float = true))).
Proof.
  unfold Math_min. pose proof (compare_cases a b) as Hc.
  destruct (compare a b).
  - right. destruct Hc as (Ha & Hb & Hab & Hba & _).
    split; [exact Ha|]. split; [exact Hb|].
    destruct (get_sign a); [left | right]; by split.
  - right. destruct Hc as (Ha & Hb & _ & Hab & _). by repeat split; [..|left].
  - right. destruct Hc as (Ha & Hb & _ & Hba & _). by repeat split; [..|right].
  - by left.
Qed.

Lemma is_nan_nan : is_nan nan = true.
Proof. reflexivity. Qed.

(** [NaN] is absorbing for the sum, the difference, [Math.max] and
    [Math.min]. *)
Lemma is_nan_add (a b : float) :
  is_nan a = true \/ is_nan b = true -> is_nan (a + b)%float = true.
Proof.
  rewrite !is_nan_spec, add_spec. unfold SF64add.
  intros [-> | ->]; [reflexivity|]. by destruct (Prim2SF a) as [[]|[]| |[] ? ?].
Qed.

Lemma is_nan_sub (a b : float) :
  is_nan a = true \/ is_nan b = true -> is_nan (a - b)%float = true.
Proof.
  rewrite !is_nan_spec, sub_spec. unfold SF64sub.
  intros [-> | ->]; [reflexivity|]. by destruct (Prim2SF a) as [[]|[]| |[] ? ?].
Qed.

Lemma is_nan_Math_max (a b : float) :
  is_nan a = true \/ is_nan b = true -> is_nan (Math_max a b) = true.
Proof.
  intros H. destruct (Math_max_cases a b) as [[-> _] | (Ha & Hb & _)];
    [reflexivity|]. destruct H; congruence.
Qed.

Lemma is_nan_Math_min (a b : float) :
  is_nan a = true \/ is_nan b = true -> is_nan (Math_min a b) = true.
Proof.
  intros H. destruct (Math_min_cases a b) as [[-> _] | (Ha & Hb & _)];
    [reflexivity|]. destruct H; congruence.
Qed.

(** [Math.max(lo, v)] is [NaN] or at least [lo]. *)
Lemma Math_max_atLeast (lo v : float) :
  is_nan (Math_max lo v) = true \/ (lo <=? Math_max lo v)%float = true.
Proof.
  destruct (Math_max_cases lo v) as [[-> _] | (Hlo & Hv & [[-> _] | [-> H]])].
  - by left.
  - right. by apply leb_refl.
  - by right.
Qed.

(** [Math.max(lo, Math.min(hi, v))] with [lo <= hi] is [NaN] exactly when
    [v] is, and otherwise lies between [lo] and [hi]. *)
Lemma clamp_within (lo hi v : float) :
  (lo <=? hi)%float = true ->
  let r := Math_max lo (Math_min hi v) in
  (is_nan r = true /\ is_nan v = true)
  \/ (is_nan r = false /\ is_nan v = false
      /\ (lo <=? r)%float = true /\ (r <=? hi)%float = true).
Proof.
  intros Hle r. destruct (leb_not_nan _ _ Hle) as [Hlo Hhi].
  assert (is_nan v = true \/
          (is_nan v = false /\ is_nan (Math_min hi v) = false
           /\ (Math_min hi v <=? hi)%float = true)) as [Hv | (Hv & Hm & Hmh)].
  { destruct (Math_min_cases hi v) as [[_ [H|H]] | (_ & Hv & [[-> _] | [-> H]])].
    - congruence.
    - by left.
    - right. split; [exact Hv|]. split; [exact Hhi | by apply leb_refl].
    - right. by repeat split. }
  - left. split; [|exact Hv]. unfold r.
    destruct (Math_min_cases hi v) as [[-> _] | (_ & Hv' & _)]; [|congruence].
    destruct (Math_max_cases lo nan) as [[-> _] | (_ & Hn & _)];
      [reflexivity | discriminate].
  - right. unfold r.
    destruct (Math_max_cases lo (Math_min hi v))
      as [[_ [H|H]] | (_ & _ & [[-> H] | [-> H]])]; try congruence.
    + split; [exact Hlo|]. split; [exact Hv|]. split; [by apply leb_refl | exact Hle].
    + split; [exact Hm|]. split; [exact Hv|]. by split.
Qed.

(** [a = b] as the language tests it is equality of the numbers when [b]
    is finite and not zero. *)
Lemma eqb_finite (a b : float) s m e :
  Prim2SF b = S754_finite s m e -> ((a =? b)%float = true <-> a = b).
Proof.
  intros Hb. split.
  - rewrite eqb_spec, Hb. unfold SFeqb. intros H. apply Prim2SF_inj. rewrite Hb.
    destruct (Prim2SF a) as [[]|[]| |s1 m1 e1]; simpl in H;
      try (destruct s; discriminate).
    destruct s1, s; try discriminate;
      destruct (e1 ?= e)%Z eqn:Ee; try discriminate;
      apply Z.compare_eq in Ee as ->;
      destruct (Pos.compare_cont Eq m1 m) eqn:Em; try discriminate;
      apply Pos.compare_eq in Em as ->; reflexivity.
  - intros ->. rewrite eqb_spec, Hb. unfold SFeqb.
    by rewrite SFcompare_refl.
Qed.









End NumberSpec.

(** ** Filter compositor *)
Module FilterSpec.
Import PrimFloat FilterManager.

(** The [switch] appends the table's row for the name, and nothing for a
    name the table lacks. *)
Lemma presetCase_lookup (name : string) (filters : list string) :
  presetCase name filters = (filters ++ lookupPreset presetTable name)%list.
Proof.
  unfold presetCase, push, presetTable, lookupPreset.
  repeat match goal with
         | |- context [String.eqb name ?s] =>
             destruct (String.eqb_spec name s) as [->|?]; [reflexivity|]
         end.
  repeat case_decide; try congruence.
  by rewrite app_nil_r.
Qed.

Lemma lookupPreset_unknown (name : string) :
  name ∉ presetNames -> lookupPreset presetTable name = [].
Proof.
  unfold presetNames, presetTable. simpl. intros Hnot.
  repeat case_decide; try reflexivity; subst; exfalso; apply Hnot;
    repeat constructor.
Qed.

(** [b !== 100] holds exactly when [b] is another number than 100, [NaN]
    included. *)
Lemma strictNe_100 (b : float) : strictNe b 100 = true <-> b <> 100%float.
Proof.
  unfold strictNe. rewrite negb_true_iff.
  pose proof (NumberSpec.eqb_finite b 100 _ _ _ eq_refl) as Heq.
  destruct (b =? 100)%float; split.
  - discriminate.
  - intros Hne. exfalso. apply Hne. by apply Heq.
  - intros _ Hb. apply Heq in Hb. discriminate.
  - reflexivity.
Qed.

Lemma buildFilters_spec toString (o : FilterOptions) :
  buildFilters toString o = spec_chain_pos toString o.
Proof.
  unfold buildFilters, spec_chain_pos, spec_numeric_pos, entry, push,
    strictNe, gt.
  rewrite presetCase_lookup. f_equal.
  destruct (brightness o =? 100)%float, (contrast o =? 100)%float,
    (saturation o =? 100)%float, (0 <? blur o)%float;
    repeat case_decide; simpl; try reflexivity; congruence.
Qed.

Example chain_numeric_then_preset :
  style_filter (applyFilters printInteger (mkImage 640 480 320 240 "")
                             (mkOptions 120 90 100 2 "vintage"))
  = "brightness(120%) contrast(90%) blur(2px) sepia(50%) contrast(120%) brightness(90%)".
Proof. vm_compute. reflexivity. Qed.

Example chain_zero_brightness :
  style_filter (applyFilters printInteger (mkImage 640 480 320 240 "")
                             (mkOptions 0 100 200 0 "cool"))
  = "brightness(0%) saturate(200%) hue-rotate(180deg) saturate(120%)".
Proof. vm_compute. reflexivity. Qed.

(** A brightness that is not a number differs from 100 and is pushed,
    however the host prints it; a blur that is not a number is not
    greater than 0 and is left out. *)
Example chain_of_NaN toString :
  buildFilters toString (mkOptions nan 100 100 nan "none")
  = ["brightness(" +:+ toString nan +:+ "%)"].
Proof. reflexivity. Qed.

(** C7, as the claim words it, fails: a negative blur differs from 0, so
    the claimed chain holds [blur(-1px)], while [applyFilters] tests
    [options.blur > 0] and leaves the chain empty. *)
Lemma applyFilters_negative_blur_omitted :
  style_filter (applyFilters printInteger (mkImage 640 480 320 240 "")
                             (mkOptions 100 100 100 (-1) "none")) = ""
  /\ join " " (spec_chain_ne0 printInteger (mkOptions 100 100 100 (-1) "none"))
     = "blur(-1px)"
  /\ style_filter (applyFilters printInteger (mkImage 640 480 320 240 "")
                                (mkOptions 100 100 100 (-1) "none"))
     <> join " " (spec_chain_ne0 printInteger (mkOptions 100 100 100 (-1) "none")).
Proof. vm_compute. repeat split. discriminate. Qed.

(** C7 (amended): for every options object and however the host prints a
    number, [applyFilters] sets the element's filter to the space-joined
    chain made of brightness(b%) if b differs from 100, contrast(c%) if c
    differs from 100, saturate(s%) if s differs from 100 and blur(k px)
    if k is greater than 0, in that order, followed by the functions of
    the named preset as the table lists them; nothing else of the element
    changes. *)
Theorem applyFilters_chain toString (element : HTMLImageElement)
    (o : FilterOptions) :
  style_filter (applyFilters toString element o)
  = join " " (spec_numeric_pos toString o ++ lookupPreset presetTable (filter o))
  /\ naturalWidth (applyFilters toString element o) = naturalWidth element
  /\ naturalHeight (applyFilters toString element o) = naturalHeight element
  /\ offsetWidth (applyFilters toString element o) = offsetWidth element
  /\ offsetHeight (applyFilters toString element o) = offsetHeight element.
Proof.
  unfold applyFilters; simpl. rewrite buildFilters_spec. by repeat split.
Qed.

(** C10: with brightness, contrast and saturation at 100, a blur of at
    most 0 and a filter name outside the seven presets, [applyFilters]
    builds an empty chain and assigns the empty string as the element's
    filter, whatever filter the element carried before. *)
Theorem applyFilters_neutral_clears toString (element : HTMLImageElement)
    (o : FilterOptions) :
  brightness o = 100%float -> contrast o = 100%float ->
  saturation o = 100%float ->
  (blur o <=? 0)%float = true -> filter o ∉ presetNames ->
  buildFilters toString o = []
  /\ style_filter (applyFilters toString element o) = "".
Proof.
  intros Hb Hc Hs Hk Hp.
  assert (buildFilters toString o = []) as Hnil.
  { rewrite buildFilters_spec. unfold spec_chain_pos, spec_numeric_pos, entry.
    rewrite (lookupPreset_unknown _ Hp), Hb, Hc, Hs.
    rewrite (NumberSpec.leb_not_gt _ _ Hk).
    repeat case_decide; try reflexivity; discriminate. }
  split; [exact Hnil |]. unfold applyFilters; simpl. by rewrite Hnil.
Qed.

Lemma applyFilters_neutral_clears_witness :
  style_filter (applyFilters printInteger
                  (mkImage 640 480 320 240 "sepia(100%) blur(3px)")
                  (mkOptions 100 100 100 (-4) "sparkle")) = "".
Proof.
  apply (applyFilters_neutral_clears printInteger
           (mkImage 640 480 320 240 "sepia(100%) blur(3px)")
           (mkOptions 100 100 100 (-4) "sparkle")); simpl;
    try reflexivity.
  apply includes_not_elem_of. reflexivity.
Defined.

End FilterSpec.

(** ** File validator *)
Module FileSpec.
Import FileHandler.

Lemma gt_spec (a b : Q) : gt a b = true <-> b < a.
Proof.
  unfold gt. rewrite negb_true_iff. split.
  - intros H. apply Qnot_le_lt. intros Hle.
    apply Qle_bool_iff in Hle. congruence.
  - intros H. destruct (Qle_bool a b) eqn:E; [|reflexivity].
    apply Qle_bool_iff in E. exfalso. apply (Qlt_not_le _ _ H E).
Qed.

Lemma validateImageFile_type_error (file : File) :
  type file ∉ allowedTypes ->
  validateImageFile file = mkValidation false (Some typeError).
Proof.
  intros Hnot. apply includes_not_elem_of in Hnot.
  unfold validateImageFile. by rewrite Hnot.
Qed.

Lemma validateImageFile_size_error (file : File) :
  type file ∈ allowedTypes -> maxFileSize < size file ->
  validateImageFile file = mkValidation false (Some sizeError).
Proof.
  intros Hin Hlt. apply includes_elem_of in Hin. apply gt_spec in Hlt.
  unfold validateImageFile. by rewrite Hin, Hlt.
Qed.

Lemma validateImageFile_accepts (file : File) :
  type file ∈ allowedTypes -> size file <= maxFileSize ->
  validateImageFile file = mkValidation true None.
Proof.
  intros Hin Hle. apply includes_elem_of in Hin.
  unfold validateImageFile. rewrite Hin; simpl.
  destruct (gt (size file) maxFileSize) eqn:Hgt; [|reflexivity].
  apply gt_spec in Hgt. exfalso. apply (Qlt_not_le _ _ Hgt Hle).
Qed.

Lemma validateImageFile_cases (file : File) :
  validateImageFile file = mkValidation true None
  \/ validateImageFile file = mkValidation false (Some typeError)
  \/ validateImageFile file = mkValidation false (Some sizeError).
Proof.
  unfold validateImageFile.
  destruct (includes allowedTypes (type file)),
    (gt (size file) maxFileSize); simpl; auto.
Qed.

Lemma validateImageFile_valid_iff (file : File) :
  valid (validateImageFile file) = true
  <-> type file ∈ allowedTypes /\ size file <= maxFileSize.
Proof.
  split.
  - intros Hv. destruct (decide (type file ∈ allowedTypes)) as [Hin|Hnot].
    + split; [exact Hin |]. apply Qnot_lt_le. intros Hlt.
      rewrite (validateImageFile_size_error _ Hin Hlt) in Hv. discriminate.
    + rewrite (validateImageFile_type_error _ Hnot) in Hv. discriminate.
  - intros [Hin Hle]. by rewrite (validateImageFile_accepts _ Hin Hle).
Qed.

(** C4: [validateImageFile] is total; it answers [{valid: true}] exactly
    for a type of the allow-list with a size of at most 10 MiB, the type
    error for any other type, and the size error for an allowed type
    above 10 MiB.  A PDF is refused for its type, a PNG of 11 MiB for its
    size, and a WebP of 1024 bytes is accepted. *)
Theorem validateImageFile_spec (file : File) :
  (valid (validateImageFile file) = true
     <-> type file ∈ allowedTypes /\ size file <= maxFileSize)
  /\ (validateImageFile file = mkValidation true None
      \/ validateImageFile file = mkValidation false (Some typeError)
      \/ validateImageFile file = mkValidation false (Some sizeError))
  /\ (type file ∉ allowedTypes ->
      validateImageFile file = mkValidation false (Some typeError))
  /\ (type file ∈ allowedTypes -> maxFileSize < size file ->
      validateImageFile file = mkValidation false (Some sizeError))
  /\ (forall n s, validateImageFile (mkFile n s "application/pdf")
                  = mkValidation false (Some typeError))
  /\ (forall n, validateImageFile (mkFile n (11 * 1024 * 1024) "image/png")
                = mkValidation false (Some sizeError))
  /\ (forall n, validateImageFile (mkFile n 1024 "image/webp")
                = mkValidation true None).
Proof.
  split; [apply validateImageFile_valid_iff |].
  split; [apply validateImageFile_cases |].
  split; [apply validateImageFile_type_error |].
  split; [apply validateImageFile_size_error |].
  by repeat split.
Qed.

(** The type is tested first: a disallowed type is reported as such even
    when the file is also too large. *)
Example type_error_before_size_error :
  validateImageFile (mkFile "scan.pdf" (64 * 1024 * 1024) "application/pdf")
  = mkValidation false (Some typeError).
Proof. reflexivity. Qed.

(** The limit itself is accepted. *)
Example exactly_10MiB_accepted :
  validateImageFile (mkFile "big.png" (10 * 1024 * 1024) "image/png")
  = mkValidation true None.
Proof. reflexivity. Qed.

End FileSpec.

(** ** Format catalog *)
Module FormatSpec.
Import CompressionManager.

Lemma formatMap_known :
  formatMap !! "jpeg" = Some jpeg /\ formatMap !! "png" = Some png /\
  formatMap !! "webp" = Some webp /\ formatMap !! "avif" = Some avif /\
  formatMap !! "bmp" = Some bmp /\ formatMap !! "tiff" = Some tiff /\
  formatMap !! "ico" = Some ico /\ formatMap !! "svg" = Some svg.
Proof. unfold formatMap. repeat split; by simplify_map_eq. Qed.

Lemma formatMap_unknown (format : string) :
  format ∉ knownFormats -> formatMap !! format = None.
Proof.
  unfold knownFormats, formatMap. intros Hnot.
  repeat (rewrite lookup_insert_ne;
          [| intros <-; apply Hnot; repeat constructor]).
  apply lookup_empty.
Qed.

Lemma formatMap_dom (format : string) (info : FormatInfo) :
  formatMap !! format = Some info -> format ∈ knownFormats.
Proof.
  intros Hsome. destruct (decide (format ∈ knownFormats)) as [|Hnot]; [done|].
  rewrite (formatMap_unknown _ Hnot) in Hsome. discriminate.
Qed.

(** The eight catalog names yield their entries. *)
Lemma getFormatInfo_known :
  getFormatInfo "jpeg" = Descriptor jpeg /\ getFormatInfo "png" = Descriptor png /\
  getFormatInfo "webp" = Descriptor webp /\ getFormatInfo "avif" = Descriptor avif /\
  getFormatInfo "bmp" = Descriptor bmp /\ getFormatInfo "tiff" = Descriptor tiff /\
  getFormatInfo "ico" = Descriptor ico /\ getFormatInfo "svg" = Descriptor svg.
Proof.
  unfold getFormatInfo, Get.
  destruct formatMap_known as (-> & -> & -> & -> & -> & -> & -> & ->).
  by repeat split.
Qed.

(** A name that is neither in the catalog nor a key of [Object.prototype]
    falls back to the jpeg entry. *)
Lemma getFormatInfo_fallback (format : string) :
  format ∉ knownFormats -> format ∉ Object_prototype_keys ->
  getFormatInfo format = Descriptor jpeg.
Proof.
  intros Hk Hp. unfold getFormatInfo, Get.
  rewrite (formatMap_unknown _ Hk).
  apply includes_not_elem_of in Hp. rewrite Hp. simpl.
  by destruct formatMap_known as (-> & _).
Qed.

(** A key of [Object.prototype] yields the inherited member. *)
Lemma getFormatInfo_inherited (format : string) :
  format ∈ Object_prototype_keys -> getFormatInfo format = Inherited format.
Proof.
  intros Hp. unfold Object_prototype_keys in Hp.
  repeat (apply elem_of_cons in Hp as [->|Hp]);
    try (vm_compute; reflexivity).
  by apply elem_of_nil in Hp.
Qed.

(** The lookup never yields [undefined], so no later property read on its
    result can throw. *)
Lemma getFormatInfo_defined (format : string) :
  getFormatInfo format <> Undefined.
Proof.
  unfold getFormatInfo, Get.
  destruct formatMap_known as (-> & _).
  destruct (formatMap !! format); [discriminate|].
  destruct (includes Object_prototype_keys format); discriminate.
Qed.

Example getFormatInfo_foo : getFormatInfo "foo" = Descriptor jpeg.
Proof.
  apply getFormatInfo_fallback; apply includes_not_elem_of; reflexivity.
Qed.

(** C6 fails on the code: the name "constructor" is none of the eight
    catalog names, yet [formatMap["constructor"]] finds the member
    inherited from [Object.prototype], which is truthy, so the [||] never
    reaches the jpeg entry and the result is not a format descriptor. *)
Theorem getFormatInfo_constructor_not_jpeg :
  ("constructor" ∉ knownFormats)
  /\ getFormatInfo "constructor" = Inherited "constructor"
  /\ getFormatInfo "constructor" <> Descriptor jpeg
  /\ supportsQuality_of (getFormatInfo "constructor") = Some false
  /\ mimeType_of (getFormatInfo "constructor") = Some None.
Proof.
  assert (getFormatInfo "constructor" = Inherited "constructor") as ->.
  { apply getFormatInfo_inherited. apply includes_elem_of. reflexivity. }
  repeat split; try discriminate.
  apply includes_not_elem_of. reflexivity.
Qed.

End FormatSpec.

(** ** Compression engine *)
Module CompressionSpec.
Import PrimFloat CompressionManager.

(** What a resolved [compressImage] returns. *)
Lemma compressImage_resolved ctx encode read image options original r :
  compressImage ctx encode read image options original = Resolved r ->
  originalSize r = original /\ compressedSize r = blob_size (blob r)
  /\ compressionRatio r
     = (((original - blob_size (blob r)) / original) * 100)%float.
Proof.
  unfold compressImage. destruct ctx; simpl; [|discriminate].
  destruct (supportsQuality_of _); [|discriminate].
  destruct (mimeType_of _); [|discriminate].
  destruct (encode _ _ _) as [out|]; [|discriminate].
  destruct (read out); [|discriminate].
  intros [= <-]. simpl. auto.
Qed.

(** With a rendering context, an encoder that produces a blob and a reader
    that reads it, the promise resolves. *)
Lemma compressImage_resolves ctx encode read image options original :
  ctx = true ->
  (forall canvas mime q, is_Some (encode canvas mime q)) ->
  (forall out, is_Some (read out)) ->
  exists r, compressImage ctx encode read image options original = Resolved r.
Proof.
  intros -> Henc Hread. unfold compressImage; simpl.
  pose proof (FormatSpec.getFormatInfo_defined (format options)) as Hdef.
  destruct (getFormatInfo (format options)); [congruence | |]; simpl.
  - destruct (Henc (drawImage (set_height (set_width createCanvas
                 (naturalWidth image)) (naturalHeight image))
                 (DrawImage3 image 0 0)) (Some (mimeType info))
                 (if supportsQuality info then quality options / 100 else 1))
      as [out ->].
    destruct (Hread out) as [url ->]. eauto.
  - destruct (Henc (drawImage (set_height (set_width createCanvas
                 (naturalWidth image)) (naturalHeight image))
                 (DrawImage3 image 0 0)) None 1) as [out ->].
    destruct (Hread out) as [url ->]. eauto.
Qed.

(** C3, as the claim words it, fails: the ratio is computed in binary64,
    where each of the three operations rounds.  For an original of 1000
    bytes compressed to 930 the exact ratio is 7, and [compressImage]
    returns 7.000000000000001, the next number above 7. *)
Lemma compressImage_ratio_rounded :
  exists r original compressed ratio,
    compressImage true (SampleHost.encodeTo 930) SampleHost.readAsDataURL
      SampleHost.photo (mkCompressionOptions 85 "jpeg" true) 1000 = Resolved r
    /\ Number.exact (originalSize r) = Some original /\ original == 1000
    /\ Number.exact (compressedSize r) = Some compressed /\ compressed == 930
    /\ RatioSpec.exactRatio original compressed == 7
    /\ compressionRatio r = 0x1.c000000000001p+2%float
    /\ Number.exact (compressionRatio r) = Some ratio
    /\ ratio == 7 + 1 / 2 ^ 50
    /\ ~ ratio == RatioSpec.exactRatio original compressed.
Proof.
  eexists _, _, _, _. split; [reflexivity|]. simpl.
  split; [vm_compute; reflexivity|]. split; [reflexivity|].
  split; [vm_compute; reflexivity|]. split; [reflexivity|].
  split; [reflexivity|]. split; [reflexivity|].
  split; [vm_compute; reflexivity|]. split; [reflexivity|].
  intros H. vm_compute in H. discriminate.
Qed.

(** The same happens for sizes as small as 3 and 2 bytes: a third is no
    binary64 number. *)
Example ratio_3_2 :
  exists r ratio,
    compressImage true (SampleHost.encodeTo 2) SampleHost.readAsDataURL
      SampleHost.photo (mkCompressionOptions 85 "jpeg" true) 3 = Resolved r
    /\ Number.exact (compressionRatio r) = Some ratio
    /\ ratio < RatioSpec.exactRatio 3 2.
Proof.
  eexists _, _. split; [reflexivity|]. split; [vm_compute; reflexivity|].
  reflexivity.
Qed.

(** An original size of 0 leaves no finite ratio: minus infinity, or
    [NaN] when the blob is empty as well. *)
Example ratio_of_empty_original :
  (exists r,
      compressImage true (SampleHost.encodeTo 930) SampleHost.readAsDataURL
        SampleHost.photo (mkCompressionOptions 85 "jpeg" true) 0 = Resolved r
      /\ compressionRatio r = neg_infinity)
  /\ (exists r,
        compressImage true (SampleHost.encodeTo 0) SampleHost.readAsDataURL
          SampleHost.photo (mkCompressionOptions 85 "jpeg" true) 0 = Resolved r
        /\ is_nan (compressionRatio r) = true).
Proof. split; eexists; split; reflexivity. Qed.

(** C3 (amended): for every result of [compressImage], whatever the
    sizes, the sizes returned are the original size passed in and the size
    of the blob, and the ratio is ((original - compressed) / original) * 100
    evaluated in binary64, each operation rounded to the nearest number;
    1000 against 750 gives exactly 25 and 1000 against 1200 exactly -20. *)
Theorem compressImage_ratio ctx encode read image options original r :
  compressImage ctx encode read image options original = Resolved r ->
  originalSize r = original
  /\ compressedSize r = blob_size (blob r)
  /\ compressionRatio r
     = (((originalSize r - compressedSize r) / originalSize r) * 100)%float
  /\ (original = 1000%float -> compressedSize r = 750%float ->
      compressionRatio r = 25%float
      /\ exists q, Number.exact (compressionRatio r) = Some q
                   /\ q == RatioSpec.exactRatio 1000 750)
  /\ (original = 1000%float -> compressedSize r = 1200%float ->
      compressionRatio r = (-20)%float
      /\ exists q, Number.exact (compressionRatio r) = Some q
                   /\ q == RatioSpec.exactRatio 1000 1200).
Proof.
  intros Hres.
  destruct (compressImage_resolved _ _ _ _ _ _ _ Hres) as (Hos & Hcs & Hr).
  rewrite Hcs, Hos, Hr.
  split; [reflexivity|]. split; [reflexivity|]. split; [reflexivity|].
  split; intros H1 H2; rewrite H1, H2;
    (split; [reflexivity | eexists; split; [vm_compute; reflexivity | reflexivity]]).
Qed.

Lemma compressImage_ratio_witness :
  exists r,
    compressImage true (SampleHost.encodeTo 750) SampleHost.readAsDataURL
      SampleHost.photo (mkCompressionOptions 85 "jpeg" true) 1000 = Resolved r
    /\ compressionRatio r = 25%float.
Proof.
  eexists. split; [reflexivity|].
  eapply (compressImage_ratio true (SampleHost.encodeTo 750)
            SampleHost.readAsDataURL SampleHost.photo
            (mkCompressionOptions 85 "jpeg" true) 1000); reflexivity.
Defined.

Example ratio_1000_1200 :
  exists r,
    compressImage true (SampleHost.encodeTo 1200) SampleHost.readAsDataURL
      SampleHost.photo (mkCompressionOptions 100 "png" true) 1000 = Resolved r
    /\ compressionRatio r = (-20)%float.
Proof. eexists. split; reflexivity. Qed.

(** C5: when the looked-up descriptor has [supportsQuality = false], two
    runs on the same image that differ only in the quality option settle
    identically: the same blob, data URL, sizes and ratio, or the same
    rejection. *)
Theorem compressImage_quality_ignored ctx encode read image o1 o2 original
    (info : FormatInfo) :
  format o1 = format o2 ->
  maintainAspectRatio o1 = maintainAspectRatio o2 ->
  getFormatInfo (format o1) = Descriptor info ->
  supportsQuality info = false ->
  compressImage ctx encode read image o1 original
  = compressImage ctx encode read image o2 original.
Proof.
  intros Hfmt _ Hinfo Hq. unfold compressImage.
  rewrite <- Hfmt, Hinfo. simpl. by rewrite Hq.
Qed.

Lemma compressImage_quality_ignored_witness :
  compressImage true SampleHost.encode SampleHost.readAsDataURL
    SampleHost.photo (mkCompressionOptions 10 "png" true) 50000
  = compressImage true SampleHost.encode SampleHost.readAsDataURL
      SampleHost.photo (mkCompressionOptions 95 "png" true) 50000.
Proof.
  apply (compressImage_quality_ignored true SampleHost.encode
           SampleHost.readAsDataURL SampleHost.photo
           (mkCompressionOptions 10 "png" true)
           (mkCompressionOptions 95 "png" true) 50000 png);
    reflexivity.
Defined.

(** The same two qualities do change the output of a format that
    supports quality. *)
Example jpeg_quality_matters :
  compressImage true SampleHost.encode SampleHost.readAsDataURL
    SampleHost.photo (mkCompressionOptions 10 "jpeg" true) 50000
  <> compressImage true SampleHost.encode SampleHost.readAsDataURL
       SampleHost.photo (mkCompressionOptions 95 "jpeg" true) 50000.
Proof. vm_compute. discriminate. Qed.

End CompressionSpec.

(** ** Crop engine *)
Module CropSpec.
Import CropManager.

(** *** Running the store operations *)

Lemma current_alloc (h : list CropSettings) (v : CropSettings)
    (d : list ref) :
  current (mkState (h ++ [v]) (length h) d) = Some v.
Proof. unfold current; simpl. by apply list_lookup_middle. Qed.

Lemma current_wf (σ : State) (s : CropSettings) :
  current σ = Some s -> wf σ.
Proof. unfold current, wf. apply lookup_lt_Some. Qed.

Lemma wf_current (σ : State) : wf σ -> is_Some (current σ).
Proof. unfold current, wf. apply lookup_lt_is_Some_2. Qed.

Lemma setCropSettings_run (σ : State) (old : CropSettings)
    (p : PartialCropSettings) :
  current σ = Some old ->
  setCropSettings p σ
  = Some (tt, mkState (heap σ ++ [spread old p]) (length (heap σ)) (dispatched σ)).
Proof.
  unfold current. intros Hcur.
  unfold setCropSettings, mbind, M_bind, bind, get_this, deref, alloc, set_this.
  simpl. by rewrite Hcur.
Qed.

Lemma getCropSettings_run (σ : State) (cur : CropSettings) :
  current σ = Some cur ->
  getCropSettings σ
  = Some (length (heap σ),
          mkState (heap σ ++ [cur]) (this_cropSettings σ) (dispatched σ)).
Proof.
  unfold current. intros Hcur.
  unfold getCropSettings, mbind, M_bind, bind, get_this, deref, alloc.
  simpl. by rewrite Hcur.
Qed.

Lemma spread_whole (old s : CropSettings) : spread old (whole s) = s.
Proof. by destruct s. Qed.

Example construct_then_sliders :
  setCropSettings (mkPartial (Some 40) (Some 20) (Some 50) (Some 50) (Some true))
    construct
  = Some (tt, SampleHost.sliders_40_20_50_50).
Proof. reflexivity. Qed.

(** C8: from every state, [resetCrop] succeeds and leaves the manager
    holding exactly {x: 0, y: 0, width: 100, height: 100, enabled: false}. *)
Theorem resetCrop_restores_defaults (σ : State) :
  exists σ', resetCrop σ = Some (tt, σ')
             /\ current σ' = Some (mkCrop 0 0 100 100 false).
Proof.
  eexists. split; [reflexivity|]. apply current_alloc.
Qed.

(** C9: [setCropSettings] gives every property present in the partial
    object its new value and keeps every absent one, so
    [setCropSettings({enabled: true})] keeps x, y, width and height; and
    [getCropSettings] returns a fresh object equal to the current
    settings, distinct from the manager's own, so that overwriting it
    with anything leaves the manager's settings as they were. *)
Theorem setCropSettings_merges_getCropSettings_copies (σ : State)
    (old : CropSettings) (p : PartialCropSettings) :
  current σ = Some old ->
  (exists σ' new,
      setCropSettings p σ = Some (tt, σ') /\ current σ' = Some new
      /\ x new = default (x old) (x_opt p)
      /\ y new = default (y old) (y_opt p)
      /\ width new = default (width old) (width_opt p)
      /\ height new = default (height old) (height_opt p)
      /\ enabled new = default (enabled old) (enabled_opt p))
  /\ (exists σ',
      setCropSettings (mkPartial None None None None (Some true)) σ = Some (tt, σ')
      /\ current σ' = Some (mkCrop (x old) (y old) (width old) (height old) true))
  /\ (exists copy σ',
      getCropSettings σ = Some (copy, σ')
      /\ heap σ' !! copy = Some old
      /\ copy <> this_cropSettings σ'
      /\ current σ' = Some old
      /\ forall v σ'', assign copy v σ' = Some (tt, σ'') ->
                       heap σ'' !! copy = Some v /\ current σ'' = Some old).
Proof.
  intros Hcur. pose proof (current_wf _ _ Hcur) as Hwf. unfold wf in Hwf.
  split; [|split].
  - exists (mkState (heap σ ++ [spread old p]) (length (heap σ)) (dispatched σ)),
      (spread old p).
    split; [by apply setCropSettings_run|].
    split; [apply current_alloc|]. by repeat split.
  - eexists. split; [by apply setCropSettings_run|].
    apply current_alloc.
  - eexists _, _. split; [by apply getCropSettings_run|]. simpl.
    split; [by apply list_lookup_middle|].
    split; [lia|].
    assert (current (mkState (heap σ ++ [old]) (this_cropSettings σ)
                             (dispatched σ)) = Some old) as Hsame.
    { unfold current in *; simpl. by rewrite lookup_app_l. }
    split; [exact Hsame|].
    intros v σ'' [= <-]. unfold current in *; simpl in *. split.
    + apply list_lookup_insert_eq. rewrite length_app; simpl. lia.
    + rewrite list_lookup_insert_ne by lia. exact Hsame.
Qed.

Lemma setCropSettings_merges_getCropSettings_copies_witness :
  exists copy σ',
    getCropSettings SampleHost.middleHalf = Some (copy, σ')
    /\ copy <> this_cropSettings σ'
    /\ forall v σ'', assign copy v σ' = Some (tt, σ'') ->
                     current σ'' = Some (mkCrop 25 25 50 50 true).
Proof.
  destruct (setCropSettings_merges_getCropSettings_copies
              SampleHost.middleHalf (mkCrop 25 25 50 50 true)
              (mkPartial None None None None (Some false)) eq_refl)
    as (_ & _ & copy & σ' & Hrun & _ & Hne & _ & Hframe).
  exists copy, σ'. split; [exact Hrun|]. split; [exact Hne|].
  intros v σ'' Hassign. exact (proj2 (Hframe v σ'' Hassign)).
Defined.

(** *** Dragging and resizing *)

Lemma onMouseDown_run (e : MouseEvent) (c : Closure) (σ : State)
    (s : CropSettings) :
  current σ = Some s ->
  exists c', onMouseDown e c σ = Some (c', σ)
             /\ pressedOn s c'
             /\ isDragging c' = (if target_isHandle e then isDragging c else true)
             /\ isResizing c' = (if target_isHandle e then true else isResizing c)
             /\ currentHandle c' = (if target_isHandle e
                                    then default "" (target_handle e)
                                    else currentHandle c).
Proof.
  unfold current. intros Hcur.
  unfold onMouseDown, mbind, M_bind, bind, get_this, deref, ret. simpl.
  rewrite Hcur. eexists. split; [reflexivity|]. by repeat split.
Qed.

(** A move while neither flag is set does nothing at all. *)
Lemma onMouseMove_idle (img : HTMLImageElement) (e : MouseEvent) (c : Closure)
    (σ : State) :
  isDragging c = false -> isResizing c = false ->
  onMouseMove img e c σ = Some (tt, σ).
Proof. intros Hd Hr. unfold onMouseMove. by rewrite Hd, Hr. Qed.

Lemma onMouseMove_run (img : HTMLImageElement) (e : MouseEvent) (c : Closure)
    (σ : State) (s : CropSettings) :
  current σ = Some s ->
  isDragging c = true \/ isResizing c = true ->
  exists σ',
    onMouseMove img e c σ = Some (tt, σ')
    /\ current σ'
       = Some (moved c s ((clientX e - startX c) / offsetWidth img * 100)
                         ((clientY e - startY c) / offsetHeight img * 100))
    /\ dispatched σ' = (dispatched σ ++ [this_cropSettings σ'])%list.
Proof.
  intros Hcur Hactive. unfold onMouseMove, moved.
  assert (negb (isDragging c) && negb (isResizing c) = false) as ->.
  { destruct Hactive as [-> | ->]; [reflexivity | apply andb_false_r]. }
  unfold mbind, M_bind, bind.
  destruct (isDragging c).
  - unfold get_this at 1, deref at 1. fold (current σ). rewrite Hcur.
    rewrite (setCropSettings_run _ _ _ Hcur). simpl.
    eexists. split; [reflexivity|]. split; [apply current_alloc | reflexivity].
  - destruct Hactive as [? | ->]; [congruence|].
    unfold get_this at 1, deref at 1. fold (current σ). rewrite Hcur.
    rewrite (setCropSettings_run _ _ _ Hcur). simpl.
    eexists. split; [reflexivity|]. rewrite spread_whole.
    split; [apply current_alloc | reflexivity].
Qed.

(** C1 fails on the code.  The rectangle {x: 40, y: 20, width: 50,
    height: 50} is within bounds; on a preview displayed 200 pixels wide,
    pressing the north-west handle and moving the pointer 130 pixels to
    the left is a delta of -65 percent.  The handler computes the width
    [max(10, 50 + 65) = 115] with no upper clamp and the origin
    [max(0, 40 + 50 - 115) = 0], so the updated rectangle has
    x + width = 115 > 100. *)
Theorem nw_resize_leaves_bounds :
  inBounds (mkCrop 40 20 50 50 true)
  /\ current SampleHost.sliders_40_20_50_50 = Some (mkCrop 40 20 50 50 true)
  /\ exists σ' s,
      pressThenMove SampleHost.preview SampleHost.pressNW SampleHost.moveLeft130
        SampleHost.sliders_40_20_50_50 = Some (tt, σ')
      /\ current σ' = Some s
      /\ x s == 0 /\ y s == 20 /\ width s == 115 /\ height s == 50
      /\ ~ x s + width s <= 100
      /\ ~ inBounds s.
Proof.
  split; [unfold inBounds; simpl; lra|]. split; [reflexivity|].
  eexists _, _. split; [vm_compute; reflexivity|].
  split; [vm_compute; reflexivity|].
  assert (forall a b : Q, Qle_bool a b = false -> ~ a <= b) as Hno.
  { intros a b Hf Hle. apply Qle_bool_iff in Hle. congruence. }
  repeat split; try reflexivity.
  - by apply Hno.
  - unfold inBounds. intros (_ & _ & _ & _ & Hxw & _). revert Hxw. by apply Hno.
Qed.

End CropSpec.

(** ** Crop engine: the arithmetic in binary64 *)
Module CropArithmeticSpec.
Import PrimFloat Number NumberSpec CropArithmetic.
Local Open Scope float_scope.

(** *** Cropping *)


(** The pixel width itself is a rounded product: 29 percent of 100 pixels
    is 28.999999999999996, and the canvas is 28 pixels wide. *)
Example applyCrop_29_percent_of_100 :
  exists res,
    res = applyCrop SampleHost.canvasURL (mkCrop 0 0 29 29 true)
                    (mkImageElement 100 100 100 100)
    /\ croppedWidth res = 0x1.cffffffffffffp+4
    /\ canvas_width (canvas res) = 28%Z.
Proof. eexists. split; [reflexivity|]. split; reflexivity. Qed.


Example applyCrop_middle_half :
  exists res,
    res = applyCrop SampleHost.canvasURL (mkCrop 25 25 50 50 true)
                    SampleHost.photoSize
    /\ canvas_width (canvas res) = 100%Z /\ canvas_height (canvas res) = 100%Z
    /\ croppedWidth res = 100 /\ croppedHeight res = 100.
Proof. eexists. split; [reflexivity|]. by repeat split. Qed.

(** A negative rectangle leaves the canvas at its default width: -1 as an
    [unsigned long] is 2^32 - 1, which a canvas does not keep. *)
Example applyCrop_negative_width :
  exists res,
    res = applyCrop SampleHost.canvasURL (mkCrop 0 0 (-1) 50 true)
                    (mkImageElement 100 100 100 100)
    /\ croppedWidth res = -1 /\ canvas_width (canvas res) = 300%Z.
Proof. eexists. split; [reflexivity|]. split; reflexivity. Qed.

(** *** Dragging and resizing *)

Lemma within_of_clamp (lo hi v : float) :
  (lo <=? hi) = true -> within lo hi (Math_max lo (Math_min hi v)).
Proof.
  intros Hle. unfold within.
  destruct (clamp_within lo hi v Hle) as [[Hn _] | (_ & _ & Hlo & Hhi)];
    [by left | by right].
Qed.

Lemma resizeCase_lowerBounds (c : Closure) (dx dy : float) (s : CropSettings) :
  lowerBounds s -> lowerBounds (resizeCase c dx dy s).
Proof.
  intros (Hx & Hy & Hw & Hh). unfold resizeCase, lowerBounds, atLeast in *.
  repeat match goal with
         | |- context [String.eqb (currentHandle c) ?h] =>
             destruct (String.eqb (currentHandle c) h);
             [ simpl; repeat split;
               first [ apply Math_max_atLeast | assumption ] |]
         end.
  by repeat split.
Qed.

Lemma onMouseMove_lowerBounds (img : ImageElement) (e : MouseEvent)
    (c : Closure) (s : CropSettings) :
  lowerBounds s -> lowerBounds (onMouseMove img e c s).
Proof.
  intros Hs. unfold onMouseMove.
  destruct (negb (isDragging c) && negb (isResizing c)); [exact Hs|].
  destruct (isDragging c).
  - destruct Hs as (_ & _ & Hw & Hh). unfold lowerBounds, atLeast; simpl.
    repeat split; first [ apply Math_max_atLeast | assumption ].
  - destruct (isResizing c); [by apply resizeCase_lowerBounds | exact Hs].
Qed.

(** Whatever is pressed - the body or any of the eight handles - and
    however the pointer then moves, each of x, y, width and height that
    was [NaN] or at least its lower bound (0, 0, 10, 10) still is after
    the gesture: a value the listener stores is never below the bound. *)
Theorem gesture_keeps_lower_bounds_or_NaN (img : ImageElement)
    (down : MouseEvent) (moves : list MouseEvent) (s : CropSettings) :
  lowerBounds s -> lowerBounds (gesture img down moves s).
Proof.
  unfold gesture.
  generalize (onMouseDown down initialClosure s). intros c. revert s.
  induction moves as [|e rest IH]; intros s Hs; simpl; [exact Hs|].
  apply IH. by apply onMouseMove_lowerBounds.
Qed.

Lemma gesture_keeps_lower_bounds_or_NaN_witness :
  lowerBounds (gesture SampleHost.previewSize (SampleHost.pressOn "nw")
                 [SampleHost.moveTo 370 300; SampleHost.moveTo 900 900]
                 (mkCrop 40 20 50 50 true)).
Proof.
  apply (gesture_keeps_lower_bounds_or_NaN SampleHost.previewSize
           (SampleHost.pressOn "nw")
           [SampleHost.moveTo 370 300; SampleHost.moveTo 900 900]
           (mkCrop 40 20 50 50 true)).
  unfold lowerBounds, atLeast; simpl. repeat split; right; reflexivity.
Defined.

(** [NaN] does occur: over a preview that is displayed 0 pixels wide and
    high, a drag of the body that does not move the pointer divides 0 by
    0 and stores [NaN] as x and y. *)
Example hidden_preview_stores_NaN :
  gesture SampleHost.hiddenSize SampleHost.pressBody [SampleHost.moveTo 500 300]
          (mkCrop 40 20 50 50 true)
  = mkCrop nan nan 50 50 true.
Proof. reflexivity. Qed.

(** The failing drag of C1, in binary64: the values are the same. *)
Example north_west_drag_in_binary64 :
  gesture SampleHost.previewSize (SampleHost.pressOn "nw")
          [SampleHost.moveTo 370 300] (mkCrop 40 20 50 50 true)
  = mkCrop 0 20 115 50 true.
Proof. reflexivity. Qed.

(** *** A setting that is not a number stays so *)

Ltac absorb :=
  repeat first
    [ assumption
    | apply is_nan_Math_max; right
    | apply is_nan_Math_min; right
    | apply is_nan_add; left; assumption
    | apply is_nan_sub; left; assumption
    | apply is_nan_add; right
    | apply is_nan_sub; right ].

Lemma resizeCase_keeps_NaN (c : Closure) (dx dy : float) (s : CropSettings) :
  (is_nan (startCropX c) = true -> is_nan (x s) = true ->
   is_nan (x (resizeCase c dx dy s)) = true)
  /\ (is_nan (startCropY c) = true -> is_nan (y s) = true ->
      is_nan (y (resizeCase c dx dy s)) = true)
  /\ (is_nan (startCropWidth c) = true -> is_nan (width s) = true ->
      is_nan (width (resizeCase c dx dy s)) = true)
  /\ (is_nan (startCropHeight c) = true -> is_nan (height s) = true ->
      is_nan (height (resizeCase c dx dy s)) = true).
Proof.
  unfold resizeCase.
  repeat match goal with
         | |- context [String.eqb (currentHandle c) ?h] =>
             destruct (String.eqb (currentHandle c) h);
             [ simpl; repeat split; intros Hstart Hs; absorb |]
         end.
  by repeat split.
Qed.

Lemma onMouseMove_keeps_NaN (img : ImageElement) (e : MouseEvent)
    (c : Closure) (s : CropSettings) :
  (is_nan (startCropX c) = true -> is_nan (x s) = true ->
   is_nan (x (onMouseMove img e c s)) = true)
  /\ (is_nan (startCropY c) = true -> is_nan (y s) = true ->
      is_nan (y (onMouseMove img e c s)) = true)
  /\ (is_nan (startCropWidth c) = true -> is_nan (width s) = true ->
      is_nan (width (onMouseMove img e c s)) = true)
  /\ (is_nan (startCropHeight c) = true -> is_nan (height s) = true ->
      is_nan (height (onMouseMove img e c s)) = true).
Proof.
  unfold onMouseMove.
  destruct (negb (isDragging c) && negb (isResizing c)); [by repeat split|].
  destruct (isDragging c).
  - simpl. repeat split; intros Hstart Hs; absorb.
  - destruct (isResizing c); [apply resizeCase_keeps_NaN | by repeat split].
Qed.

(** No gesture repairs a setting that is not a number: each of x, y,
    width and height that is [NaN] when the button is pressed is [NaN]
    after the gesture, whatever is pressed, wherever the pointer moves and
    whatever the preview's size.  Together with
    [hidden_preview_stores_NaN]: once a drag over a preview of size 0 has
    stored [NaN], dragging cannot bring the crop box back. *)
Theorem gesture_keeps_NaN (img : ImageElement) (down : MouseEvent)
    (moves : list MouseEvent) (s : CropSettings) :
  (is_nan (x s) = true -> is_nan (x (gesture img down moves s)) = true)
  /\ (is_nan (y s) = true -> is_nan (y (gesture img down moves s)) = true)
  /\ (is_nan (width s) = true ->
      is_nan (width (gesture img down moves s)) = true)
  /\ (is_nan (height s) = true ->
      is_nan (height (gesture img down moves s)) = true).
Proof.
  unfold gesture.
  set (c := onMouseDown down initialClosure s).
  assert (startCropX c = x s /\ startCropY c = y s
          /\ startCropWidth c = width s /\ startCropHeight c = height s)
    as (Hx & Hy & Hw & Hh) by (by repeat split).
  clearbody c.
  assert (forall s0,
            (is_nan (x s) = true -> is_nan (x s0) = true ->
             is_nan (x (fold_left (fun s1 e => onMouseMove img e c s1) moves s0))
             = true)
            /\ (is_nan (y s) = true -> is_nan (y s0) = true ->
                is_nan (y (fold_left (fun s1 e => onMouseMove img e c s1) moves s0))
                = true)
            /\ (is_nan (width s) = true -> is_nan (width s0) = true ->
                is_nan (width (fold_left (fun s1 e => onMouseMove img e c s1)
                                         moves s0)) = true)
            /\ (is_nan (height s) = true -> is_nan (height s0) = true ->
                is_nan (height (fold_left (fun s1 e => onMouseMove img e c s1)
                                          moves s0)) = true)) as Hall.
  { induction moves as [|e rest IH]; intros s0; simpl; [tauto|].
    destruct (onMouseMove_keeps_NaN img e c s0) as (Kx & Ky & Kw & Kh).
    rewrite Hx in Kx. rewrite Hy in Ky. rewrite Hw in Kw. rewrite Hh in Kh.
    destruct (IH (onMouseMove img e c s0)) as (Ix & Iy & Iw & Ih).
    repeat split; intros H0 H1; auto. }
  destruct (Hall s) as (Ax & Ay & Aw & Ah). repeat split; auto.
Qed.

Example NaN_survives_a_drag :
  gesture SampleHost.previewSize SampleHost.pressBody
          [SampleHost.moveTo 370 300; SampleHost.moveTo 520 310]
          (mkCrop nan nan 50 50 true)
  = mkCrop nan nan 50 50 true.
Proof. reflexivity. Qed.

(** A fold whose every step establishes [Q] from [P], where [Q] implies
    [P], ends in [Q] after at least one step. *)
Lemma fold_left_establishes {A B} (f : A -> B -> A) (P Q : A -> Prop) :
  (forall a b, P a -> Q (f a b)) -> (forall a, Q a -> P a) ->
  forall (l : list B) (a : A), l <> [] -> P a -> Q (fold_left f l a).
Proof.
  intros Hstep Hweak l. induction l as [|b rest IH]; intros a Hne Ha;
    [congruence|]. simpl.
  destruct rest as [|b' rest']; [by apply Hstep|].
  apply IH; [discriminate|]. apply Hweak. by apply Hstep.
Qed.

(** One move of a body drag keeps the size and clamps the origin. *)
Lemma onMouseMove_body (img : ImageElement) (e : MouseEvent) (c : Closure)
    (s : CropSettings) :
  isDragging c = true ->
  (0 <=? 100 - width s) = true -> (0 <=? 100 - height s) = true ->
  let s' := onMouseMove img e c s in
  width s' = width s /\ height s' = height s /\ enabled s' = enabled s
  /\ within 0 (100 - width s') (x s') /\ within 0 (100 - height s') (y s').
Proof.
  intros Hd Hw Hh. unfold onMouseMove. rewrite Hd. simpl.
  repeat split; by apply within_of_clamp.
Qed.

(** One move of a resize by a handle that moves neither the left nor the
    top edge keeps the origin and clamps the size it changes. *)
Lemma onMouseMove_trailing (img : ImageElement) (e : MouseEvent) (c : Closure)
    (s : CropSettings) :
  isDragging c = false -> isResizing c = true ->
  currentHandle c ∈ trailingEdgeHandles ->
  startCropX c = x s -> startCropY c = y s ->
  (10 <=? 100 - x s) = true -> (10 <=? 100 - y s) = true ->
  let s' := onMouseMove img e c s in
  x s' = x s /\ y s' = y s /\ enabled s' = enabled s
  /\ (currentHandle c = "s" \/ within 10 (100 - x s') (width s'))
  /\ (currentHandle c = "e" \/ within 10 (100 - y s') (height s'))
  /\ (currentHandle c = "s" -> width s' = width s)
  /\ (currentHandle c = "e" -> height s' = height s).
Proof.
  intros Hd Hr Hin Hsx Hsy Hx Hy. unfold onMouseMove. rewrite Hd, Hr. simpl.
  unfold resizeCase. rewrite Hsx, Hsy.
  unfold trailingEdgeHandles in Hin.
  repeat (apply elem_of_cons in Hin as [->|Hin]); simpl.
  - repeat split; try reflexivity; try discriminate;
      right; by apply within_of_clamp.
  - repeat split; try reflexivity; try discriminate;
      [by left | right; by apply within_of_clamp].
  - repeat split; try reflexivity; try discriminate;
      [right; by apply within_of_clamp | by left].
  - inversion Hin.
Qed.

(** After a gesture of at least one move that starts on the body of the
    box, the size is as it was and x and y are [NaN] or lie between 0 and
    the room the listener computes, 100 - width and 100 - height, provided
    that room is not negative.  After one that starts on the handle se, s
    or e, the origin is as it was and each dimension the handle changes
    is [NaN] or lies between 10 and the room the listener computes,
    100 - x and 100 - y, provided that room is at least 10.  Both
    subtractions and all comparisons are those of binary64. *)
Theorem clamped_gesture_within_room (img : ImageElement) (down : MouseEvent)
    (moves : list MouseEvent) (s : CropSettings) :
  moves <> [] ->
  let s' := gesture img down moves s in
  (target_isHandle down = false ->
   (0 <=? 100 - width s) = true -> (0 <=? 100 - height s) = true ->
   width s' = width s /\ height s' = height s /\ enabled s' = enabled s
   /\ within 0 (100 - width s') (x s') /\ within 0 (100 - height s') (y s'))
  /\ (forall handle,
        target_isHandle down = true -> target_handle down = Some handle ->
        handle ∈ trailingEdgeHandles ->
        (10 <=? 100 - x s) = true -> (10 <=? 100 - y s) = true ->
        x s' = x s /\ y s' = y s /\ enabled s' = enabled s
        /\ (handle = "s" \/ within 10 (100 - x s') (width s'))
        /\ (handle = "e" \/ within 10 (100 - y s') (height s'))
        /\ (handle = "s" -> width s' = width s)
        /\ (handle = "e" -> height s' = height s)).
Proof.
  intros Hne s'. subst s'. unfold gesture. split.
  - intros Hth Hw Hh.
    set (c := onMouseDown down initialClosure s).
    assert (isDragging c = true) as Hd by (unfold c, onMouseDown; by rewrite Hth).
    apply (fold_left_establishes (fun s0 e => onMouseMove img e c s0)
             (fun s0 => width s0 = width s /\ height s0 = height s
                        /\ enabled s0 = enabled s)
             (fun s0 => width s0 = width s /\ height s0 = height s
                        /\ enabled s0 = enabled s
                        /\ within 0 (100 - width s0) (x s0)
                        /\ within 0 (100 - height s0) (y s0)));
      [| tauto | exact Hne | by repeat split].
    intros s0 e (Hw0 & Hh0 & He0).
    destruct (onMouseMove_body img e c s0 Hd) as (Hw1 & Hh1 & He1 & Hx1 & Hy1);
      [by rewrite Hw0 | by rewrite Hh0 |].
    repeat split; try congruence; assumption.
  - intros handle Hth Hh Hin Hx Hy.
    set (c := onMouseDown down initialClosure s).
    assert (isDragging c = false /\ isResizing c = true
            /\ currentHandle c = handle
            /\ startCropX c = x s /\ startCropY c = y s)
      as (Hd & Hr & Hc & Hsx & Hsy).
    { unfold c, onMouseDown. rewrite Hth, Hh. by repeat split. }
    apply (fold_left_establishes (fun s0 e => onMouseMove img e c s0)
             (fun s0 => x s0 = x s /\ y s0 = y s /\ enabled s0 = enabled s
                        /\ (handle = "s" -> width s0 = width s)
                        /\ (handle = "e" -> height s0 = height s))
             (fun s0 => x s0 = x s /\ y s0 = y s /\ enabled s0 = enabled s
                        /\ (handle = "s" \/ within 10 (100 - x s0) (width s0))
                        /\ (handle = "e" \/ within 10 (100 - y s0) (height s0))
                        /\ (handle = "s" -> width s0 = width s)
                        /\ (handle = "e" -> height s0 = height s)));
      [| tauto | exact Hne | by repeat split].
    intros s0 e (Hx0 & Hy0 & He0 & Hws & Hhe).
    destruct (onMouseMove_trailing img e c s0 Hd Hr)
      as (Hx1 & Hy1 & He1 & Hw1 & Hh1 & Hws1 & Hhe1);
      [by rewrite Hc | congruence | congruence
       | by rewrite Hx0 | by rewrite Hy0 |].
    rewrite Hc in *.
    repeat split; try congruence; try assumption.
    + intros Hs. rewrite (Hws1 Hs). by apply Hws.
    + intros He. rewrite (Hhe1 He). by apply Hhe.
Qed.

Lemma clamped_gesture_within_room_witness :
  let s' := gesture SampleHost.previewSize SampleHost.pressBody
              [SampleHost.moveTo 370 300; SampleHost.moveTo 900 900]
              (mkCrop 40 20 50 50 true) in
  width s' = 50 /\ height s' = 50
  /\ within 0 (100 - width s') (x s') /\ within 0 (100 - height s') (y s').
Proof.
  destruct (clamped_gesture_within_room SampleHost.previewSize
              SampleHost.pressBody
              [SampleHost.moveTo 370 300; SampleHost.moveTo 900 900]
              (mkCrop 40 20 50 50 true)) as [Hbody _]; [discriminate|].
  destruct (Hbody eq_refl eq_refl eq_refl) as (Hw & Hh & _ & Hx & Hy).
  by repeat split.
Defined.

(** The room is the rounded difference, so the exact sum of x and width
    can exceed 100 in the last place.  On a preview 200 pixels wide, a
    drag of the handle e by -58 pixels from {0, 0, 50, 50} leaves the
    width 21.000000000000004; a drag of the body far to the right then
    stops at x = 79 = 100 - width as binary64 computes it, and 79 plus
    that width is more than 100. *)
Example room_is_rounded :
  exists s1 s2 qx qw,
    s1 = gesture SampleHost.previewSize (SampleHost.pressOn "e")
           [SampleHost.moveTo 442 300] (mkCrop 0 0 50 50 true)
    /\ width s1 = 0x1.5000000000001p+4
    /\ s2 = gesture SampleHost.previewSize SampleHost.pressBody
              [SampleHost.moveTo 9000 300] s1
    /\ x s2 = 79 /\ 100 - width s2 = 79 /\ (x s2 + width s2 <=? 100) = true
    /\ exact (x s2) = Some qx /\ exact (width s2) = Some qw
    /\ (100 < qx + qw)%Q.
Proof.
  eexists _, _, _, _. split; [reflexivity|]. split; [reflexivity|].
  split; [reflexivity|]. split; [reflexivity|]. split; [reflexivity|].
  split; [reflexivity|].
  split; [vm_compute; reflexivity|]. split; [vm_compute; reflexivity|].
  reflexivity.
Qed.

End CropArithmeticSpec.

(** * Further properties of the engines *)

(** ** Crop engine: gestures *)
Module CropGestures.
Import CropManager CropSpec.

Ltac run_press down σ s Hcur c Hpress Hdrag Hres Hhandle :=
  destruct (onMouseDown_run down initialClosure σ s Hcur)
    as (c & -> & Hpress & Hdrag & Hres & Hhandle);
  simpl in Hdrag, Hres, Hhandle.

Lemma pressed_active (down : MouseEvent) (c : Closure) :
  isDragging c = (if target_isHandle down then false else true) ->
  isResizing c = (if target_isHandle down then true else false) ->
  isDragging c = true \/ isResizing c = true.
Proof. intros -> ->. destruct (target_isHandle down); auto. Qed.

End CropGestures.

(** ** Crop engine: events, frame and the settings object *)
Module CropEvents.
Import CropManager CropSpec CropGestures.

Lemma resizeCase_enabled (c : Closure) (dx dy : Q) (s : CropSettings) :
  enabled (resizeCase c dx dy s) = enabled s.
Proof.
  unfold resizeCase.
  repeat match goal with
         | |- context [String.eqb (currentHandle c) ?h] =>
             destruct (String.eqb (currentHandle c) h); [reflexivity|]
         end.
  reflexivity.
Qed.

Lemma moved_frame (c : Closure) (s : CropSettings) (dx dy : Q) :
  enabled (moved c s dx dy) = enabled s
  /\ (isDragging c = true ->
      width (moved c s dx dy) = width s /\ height (moved c s dx dy) = height s).
Proof.
  unfold moved. destruct (isDragging c); simpl.
  - by repeat split.
  - split; [|discriminate].
    destruct (isResizing c); [apply resizeCase_enabled | reflexivity].
Qed.

(** What a run of moves with an active closure does to the store. *)
Lemma onMouseMoves_run (img : HTMLImageElement) (moves : list MouseEvent)
    (c : Closure) :
  isDragging c = true \/ isResizing c = true ->
  forall (σ : State) (s : CropSettings),
    current σ = Some s ->
    exists σ' s',
      onMouseMoves img moves c σ = Some (tt, σ')
      /\ current σ' = Some s'
      /\ enabled s' = enabled s
      /\ (isDragging c = true -> width s' = width s /\ height s' = height s)
      /\ length (dispatched σ') = (length (dispatched σ) + length moves)%nat
      /\ (moves <> [] -> last (dispatched σ') = Some (this_cropSettings σ')).
Proof.
  intros Hact. induction moves as [|e rest IH]; intros σ s Hcur; simpl.
  - exists σ, s. split; [reflexivity|]. split; [exact Hcur|].
    split; [reflexivity|]. split; [by split|]. split; [lia | congruence].
  - destruct (onMouseMove_run img e c σ s Hcur Hact) as (σ1 & Hrun & Hnew & Hev).
    destruct (moved_frame c s ((clientX e - startX c) / offsetWidth img * 100)
                ((clientY e - startY c) / offsetHeight img * 100)) as (Hen1 & Hwh1).
    destruct (IH σ1 _ Hnew) as (σ' & s' & Hrest & Hcur' & Hen & Hwh & Hlen & Hlast).
    exists σ', s'. split.
    { unfold mbind, M_bind, bind. by rewrite Hrun. }
    split; [exact Hcur'|]. split; [congruence|]. split.
    { intros Hd. destruct (Hwh Hd) as [-> ->]. by apply Hwh1. }
    split.
    { rewrite Hlen, Hev, length_app. simpl. lia. }
    intros _. destruct rest as [|e' rest'].
    + simpl in Hrest. injection Hrest as <-. rewrite Hev. apply last_snoc.
    + apply Hlast. discriminate.
Qed.

Lemma onMouseMoves_idle (img : HTMLImageElement) (moves : list MouseEvent)
    (c : Closure) (σ : State) :
  isDragging c = false -> isResizing c = false ->
  onMouseMoves img moves c σ = Some (tt, σ).
Proof.
  intros Hd Hr. induction moves as [|e rest IH]; simpl; [reflexivity|].
  unfold mbind, M_bind, bind. by rewrite (onMouseMove_idle img e c σ Hd Hr).
Qed.

Lemma gesture_run (img : HTMLImageElement) (down : MouseEvent)
    (moves : list MouseEvent) (σ : State) (s : CropSettings) :
  current σ = Some s ->
  exists c σ' s',
    gesture img down moves σ = Some (onMouseUp c, σ')
    /\ isDragging c = (if target_isHandle down then false else true)
    /\ current σ' = Some s'
    /\ enabled s' = enabled s
    /\ (isDragging c = true -> width s' = width s /\ height s' = height s)
    /\ length (dispatched σ') = (length (dispatched σ) + length moves)%nat
    /\ (moves <> [] -> last (dispatched σ') = Some (this_cropSettings σ')).
Proof.
  intros Hcur. unfold gesture, mbind, M_bind, bind.
  destruct (onMouseDown_run down initialClosure σ s Hcur)
    as (c & -> & _ & Hdrag & Hres & _).
  simpl in Hdrag, Hres.
  destruct (onMouseMoves_run img moves c (pressed_active down c Hdrag Hres) σ s Hcur)
    as (σ' & s' & -> & Hrest).
  exists c, σ', s'. split; [reflexivity|]. by split.
Qed.

(** Once the button is released the listeners are idle: whatever moves
    follow a complete gesture, they change neither the settings nor the
    store and dispatch no event. *)
Theorem moves_after_release_ignored (img : HTMLImageElement)
    (down : MouseEvent) (moves later : list MouseEvent) (σ : State)
    (s : CropSettings) :
  current σ = Some s ->
  exists c σ',
    gesture img down moves σ = Some (c, σ')
    /\ onMouseMoves img later c σ' = Some (tt, σ').
Proof.
  intros Hcur.
  destruct (gesture_run img down moves σ s Hcur) as (c & σ' & s' & Hrun & _).
  exists (onMouseUp c), σ'. split; [exact Hrun|].
  by apply onMouseMoves_idle.
Qed.

Lemma moves_after_release_ignored_witness :
  exists c σ',
    gesture SampleHost.preview SampleHost.pressNW [SampleHost.moveLeft130]
      SampleHost.sliders_40_20_50_50 = Some (c, σ')
    /\ onMouseMoves SampleHost.preview
         [mkMouse 10 10 false None; mkMouse 700 20 false None] c σ'
       = Some (tt, σ').
Proof.
  apply (moves_after_release_ignored SampleHost.preview SampleHost.pressNW
           [SampleHost.moveLeft130]
           [mkMouse 10 10 false None; mkMouse 700 20 false None]
           SampleHost.sliders_40_20_50_50 (mkCrop 40 20 50 50 true)).
  reflexivity.
Defined.

(** A gesture of n moves dispatches exactly n [cropUpdate] events, and the
    detail of the last one is the very object the manager then holds, not a
    copy: overwriting it overwrites the manager's settings. *)
Theorem gesture_dispatches_live_settings (img : HTMLImageElement)
    (down : MouseEvent) (moves : list MouseEvent) (σ : State)
    (s : CropSettings) :
  current σ = Some s ->
  exists c σ',
    gesture img down moves σ = Some (c, σ')
    /\ length (dispatched σ') = (length (dispatched σ) + length moves)%nat
    /\ (moves <> [] ->
        exists detail,
          last (dispatched σ') = Some detail
          /\ heap σ' !! detail = current σ'
          /\ forall v σ'', assign detail v σ' = Some (tt, σ'') ->
                           current σ'' = Some v).
Proof.
  intros Hcur.
  destruct (gesture_run img down moves σ s Hcur)
    as (c & σ' & s' & Hrun & _ & Hcur' & _ & _ & Hlen & Hlast).
  exists (onMouseUp c), σ'. split; [exact Hrun|]. split; [exact Hlen|].
  intros Hne. exists (this_cropSettings σ'). split; [by apply Hlast|].
  split; [reflexivity|].
  intros v σ'' [= <-]. unfold current in *; simpl.
  apply list_lookup_insert_eq. by apply lookup_lt_Some in Hcur'.
Qed.

Lemma gesture_dispatches_live_settings_witness :
  exists c σ',
    gesture SampleHost.preview SampleHost.pressNW
      [SampleHost.moveLeft130; SampleHost.moveLeft130; SampleHost.moveLeft130]
      SampleHost.sliders_40_20_50_50 = Some (c, σ')
    /\ length (dispatched σ') = 3%nat.
Proof.
  destruct (gesture_dispatches_live_settings SampleHost.preview SampleHost.pressNW
              [SampleHost.moveLeft130; SampleHost.moveLeft130; SampleHost.moveLeft130]
              SampleHost.sliders_40_20_50_50 (mkCrop 40 20 50 50 true) eq_refl)
    as (c & σ' & Hrun & Hlen & _).
  exists c, σ'. split; [exact Hrun | exact Hlen].
Defined.

(** No gesture changes [enabled], and a gesture that starts on the body
    of the box changes neither the width nor the height. *)
Theorem gesture_frame (img : HTMLImageElement) (down : MouseEvent)
    (moves : list MouseEvent) (σ : State) (s : CropSettings) :
  current σ = Some s ->
  exists c σ' s',
    gesture img down moves σ = Some (c, σ')
    /\ current σ' = Some s'
    /\ enabled s' = enabled s
    /\ (target_isHandle down = false ->
        width s' = width s /\ height s' = height s).
Proof.
  intros Hcur.
  destruct (gesture_run img down moves σ s Hcur)
    as (c & σ' & s' & Hrun & Hdrag & Hcur' & Hen & Hwh & _).
  exists (onMouseUp c), σ', s'. split; [exact Hrun|]. split; [exact Hcur'|].
  split; [exact Hen|]. intros Hth. apply Hwh. by rewrite Hdrag, Hth.
Qed.

Lemma gesture_frame_witness :
  exists c σ' s',
    gesture SampleHost.preview (mkMouse 500 300 false None)
      [SampleHost.moveLeft130] SampleHost.sliders_40_20_50_50 = Some (c, σ')
    /\ current σ' = Some s'
    /\ enabled s' = true
    /\ (false = false -> width s' = 50 /\ height s' = 50).
Proof.
  apply (gesture_frame SampleHost.preview (mkMouse 500 300 false None)
           [SampleHost.moveLeft130] SampleHost.sliders_40_20_50_50
           (mkCrop 40 20 50 50 true)).
  reflexivity.
Defined.

Lemma spread_overlay (s : CropSettings) (p1 p2 : PartialCropSettings) :
  spread (spread s p1) p2 = spread s (overlayPartial p1 p2).
Proof.
  destruct p1 as [a1 b1 c1 d1 e1], p2 as [a2 b2 c2 d2 e2].
  unfold spread, overlayPartial; simpl.
  by destruct a2, b2, c2, d2, e2.
Qed.

(** Two calls of [setCropSettings] in a row leave the manager with the
    settings one call with the merged partial object would have left: the
    later call wins property by property, and what neither mentions is
    kept. *)
Theorem setCropSettings_twice (σ : State) (s : CropSettings)
    (p1 p2 : PartialCropSettings) :
  current σ = Some s ->
  exists σ1 σ2 σ12,
    setCropSettings p1 σ = Some (tt, σ1)
    /\ setCropSettings p2 σ1 = Some (tt, σ2)
    /\ setCropSettings (overlayPartial p1 p2) σ = Some (tt, σ12)
    /\ current σ2 = current σ12
    /\ current σ2 = Some (spread s (overlayPartial p1 p2)).
Proof.
  intros Hcur.
  pose proof (setCropSettings_run σ s p1 Hcur) as H1.
  set (σ1 := mkState (heap σ ++ [spread s p1]) (length (heap σ)) (dispatched σ)) in *.
  assert (current σ1 = Some (spread s p1)) as Hcur1 by apply current_alloc.
  pose proof (setCropSettings_run σ1 _ p2 Hcur1) as H2.
  pose proof (setCropSettings_run σ s (overlayPartial p1 p2) Hcur) as H12.
  eexists _, _, _. split; [exact H1|]. split; [exact H2|]. split; [exact H12|].
  rewrite !current_alloc. by rewrite spread_overlay.
Qed.

Lemma setCropSettings_twice_witness :
  exists σ1 σ2,
    setCropSettings (mkPartial (Some 10) None None None (Some true))
      SampleHost.middleHalf = Some (tt, σ1)
    /\ setCropSettings (mkPartial (Some 30) (Some 5) None None None) σ1
       = Some (tt, σ2)
    /\ current σ2 = Some (mkCrop 30 5 50 50 true).
Proof.
  destruct (setCropSettings_twice SampleHost.middleHalf (mkCrop 25 25 50 50 true)
              (mkPartial (Some 10) None None None (Some true))
              (mkPartial (Some 30) (Some 5) None None None) eq_refl)
    as (σ1 & σ2 & σ12 & H1 & H2 & _ & _ & Hcur).
  exists σ1, σ2. split; [exact H1|]. split; [exact H2 | exact Hcur].
Defined.

(** Whatever the manager held, storing a complete settings object and
    reading it back with [getCropSettings] yields an object equal to the
    one stored. *)
Theorem set_then_get_roundtrip (σ : State) (s t : CropSettings) :
  current σ = Some s ->
  exists σ1 copy σ2,
    setCropSettings (whole t) σ = Some (tt, σ1)
    /\ getCropSettings σ1 = Some (copy, σ2)
    /\ heap σ2 !! copy = Some t
    /\ current σ2 = Some t.
Proof.
  intros Hcur.
  pose proof (setCropSettings_run σ s (whole t) Hcur) as H1.
  rewrite spread_whole in H1.
  set (σ1 := mkState (heap σ ++ [t]) (length (heap σ)) (dispatched σ)) in *.
  assert (current σ1 = Some t) as Hcur1 by apply current_alloc.
  pose proof (getCropSettings_run σ1 t Hcur1) as H2.
  eexists _, _, _. split; [exact H1|]. split; [exact H2|]. simpl. split.
  - by apply list_lookup_middle.
  - unfold current in *; simpl in *. rewrite lookup_app_l; [exact Hcur1|].
    by apply lookup_lt_Some in Hcur1.
Qed.

Lemma set_then_get_roundtrip_witness :
  exists σ1 copy σ2,
    setCropSettings (whole (mkCrop 5 6 70 80 true)) SampleHost.middleHalf
    = Some (tt, σ1)
    /\ getCropSettings σ1 = Some (copy, σ2)
    /\ heap σ2 !! copy = Some (mkCrop 5 6 70 80 true)
    /\ current σ2 = Some (mkCrop 5 6 70 80 true).
Proof.
  apply (set_then_get_roundtrip SampleHost.middleHalf (mkCrop 25 25 50 50 true)
           (mkCrop 5 6 70 80 true)).
  reflexivity.
Defined.

End CropEvents.

(** ** File metadata *)
Module FileInfoSpec.
Import FileHandler FileHandlerIO.

Lemma splitOn_nonempty (sep : ascii) (s : string) : splitOn sep s <> [].
Proof.
  destruct s as [|c rest]; simpl; [discriminate|].
  destruct (Ascii.eqb c sep); [discriminate|].
  destruct (splitOn sep rest); discriminate.
Qed.

Lemma splitOn_second (sep : ascii) (s : string) :
  splitOn sep s !! 1%nat = None <-> sep ∉ String.list_ascii_of_string s.
Proof.
  induction s as [|c rest IH]; simpl.
  - split; [intros _ H; inversion H | reflexivity].
  - destruct (Ascii.eqb_spec c sep) as [->|Hne].
    + split.
      * intros Hnone. exfalso.
        pose proof (splitOn_nonempty sep rest) as Hn.
        destruct (splitOn sep rest); [congruence | discriminate].
      * intros Hnot. exfalso. apply Hnot. left.
    + pose proof (splitOn_nonempty sep rest) as Hn.
      destruct (splitOn sep rest) as [|first others] eqn:E; [congruence|].
      simpl in *. rewrite IH. rewrite not_elem_of_cons. split.
      * intros H. split; [congruence | exact H].
      * intros [_ H]. exact H.
Qed.

(** [getFileInfo] throws, on reading [toUpperCase] of [undefined], exactly
    for a file whose type contains no slash; for any other file it returns
    the name unchanged and the formatted size. *)
Theorem getFileInfo_throws_iff (formatFileSize : Q -> string) (file : File) :
  (getFileInfo formatFileSize file = None
   <-> "/"%char ∉ String.list_ascii_of_string (type file))
  /\ (forall info, getFileInfo formatFileSize file = Some info ->
        info_name info = name file
        /\ info_size info = formatFileSize (size file)).
Proof.
  unfold getFileInfo. rewrite <- splitOn_second.
  destruct (splitOn "/"%char (type file) !! 1%nat); split.
  - split; discriminate.
  - intros info [= <-]. by split.
  - by split.
  - discriminate.
Qed.

Lemma getFileInfo_allowed (formatFileSize : Q -> string) (file : File) :
  type file ∈ allowedTypes ->
  exists label,
    getFileInfo formatFileSize file
    = Some (mkFileInfo (name file) (formatFileSize (size file)) label)
    /\ label ∈ allowedLabels.
Proof.
  intros Hin. unfold getFileInfo, allowedTypes in *.
  repeat (apply elem_of_cons in Hin as [-> | Hin]);
    try (simpl; eexists; split; [reflexivity |];
         apply includes_elem_of; reflexivity).
  by apply elem_of_nil in Hin.
Qed.

(** Every file [validateImageFile] accepts gets its metadata without an
    exception: the name, the formatted size, and as type label the upper-case
    second part of its MIME type, one of the ten labels. *)
Theorem validated_file_has_info (formatFileSize : Q -> string) (file : File) :
  valid (validateImageFile file) = true ->
  exists label,
    getFileInfo formatFileSize file
    = Some (mkFileInfo (name file) (formatFileSize (size file)) label)
    /\ label ∈ allowedLabels.
Proof.
  intros Hv. apply FileSpec.validateImageFile_valid_iff in Hv as [Hin _].
  by apply getFileInfo_allowed.
Qed.

Lemma validated_file_has_info_witness :
  exists label,
    getFileInfo (fun _ => "1 KB") (mkFile "logo.svg" 1024 "image/svg+xml")
    = Some (mkFileInfo "logo.svg" "1 KB" label)
    /\ label ∈ allowedLabels.
Proof.
  apply (validated_file_has_info (fun _ => "1 KB")
           (mkFile "logo.svg" 1024 "image/svg+xml")).
  reflexivity.
Defined.

Example getFileInfo_svg :
  getFileInfo (fun _ => "1 KB") (mkFile "logo.svg" 1024 "image/svg+xml")
  = Some (mkFileInfo "logo.svg" "1 KB" "SVG+XML").
Proof. reflexivity. Qed.

Example getFileInfo_untyped :
  getFileInfo (fun _ => "1 KB") (mkFile "notes" 1024 "") = None.
Proof. reflexivity. Qed.

End FileInfoSpec.

(** ** Content script *)
Module ContentSpec.
Import ContentScript.

Lemma tables_unknown (format : string) :
  format ∉ exportFormats ->
  mimeTypes !! format = None /\ extensions !! format = None.
Proof.
  unfold exportFormats, mimeTypes, extensions. intros Hnot.
  split;
    repeat (rewrite lookup_insert_ne;
            [| intros <-; apply Hnot; repeat constructor]);
    apply lookup_empty.
Qed.

(** For the four formats it lists, the content script's MIME type and
    extension are those of the studio's catalog; for every other name that
    is not a key of [Object.prototype], among them the catalog's bmp, tiff,
    ico and svg, it falls back to PNG. *)
Theorem export_tables_agree_with_catalog (format : string) :
  (format ∈ exportFormats ->
   exists info,
     CompressionManager.formatMap !! format = Some info
     /\ getMimeType format = SString (CompressionManager.mimeType info)
     /\ getExtension format = SString (CompressionManager.extension info))
  /\ (format ∉ exportFormats ->
      format ∉ CompressionManager.Object_prototype_keys ->
      getMimeType format = SString "image/png"
      /\ getExtension format = SString "png").
Proof.
  split.
  - unfold exportFormats. intros Hin.
    repeat (apply elem_of_cons in Hin as [-> | Hin]);
      try (eexists; split; [vm_compute; reflexivity |];
           split; vm_compute; reflexivity).
    by apply elem_of_nil in Hin.
  - intros Hnot Hproto. destruct (tables_unknown format Hnot) as [Hm He].
    apply includes_not_elem_of in Hproto.
    unfold getMimeType, getExtension, GetStr. by rewrite Hm, He, Hproto.
Qed.

Section Extraction.
Variable toDataURL : Canvas -> string + string.

Lemma gt_lt (a b : Q) : gt a b = true <-> b < a.
Proof.
  unfold gt. rewrite negb_true_iff. split.
  - intros H. apply Qnot_le_lt. intros Hle.
    apply Qle_bool_iff in Hle. congruence.
  - intros H. destruct (Qle_bool a b) eqn:E; [|reflexivity].
    apply Qle_bool_iff in E. exfalso. apply (Qlt_not_le _ _ H E).
Qed.

Lemma nonEmpty_spec (s : string) : nonEmpty s = true <-> s <> "".
Proof. destruct s; simpl; split; congruence. Qed.

Lemma extractOne_spec (img : PageImage) (entry : ExtractedImage) :
  extractOne toDataURL img = Some entry <->
  img_src img <> "" /\ 100 < naturalWidth (element img)
  /\ 100 < naturalHeight (element img)
  /\ toDataURL (canvasOf (element img)) = inl (ex_dataUrl entry)
  /\ ex_src entry = img_src img
  /\ ex_alt entry = (if nonEmpty (img_alt img) then img_alt img else "Image")
  /\ ex_width entry = naturalWidth (element img)
  /\ ex_height entry = naturalHeight (element img).
Proof.
  unfold extractOne. split.
  - destruct (nonEmpty (img_src img)) eqn:Hs; [|discriminate].
    destruct (gt (naturalWidth (element img)) 100) eqn:Hw; [|discriminate].
    destruct (gt (naturalHeight (element img)) 100) eqn:Hh; [|discriminate].
    simpl. destruct (toDataURL _) as [url|]; [|discriminate].
    intros [= <-]. simpl.
    apply nonEmpty_spec in Hs. apply gt_lt in Hw. apply gt_lt in Hh.
    by repeat split.
  - intros (Hs & Hw & Hh & Hurl & Hsrc & Halt & Hwd & Hht).
    apply nonEmpty_spec in Hs. apply gt_lt in Hw. apply gt_lt in Hh.
    rewrite Hs, Hw, Hh, Hurl. simpl. f_equal.
    destruct entry; simpl in *. congruence.
Qed.

Lemma extractPageImages_app (l1 l2 : list PageImage) :
  extractPageImages toDataURL (l1 ++ l2)
  = (extractPageImages toDataURL l1 ++ extractPageImages toDataURL l2)%list.
Proof.
  induction l1 as [|img rest IH]; simpl; [reflexivity|].
  destruct (extractOne toDataURL img); simpl; by rewrite IH.
Qed.

(** Every image [extractPageImages] returns is wider and higher than 100
    pixels and has a non-empty source and a non-empty alternative text,
    and the sources returned are, in page order, a sublist of the sources
    of the page. *)
Theorem extractPageImages_sound (imgElements : list PageImage) :
  Forall (fun entry => 100 < ex_width entry /\ 100 < ex_height entry
                       /\ ex_src entry <> "" /\ ex_alt entry <> "")
         (extractPageImages toDataURL imgElements)
  /\ (ex_src <$> extractPageImages toDataURL imgElements)
       `sublist_of` (img_src <$> imgElements).
Proof.
  induction imgElements as [|img rest [IHall IHsub]]; simpl.
  - split; [constructor | reflexivity].
  - destruct (extractOne toDataURL img) as [entry|] eqn:E.
    + apply extractOne_spec in E
        as (Hs & Hw & Hh & _ & Hsrc & Halt & Hwd & Hht).
      split.
      * constructor; [|exact IHall]. rewrite Hwd, Hht, Hsrc, Halt.
        repeat split; try assumption.
        destruct (nonEmpty (img_alt img)) eqn:Ha;
          [by apply nonEmpty_spec | discriminate].
      * simpl. rewrite Hsrc. by apply sublist_skip.
    + split; [exact IHall|]. by apply sublist_cons.
Qed.

(** Nothing that qualifies is lost: a page image with a source, wider and
    higher than 100 pixels, whose canvas exports, is returned with its
    source, its natural size and that export, whatever happens to the
    images around it; one whose canvas is tainted is skipped and the
    extraction goes on. *)
Theorem extractPageImages_complete (before after : list PageImage)
    (img : PageImage) :
  (forall dataUrl,
     img_src img <> "" -> 100 < naturalWidth (element img) ->
     100 < naturalHeight (element img) ->
     toDataURL (canvasOf (element img)) = inl dataUrl ->
     exists entry,
       extractPageImages toDataURL (before ++ img :: after)
       = (extractPageImages toDataURL before
          ++ entry :: extractPageImages toDataURL after)%list
       /\ ex_src entry = img_src img /\ ex_dataUrl entry = dataUrl
       /\ ex_width entry = naturalWidth (element img)
       /\ ex_height entry = naturalHeight (element img))
  /\ (forall message,
        toDataURL (canvasOf (element img)) = inr message ->
        extractPageImages toDataURL (before ++ img :: after)
        = extractPageImages toDataURL (before ++ after)).
Proof.
  split.
  - intros dataUrl Hs Hw Hh Hurl.
    set (entry := mkExtracted (img_src img)
                    (if nonEmpty (img_alt img) then img_alt img else "Image")
                    (naturalWidth (element img)) (naturalHeight (element img))
                    dataUrl).
    assert (extractOne toDataURL img = Some entry) as E.
    { apply extractOne_spec. by repeat split. }
    exists entry. rewrite extractPageImages_app. simpl. rewrite E.
    by repeat split.
  - intros message Hurl. rewrite !extractPageImages_app. simpl.
    unfold extractOne. rewrite Hurl.
    by destruct (nonEmpty (img_src img) && _ && _).
Qed.

End Extraction.

Example extract_sample_page :
  extractPageImages SampleExtension.toDataURL SampleExtension.page
  = [ mkExtracted "https://example.org/banner.png" "Image" 640 480
                  "data:image/png;base64,AAAA";
      mkExtracted "https://example.org/cat.jpg" "a cat" 300 200
                  "data:image/png;base64,AAAA" ].
Proof. reflexivity. Qed.

End ContentSpec.

(** ** Background script *)
Module BackgroundSpec.
Import ContentScript Background.

Lemma prefix_app (p s : string) : String.prefix p (p +:+ s) = true.
Proof.
  induction p as [|c p IH]; simpl; [by destruct s|].
  destruct (ascii_dec c c); [exact IH | congruence].
Qed.

Lemma dropChars_app (p s : string) : dropChars (String.length p) (p +:+ s) = s.
Proof. induction p as [|c p IH]; simpl; [by destruct s | exact IH]. Qed.

Lemma replaceFirst_unfold (pat rep s : string) :
  replaceFirst pat rep s
  = if String.prefix pat s then rep +:+ dropChars (String.length pat) s
    else match s with
         | EmptyString => EmptyString
         | String c rest => String c (replaceFirst pat rep rest)
         end.
Proof. by destruct s. Qed.

Lemma replaceFirst_prefix (p s : string) : replaceFirst p "" (p +:+ s) = s.
Proof. by rewrite replaceFirst_unfold, prefix_app, dropChars_app. Qed.

Lemma click_routing_export (send : Channel) (now : Z) (format url : string)
    (st : State) :
  handleContextMenuClick send now (mkClick ("export-" +:+ format) url) st
  = exportImage send (mkClick ("export-" +:+ format) url) format st.
Proof.
  unfold handleContextMenuClick, startsWith. simpl menuItemId.
  change (String.eqb ("export-" +:+ format) "solanam-import") with false.
  cbv iota. by rewrite prefix_app, replaceFirst_prefix.
Qed.

(** A click on an item whose id is [export-] followed by any format name
    is routed to [exportImage] with exactly that name; a click on
    [solanam-import] to [importImage], on [solanam-about] to [showAbout]. *)
Theorem click_routing (send : Channel) (now : Z) (format url : string)
    (st : State) :
  handleContextMenuClick send now (mkClick ("export-" +:+ format) url) st
  = exportImage send (mkClick ("export-" +:+ format) url) format st
  /\ handleContextMenuClick send now (mkClick "solanam-import" url) st
     = importImage send now (mkClick "solanam-import" url) st
  /\ handleContextMenuClick send now (mkClick "solanam-about" url) st
     = showAbout st.
Proof.
  split; [apply click_routing_export | by split].
Qed.

(** Every item [createContextMenus] creates is accounted for by the click
    handler: the import item imports, each of the four format items
    exports in the format of its table row, a format both the content
    script and the studio's catalog know, the about item opens the about
    page, and the three structural items do nothing. *)
Theorem every_menu_item_routed (send : Channel) (now : Z) (url : string)
    (st : State) (item : MenuItem) :
  item ∈ createContextMenus ->
  (item_id item = "solanam-import"
   /\ handleContextMenuClick send now (mkClick (item_id item) url) st
      = importImage send now (mkClick (item_id item) url) st)
  \/ (exists row info,
        row ∈ formats /\ item_id item = fmt_id row
        /\ handleContextMenuClick send now (mkClick (item_id item) url) st
           = exportImage send (mkClick (item_id item) url) (fmt_format row) st
        /\ CompressionManager.formatMap !! fmt_format row = Some info
        /\ getMimeType (fmt_format row)
           = SString (CompressionManager.mimeType info)
        /\ getExtension (fmt_format row)
           = SString (CompressionManager.extension info))
  \/ (item_id item = "solanam-about"
      /\ handleContextMenuClick send now (mkClick (item_id item) url) st
         = showAbout st)
  \/ (item_id item ∈ structuralIds
      /\ handleContextMenuClick send now (mkClick (item_id item) url) st = st).
Proof.
  intros Hin. vm_compute in Hin.
  repeat (apply elem_of_cons in Hin as [-> | Hin]).
  - right; right; right. split; [|reflexivity].
    apply includes_elem_of. reflexivity.
  - left. by split.
  - right; right; right. split; [|reflexivity].
    apply includes_elem_of. reflexivity.
  - right; left. exists (mkExportFormat "export-jpeg" "Export as JPEG" "jpeg").
    eexists. split; [repeat constructor|]. split; [reflexivity|].
    split; [reflexivity|]. split; [vm_compute; reflexivity|].
    split; vm_compute; reflexivity.
  - right; left. exists (mkExportFormat "export-png" "Export as PNG" "png").
    eexists. split; [repeat constructor|]. split; [reflexivity|].
    split; [reflexivity|]. split; [vm_compute; reflexivity|].
    split; vm_compute; reflexivity.
  - right; left. exists (mkExportFormat "export-webp" "Export as WebP" "webp").
    eexists. split; [repeat constructor|]. split; [reflexivity|].
    split; [reflexivity|]. split; [vm_compute; reflexivity|].
    split; vm_compute; reflexivity.
  - right; left. exists (mkExportFormat "export-avif" "Export as AVIF" "avif").
    eexists. split; [repeat constructor|]. split; [reflexivity|].
    split; [reflexivity|]. split; [vm_compute; reflexivity|].
    split; vm_compute; reflexivity.
  - right; right; right. split; [|reflexivity].
    apply includes_elem_of. reflexivity.
  - right; right; left. by split.
  - by apply elem_of_nil in Hin.
Qed.

Lemma every_menu_item_routed_witness :
  exists row info,
    row ∈ formats /\ "export-webp" = fmt_id row
    /\ CompressionManager.formatMap !! fmt_format row = Some info
    /\ getMimeType (fmt_format row) = SString (CompressionManager.mimeType info).
Proof.
  assert (mkMenuItem "export-webp" (Some "solanam-export")
                     (Some "Export as WebP") false ∈ createContextMenus) as Hin.
  { vm_compute. repeat constructor. }
  destruct (every_menu_item_routed (mkChannel (fun _ => None) (fun _ _ => None))
              0%Z "https://example.org/banner.png" initial _ Hin)
    as [[H _] | [(row & info & Hrow & Hid & _ & Hmap & Hmime & _)
                | [[H _] | [H _]]]].
  - discriminate H.
  - exists row, info. by repeat split.
  - discriminate H.
  - apply includes_elem_of in H. discriminate H.
Defined.

(** *** The storage handoff *)

Lemma get_after_import (send : Channel) (t0 t1 : Z) (info : ClickInfo)
    (imageData : ImageData) (st : State) :
  sendProcess send (srcUrl info) = Some (ProcessOk imageData) ->
  let st1 := importImage send t0 info st in
  storage st1 !! "contextImage" = Some (StoredImage imageData)
  /\ storage st1 !! "contextImageTimestamp" = Some (StoredNumber t0).
Proof.
  intros Hsend. unfold importImage. rewrite Hsend. simpl.
  split; by simplify_map_eq.
Qed.

(** An image imported from a page at time t0 and asked for by the popup
    at a time t1 with t1 - t0 < 30000 milliseconds is handed over as it
    was stored, whatever the storage held before, and both storage keys
    are removed. *)
Theorem import_then_get (send : Channel) (t0 t1 : Z) (info : ClickInfo)
    (imageData : ImageData) (st : State) :
  sendProcess send (srcUrl info) = Some (ProcessOk imageData) ->
  (t1 - t0 < 30000)%Z ->
  exists st',
    handleMessage "getContextImage" t1 (importImage send t0 info st)
    = (ContextImage (StoredImage imageData), st')
    /\ storage st' !! "contextImage" = None
    /\ storage st' !! "contextImageTimestamp" = None
    /\ (forall key, key <> "contextImage" -> key <> "contextImageTimestamp" ->
                    storage st' !! key = storage st !! key).
Proof.
  intros Hsend Hrecent.
  destruct (get_after_import send t0 t1 info imageData st Hsend) as [Himg Hts].
  unfold handleMessage. simpl String.eqb. cbv iota.
  rewrite Himg, Hts. simpl.
  assert ((t1 - (if (t0 =? 0)%Z then 0 else t0) <? 30000)%Z = true) as ->.
  { apply Z.ltb_lt. destruct (Z.eqb_spec t0 0); lia. }
  eexists. split; [reflexivity|]. simpl.
  split; [by simplify_map_eq|]. split; [by simplify_map_eq|].
  intros key H1 H2. unfold importImage. rewrite Hsend. simpl.
  by simplify_map_eq.
Qed.

Lemma import_then_get_witness :
  exists st',
    handleMessage "getContextImage" 1700000012000
      (importImage (mkChannel (fun _ => Some (ProcessOk SampleExtension.bannerData))
                              (fun _ _ => None))
                   1700000000500 (mkClick "solanam-import"
                                          "https://example.org/banner.png")
                   initial)
    = (ContextImage (StoredImage SampleExtension.bannerData), st')
    /\ storage st' !! "contextImage" = None.
Proof.
  destruct (import_then_get
              (mkChannel (fun _ => Some (ProcessOk SampleExtension.bannerData))
                         (fun _ _ => None))
              1700000000500 1700000012000
              (mkClick "solanam-import" "https://example.org/banner.png")
              SampleExtension.bannerData initial eq_refl)
    as (st' & Hrun & Hnone & _); [lia|].
  exists st'. by split.
Defined.

(** A context image is handed over once: after a successful
    [getContextImage], every further one, at any time, is answered "No
    recent context image" and changes nothing. *)
Theorem context_image_consumed_once (t t' : Z) (st st' : State)
    (image : Stored) :
  handleMessage "getContextImage" t st = (ContextImage image, st') ->
  handleMessage "getContextImage" t' st'
  = (Error "No recent context image", st').
Proof.
  unfold handleMessage. simpl String.eqb. cbv iota.
  destruct (storage st !! "contextImage") as [img|]; [|discriminate].
  destruct (truthyStored (Some img) && _); [|discriminate].
  intros [= _ <-]. simpl. by simplify_map_eq.
Qed.

Lemma context_image_consumed_once_witness :
  handleMessage "getContextImage" 1700000020000
    (mkState ∅ [] [])
  = (Error "No recent context image", mkState ∅ [] []).
Proof.
  apply (context_image_consumed_once 1700000012000 1700000020000
           (mkState (<["contextImageTimestamp" := StoredNumber 1700000000500]>
                       (<["contextImage" := StoredImage SampleExtension.bannerData]> ∅))
                    [] [])
           (mkState ∅ [] []) (StoredImage SampleExtension.bannerData)).
  vm_compute. reflexivity.
Defined.

(** An image asked for 30 seconds or more after its import is refused,
    and it is not removed: storage is left exactly as the import left it,
    so every later request is refused as well while the stale image stays
    stored. *)
Theorem stale_image_refused_and_kept (send : Channel) (t0 t1 : Z)
    (info : ClickInfo) (imageData : ImageData) (st : State) :
  sendProcess send (srcUrl info) = Some (ProcessOk imageData) ->
  (0 < t0)%Z -> (30000 <= t1 - t0)%Z ->
  handleMessage "getContextImage" t1 (importImage send t0 info st)
  = (Error "No recent context image", importImage send t0 info st)
  /\ storage (importImage send t0 info st) !! "contextImage"
     = Some (StoredImage imageData).
Proof.
  intros Hsend Hpos Hstale.
  destruct (get_after_import send t0 t1 info imageData st Hsend) as [Himg Hts].
  split; [|exact Himg].
  unfold handleMessage. simpl String.eqb. cbv iota.
  rewrite Himg, Hts. simpl.
  assert ((t1 - (if (t0 =? 0)%Z then 0 else t0) <? 30000)%Z = false) as ->.
  { apply Z.ltb_ge. destruct (Z.eqb_spec t0 0); lia. }
  reflexivity.
Qed.

Lemma stale_image_refused_and_kept_witness :
  handleMessage "getContextImage" 1700000030500
    (importImage (mkChannel (fun _ => Some (ProcessOk SampleExtension.bannerData))
                            (fun _ _ => None))
                 1700000000500 (mkClick "solanam-import"
                                        "https://example.org/banner.png")
                 initial)
  = (Error "No recent context image",
     importImage (mkChannel (fun _ => Some (ProcessOk SampleExtension.bannerData))
                            (fun _ _ => None))
                 1700000000500 (mkClick "solanam-import"
                                        "https://example.org/banner.png")
                 initial).
Proof.
  apply (stale_image_refused_and_kept
           (mkChannel (fun _ => Some (ProcessOk SampleExtension.bannerData))
                      (fun _ _ => None))
           1700000000500 1700000030500
           (mkClick "solanam-import" "https://example.org/banner.png")
           SampleExtension.bannerData initial eq_refl); lia.
Defined.

(** A request that is refused, for whatever reason, and any message other
    than [getContextImage], leaves the background state as it was. *)
Lemma refused_changes_nothing (action : string) (t : Z) (st st' : State)
    (error : string) :
  handleMessage action t st = (Error error, st') -> st' = st.
Proof.
  unfold handleMessage.
  destruct (String.eqb action "getContextImage").
  - destruct (storage st !! "contextImage") as [img|]; [|by intros [= _ <-]].
    destruct (truthyStored (Some img) && _); [discriminate | by intros [= _ <-]].
  - destruct (String.eqb action "openSettings"); [discriminate | by intros [= _ <-]].
Qed.

End BackgroundSpec.

(** ** The crop overlay *)
Module OverlaySpec.
Import CropManager CropSpec CropOverlay.

Lemma removeFirstOverlay_count (children : list Node) :
  length (filter (fun n => isOverlay n = true) (removeFirstOverlay children))
  = pred (length (filter (fun n => isOverlay n = true) children)).
Proof.
  induction children as [|n rest IH]; simpl; [reflexivity|].
  destruct n as [box|tag].
  - rewrite filter_cons_True by reflexivity. reflexivity.
  - rewrite !filter_cons_False by (simpl; discriminate). exact IH.
Qed.

(** One call of [applyCropOverlay] on an image that has a parent: the
    first overlay found is removed; with cropping enabled one overlay and
    one listener are added, and no listener is ever removed. *)
Lemma applyCropOverlay_run (img : HTMLImageElement) (layout : Layout)
    (page : Page) (children : list Node) (s : CropSettings) :
  container page = Some children -> current (engine page) = Some s ->
  exists page',
    applyCropOverlay img layout page = Some page'
    /\ engine page' = engine page
    /\ is_Some (container page')
    /\ length (overlays page')
       = (pred (length (overlays page)) + (if enabled s then 1 else 0))%nat
    /\ listeners page'
       = (listeners page
          ++ (if enabled s then [mkListener initialClosure img] else []))%list.
Proof.
  intros Hc Hcur. unfold applyCropOverlay, overlays. rewrite Hc, Hcur.
  destruct (enabled s); simpl.
  - eexists. split; [reflexivity|]. simpl. split; [reflexivity|].
    split; [eauto|]. split; [|reflexivity].
    rewrite filter_app, length_app, removeFirstOverlay_count.
    rewrite filter_cons_True by reflexivity. reflexivity.
  - eexists. split; [reflexivity|]. simpl. split; [reflexivity|].
    split; [eauto|]. split; [|by rewrite app_nil_r].
    rewrite removeFirstOverlay_count. lia.
Qed.

Lemma render_run (n : nat) (img : HTMLImageElement) (layout : Layout) :
  forall (page : Page) (s : CropSettings),
    is_Some (container page) -> current (engine page) = Some s ->
    enabled s = true -> (length (overlays page) <= 1)%nat ->
    exists page',
      render n img layout page = Some page'
      /\ engine page' = engine page
      /\ length (overlays page')
         = (if n is O then length (overlays page) else 1%nat)
      /\ listeners page'
         = (listeners page ++ replicate n (mkListener initialClosure img))%list.
Proof.
  induction n as [|n IH]; intros page s [children Hc] Hcur Hen Hle; simpl.
  - exists page. rewrite app_nil_r. by repeat split.
  - destruct (applyCropOverlay_run img layout page children s Hc Hcur)
      as (page1 & -> & Heng & Hsome & Hcount & Hls).
    rewrite Hen in Hcount, Hls.
    assert (length (overlays page1) = 1%nat) as Hone by lia.
    destruct (IH page1 s Hsome) as (page' & Hrun & Heng' & Hcount' & Hls');
      [by rewrite Heng | exact Hen | lia |].
    exists page'. split; [exact Hrun|]. split; [congruence|]. split.
    + destruct n; [|exact Hcount'].
      simpl in Hrun. injection Hrun as <-. exact Hone.
    + rewrite Hls', Hls, <- app_assoc. reflexivity.
Qed.

(** Rendering the overlay n >= 1 times while cropping is enabled leaves
    exactly one overlay in the page but n more listeners on the document:
    every rendering registers its own and none is ever removed. *)
Theorem renderings_leave_one_overlay_n_listeners (n : nat)
    (img : HTMLImageElement) (layout : Layout) (page : Page)
    (s : CropSettings) :
  is_Some (container page) -> current (engine page) = Some s ->
  enabled s = true -> (length (overlays page) <= 1)%nat ->
  exists page',
    render (S n) img layout page = Some page'
    /\ length (overlays page') = 1%nat
    /\ length (listeners page') = (length (listeners page) + S n)%nat
    /\ listeners page `prefix_of` listeners page'.
Proof.
  intros Hsome Hcur Hen Hle.
  destruct (render_run (S n) img layout page s Hsome Hcur Hen Hle)
    as (page' & Hrun & _ & Hcount & Hls).
  exists page'. split; [exact Hrun|]. split; [exact Hcount|].
  rewrite Hls, length_app, length_replicate. split; [reflexivity|].
  by apply prefix_app_r.
Qed.

Lemma renderings_leave_one_overlay_n_listeners_witness :
  exists page',
    render 3 SampleHost.preview
      (mkLayout (mkClientRect 120 80) (mkClientRect 100 60))
      (mkPage SampleHost.sliders_40_20_50_50 (Some [Other "img"]) [])
    = Some page'
    /\ length (overlays page') = 1%nat
    /\ length (listeners page') = 3%nat.
Proof.
  destruct (renderings_leave_one_overlay_n_listeners 2 SampleHost.preview
              (mkLayout (mkClientRect 120 80) (mkClientRect 100 60))
              (mkPage SampleHost.sliders_40_20_50_50 (Some [Other "img"]) [])
              (mkCrop 40 20 50 50 true))
    as (page' & Hrun & Hone & Hlen & _).
  - eauto.
  - reflexivity.
  - reflexivity.
  - simpl. lia.
  - exists page'. by repeat split.
Defined.

(** *** Listeners on the document *)

Lemma runMoveListeners_idle (e : MouseEvent) (ls : list Listener) (σ : State) :
  Forall idle ls -> runMoveListeners e ls σ = Some (tt, σ).
Proof.
  induction 1 as [|l rest [Hd Hr] _ IH]; simpl; [reflexivity|].
  unfold bind. by rewrite (onMouseMove_idle _ e _ σ Hd Hr).
Qed.

Lemma runMoveListeners_single (e : MouseEvent) (before after : list Listener)
    (l : Listener) (σ : State) :
  Forall idle before -> Forall idle after ->
  runMoveListeners e (before ++ l :: after) σ
  = onMouseMove (captured l) e (closure l) σ.
Proof.
  intros Hb Ha. induction Hb as [|b rest [Hd Hr] _ IH]; simpl.
  - unfold bind. destruct (onMouseMove (captured l) e (closure l) σ)
      as [[[] σ']|]; [|reflexivity].
    by apply runMoveListeners_idle.
  - unfold bind at 1. by rewrite (onMouseMove_idle _ e _ σ Hd Hr).
Qed.

(** However many listeners the renderings have left on the document, as
    long as they are idle, a press on one box followed by a pointer move
    is handled by that box's listener alone: the settings become what that
    one handler computes, one event is dispatched, and after the release
    every listener is idle again. *)
Theorem press_move_release_single_listener (k : nat) (down move : MouseEvent)
    (page : Page) (l : Listener) (s : CropSettings) :
  Forall idle (listeners page) -> listeners page !! k = Some l ->
  current (engine page) = Some s ->
  exists page1 page2 c σ',
    cropBoxMouseDown k down page = Some page1
    /\ documentMouseMove move page1 = Some page2
    /\ onMouseDown down (closure l) (engine page) = Some (c, engine page)
    /\ onMouseMove (captured l) move c (engine page) = Some (tt, σ')
    /\ engine page2 = σ'
    /\ length (dispatched σ') = S (length (dispatched (engine page)))
    /\ Forall idle (listeners (documentMouseUp page2)).
Proof.
  intros Hidle Hk Hcur.
  destruct (onMouseDown_run down (closure l) (engine page) s Hcur)
    as (c & Hdown & _ & Hdrag & Hres & _).
  destruct (Forall_lookup_1 _ _ _ _ Hidle Hk) as [Hd Hr].
  rewrite Hd in Hdrag. rewrite Hr in Hres.
  assert (isDragging c = true \/ isResizing c = true) as Hact.
  { rewrite Hdrag, Hres. destruct (target_isHandle down); auto. }
  destruct (onMouseMove_run (captured l) move c (engine page) s Hcur Hact)
    as (σ' & Hmove & _ & Hev).
  unfold cropBoxMouseDown. rewrite Hk, Hdown.
  eexists _, _, c, σ'. split; [reflexivity|].
  unfold documentMouseMove; simpl.
  rewrite <- (take_drop_middle _ _ _ Hk) at 1.
  rewrite insert_app_r_alt by (rewrite length_take; lia).
  rewrite length_take_le by (apply lookup_lt_Some in Hk; lia).
  rewrite Nat.sub_diag. simpl.
  rewrite (runMoveListeners_single move _ _ (mkListener c (captured l)));
    [| by apply Forall_take | by apply Forall_drop].
  simpl. rewrite Hmove. split; [reflexivity|]. split; [reflexivity|].
  split; [reflexivity|]. split; [reflexivity|]. split.
  - rewrite Hev, length_app. simpl. lia.
  - unfold documentMouseUp; simpl. apply Forall_map, Forall_forall.
    intros x _. by split.
Qed.

Lemma press_move_release_single_listener_witness :
  exists page1 page2,
    cropBoxMouseDown 1 SampleHost.pressNW
      (mkPage SampleHost.sliders_40_20_50_50 (Some [Other "img"])
              [mkListener initialClosure SampleHost.preview;
               mkListener initialClosure SampleHost.preview;
               mkListener initialClosure SampleHost.preview]) = Some page1
    /\ documentMouseMove SampleHost.moveLeft130 page1 = Some page2
    /\ length (dispatched (engine page2)) = 1%nat.
Proof.
  destruct (press_move_release_single_listener 1 SampleHost.pressNW
              SampleHost.moveLeft130
              (mkPage SampleHost.sliders_40_20_50_50 (Some [Other "img"])
                      [mkListener initialClosure SampleHost.preview;
                       mkListener initialClosure SampleHost.preview;
                       mkListener initialClosure SampleHost.preview])
              (mkListener initialClosure SampleHost.preview)
              (mkCrop 40 20 50 50 true))
    as (page1 & page2 & c & σ' & H1 & H2 & _ & _ & Heng & Hlen & _).
  - repeat constructor.
  - reflexivity.
  - reflexivity.
  - exists page1, page2. split; [exact H1|]. split; [exact H2|].
    rewrite Heng. exact Hlen.
Defined.

End OverlaySpec.

(** ** The orchestrator *)
Module StudioSpec.
Import FileHandler FileHandlerIO ImageProcessor.

Lemma set_consistent (st : Studio) (s : CropManager.CropSettings)
    (p : CropManager.PartialCropSettings) (flag : bool)
    (k : Studio -> Studio) :
  CropManager.current (cropManager st) = Some s ->
  CropManager.enabled (CropManager.spread s p) = flag ->
  (forall st0, cropManager (k st0) = cropManager st0
               /\ isCropEnabled (k st0) = isCropEnabled st0
               /\ currentImage (k st0) = currentImage st0) ->
  isCropEnabled st = flag ->
  exists st',
    withManager st (CropManager.setCropSettings p (cropManager st)) k = Some st'
    /\ CropManager.current (cropManager st') = Some (CropManager.spread s p)
    /\ isCropEnabled st' = flag
    /\ currentImage st' = currentImage st.
Proof.
  intros Hcur Hen Hk Hflag. unfold withManager.
  rewrite (CropSpec.setCropSettings_run _ _ p Hcur).
  eexists. split; [reflexivity|].
  destruct (Hk (mkStudio
                  (CropManager.mkState
                     (CropManager.heap (cropManager st) ++ [CropManager.spread s p])
                     (length (CropManager.heap (cropManager st)))
                     (CropManager.dispatched (cropManager st)))
                  (currentImage st) (currentFile st) (compressionResult st)
                  (isCropEnabled st) (calls st))) as (-> & -> & ->).
  simpl. split; [apply CropSpec.current_alloc | by split].
Qed.

Lemma call_frame (c : list Call) (st0 : Studio) :
  cropManager (call c st0) = cropManager st0
  /\ isCropEnabled (call c st0) = isCropEnabled st0
  /\ currentImage (call c st0) = currentImage st0.
Proof. by repeat split. Qed.

Lemma updateCrop_consistent (sl : Sliders) (st : Studio) :
  consistent st -> exists st', updateCrop sl st = Some st' /\ consistent st'.
Proof.
  intros (s & Hcur & Hen). unfold updateCrop.
  destruct (currentImage st); [|exists st; split; [reflexivity | by exists s]].
  destruct (isCropEnabled st) eqn:Hflag; simpl;
    [|exists st; split; [reflexivity | exists s; by rewrite Hflag]].
  destruct (set_consistent st s
              (CropManager.mkPartial (Some (inject_Z (cropLeft sl)))
                 (Some (inject_Z (cropTop sl))) (Some (inject_Z (cropWidth sl)))
                 (Some (inject_Z (cropHeight sl))) (Some true))
              true (call [ApplyCropOverlay; UpdateCompression]) Hcur eq_refl
              (call_frame _) Hflag)
    as (st' & Hrun & Hcur' & Hflag' & _).
  exists st'. split; [exact Hrun|]. eexists. split; [exact Hcur'|]. by rewrite Hflag'.
Qed.

Lemma toggleCrop_consistent (sl : Sliders) (st : Studio) :
  consistent st -> exists st', toggleCrop sl st = Some st' /\ consistent st'.
Proof.
  intros (s & Hcur & Hen). unfold toggleCrop. simpl.
  destruct (isCropEnabled st) eqn:Hflag; simpl.
  - destruct (set_consistent
                (mkStudio (cropManager st) (currentImage st) (currentFile st)
                          (compressionResult st) false (calls st))
                s (CropManager.mkPartial None None None None (Some false))
                false (call [RemoveCropOverlay; UpdateCompression]) Hcur eq_refl
                (call_frame _) eq_refl)
      as (st' & Hrun & Hcur' & Hflag' & _).
    exists st'. split; [exact Hrun|]. eexists. split; [exact Hcur'|].
    by rewrite Hflag'.
  - destruct (set_consistent
                (mkStudio (cropManager st) (currentImage st) (currentFile st)
                          (compressionResult st) true (calls st))
                s (CropManager.mkPartial None None None None (Some true))
                true (fun st => st) Hcur eq_refl
                (fun st0 => conj eq_refl (conj eq_refl eq_refl)) eq_refl)
      as (st1 & Hrun1 & Hcur1 & Hflag1 & _).
    simpl in Hrun1. rewrite Hrun1.
    apply updateCrop_consistent. eexists. split; [exact Hcur1|].
    by rewrite Hflag1.
Qed.

Lemma resetToUpload_consistent (st : Studio) :
  exists st', resetToUpload st = Some st' /\ consistent st'.
Proof.
  unfold resetToUpload, withManager. simpl.
  eexists. split; [reflexivity|]. eexists. split; [apply CropSpec.current_alloc|].
  reflexivity.
Qed.

Lemma step_consistent (a : Action) (st : Studio) :
  consistent st -> exists st', step a st = Some st' /\ consistent st'.
Proof.
  intros Hc. destruct a as [sl|sl| |sl|img file| |img down moves]; simpl.
  - by apply toggleCrop_consistent.
  - by apply updateCrop_consistent.
  - apply resetToUpload_consistent.
  - unfold resetAll. destruct (isCropEnabled st) eqn:Hflag.
    + destruct (toggleCrop_consistent sl st Hc) as (st1 & -> & s & Hcur & Hen).
      eexists. split; [reflexivity|]. by exists s.
    + destruct Hc as (s & Hcur & Hen).
      eexists. split; [reflexivity|]. exists s. simpl. by split.
  - destruct Hc as (s & Hcur & Hen). eexists. split; [reflexivity|]. by exists s.
  - destruct Hc as (s & Hcur & Hen). eexists. split; [reflexivity|]. by exists s.
  - destruct Hc as (s & Hcur & Hen).
    destruct (CropEvents.gesture_run img down moves (cropManager st) s Hcur)
      as (c & σ' & s' & -> & _ & Hcur' & Hen' & _).
    eexists. split; [reflexivity|]. exists s'. simpl. split; [exact Hcur'|].
    congruence.
Qed.

(** Whatever the user does, in whatever order (toggling the crop tool,
    moving its sliders, dragging the overlay, loading an image, "new
    image", "reset"), no call into the crop manager fails and the
    orchestrator's [isCropEnabled] always equals the manager's [enabled]:
    the orchestrator asks for a crop exactly when the manager performs
    one. *)
Theorem crop_flag_always_consistent (actions : list Action) :
  exists st, run actions construct = Some st /\ consistent st.
Proof.
  assert (forall st, consistent st ->
                     exists st', run actions st = Some st' /\ consistent st') as H.
  { induction actions as [|a rest IH]; intros st Hc; simpl.
    - by exists st.
    - destruct (step_consistent a st Hc) as (st1 & -> & Hc1). by apply IH. }
  apply H. exists CropManager.defaultSettings. by split.
Qed.

Example run_session :
  exists st,
    run [ImageLoaded SampleHost.photo (mkFile "a.png" 2048 "image/png");
         ImageShown;
         ToggleCrop (mkSliders 40 20 50 50);
         Gesture SampleHost.preview SampleHost.pressNW [SampleHost.moveLeft130];
         ResetAll (mkSliders 0 0 100 100)] construct = Some st
    /\ isCropEnabled st = false.
Proof. eexists. split; [vm_compute; reflexivity | reflexivity]. Qed.

(** With an image loaded and the crop tool on, a slider input stores the
    four slider values as they are; for sliders within the ranges of the
    markup the stored rectangle is within the six bounds exactly when
    left + width <= 100 and top + height <= 100, which the sliders do not
    enforce. *)
Theorem updateCrop_stores_sliders (sl : Sliders) (st : Studio)
    (img : HTMLImageElement) :
  consistent st -> currentImage st = Some img -> isCropEnabled st = true ->
  inRange sl ->
  exists st',
    updateCrop sl st = Some st'
    /\ CropManager.current (cropManager st')
       = Some (CropManager.mkCrop (inject_Z (cropLeft sl)) (inject_Z (cropTop sl))
                 (inject_Z (cropWidth sl)) (inject_Z (cropHeight sl)) true)
    /\ (CropManager.inBounds
          (CropManager.mkCrop (inject_Z (cropLeft sl)) (inject_Z (cropTop sl))
             (inject_Z (cropWidth sl)) (inject_Z (cropHeight sl)) true)
        <-> (cropLeft sl + cropWidth sl <= 100)%Z
            /\ (cropTop sl + cropHeight sl <= 100)%Z).
Proof.
  intros (s & Hcur & Hen) Himg Hflag (Hl & Ht & Hw & Hh).
  unfold updateCrop. rewrite Himg, Hflag. simpl.
  destruct (set_consistent st s
              (CropManager.mkPartial (Some (inject_Z (cropLeft sl)))
                 (Some (inject_Z (cropTop sl))) (Some (inject_Z (cropWidth sl)))
                 (Some (inject_Z (cropHeight sl))) (Some true))
              true (call [ApplyCropOverlay; UpdateCompression]) Hcur eq_refl
              (call_frame _) Hflag)
    as (st' & Hrun & Hcur' & _).
  exists st'. split; [exact Hrun|]. split; [exact Hcur'|].
  unfold CropManager.inBounds; simpl.
  rewrite <- !inject_Z_plus.
  change 0 with (inject_Z 0). change 10 with (inject_Z 10).
  change 100 with (inject_Z 100).
  rewrite <- !Zle_Qle. lia.
Qed.

Lemma updateCrop_stores_sliders_witness :
  exists st',
    updateCrop (mkSliders 50 0 100 100)
      (mkStudio SampleHost.middleHalf (Some SampleHost.photo) None None true [])
    = Some st'
    /\ CropManager.current (cropManager st')
       = Some (CropManager.mkCrop (inject_Z 50) (inject_Z 0) (inject_Z 100)
                                  (inject_Z 100) true)
    /\ ~ CropManager.inBounds
           (CropManager.mkCrop (inject_Z 50) (inject_Z 0) (inject_Z 100)
                               (inject_Z 100) true).
Proof.
  destruct (updateCrop_stores_sliders (mkSliders 50 0 100 100)
              (mkStudio SampleHost.middleHalf (Some SampleHost.photo) None None
                        true [])
              SampleHost.photo)
    as (st' & Hrun & Hcur & Hiff).
  - exists (CropManager.mkCrop 25 25 50 50 true). by split.
  - reflexivity.
  - reflexivity.
  - unfold inRange; simpl. lia.
  - exists st'. split; [exact Hrun|]. split; [exact Hcur|].
    intros Hb. apply Hiff in Hb. simpl in Hb. lia.
Defined.

(** A file the validator refuses is never read: whatever the reader would
    do, the upload ends with the progress shown at 20, one error toast
    carrying the validator's message, and nothing else changed.  A file
    it accepts is read, and a failed or empty read ends with the progress
    hidden and the toast "Error loading image. Please try again.". *)
Theorem upload_validates_before_reading
    (readAsDataURL : File -> ReaderEvent) (file : File) (st : Studio) :
  (valid (validateImageFile file) = false ->
   exists message,
     (message = typeError \/ message = sizeError)
     /\ handleFileUpload readAsDataURL file st
        = (call [ShowProgress 20; ToastError (Some message)] st, None))
  /\ (valid (validateImageFile file) = true ->
      (forall imageUrl,
         readAsDataURL file = OnLoad (Some imageUrl) -> imageUrl <> "" ->
         handleFileUpload readAsDataURL file st
         = (call [ShowProgress 20; ShowProgress 40; ShowProgress 60] st,
            Some imageUrl))
      /\ (readAsDataURL file = OnError \/ readAsDataURL file = OnLoad None
          \/ readAsDataURL file = OnLoad (Some "") ->
          handleFileUpload readAsDataURL file st
          = (call [ShowProgress 20; ShowProgress 40; HideProgress;
                   ToastError (Some "Error loading image. Please try again.")]
                  st, None))).
Proof.
  unfold handleFileUpload. split.
  - intros Hv. rewrite Hv. simpl.
    destruct (FileSpec.validateImageFile_cases file) as [H | [H | H]];
      rewrite H in Hv |- *; simpl.
    + discriminate.
    + exists typeError. split; [by left|]. unfold call; simpl.
      by rewrite <- app_assoc.
    + exists sizeError. split; [by right|]. unfold call; simpl.
      by rewrite <- app_assoc.
  - intros Hv. rewrite Hv. simpl. unfold loadImage. split.
    + intros imageUrl Hread Hne. rewrite Hread.
      destruct imageUrl; [congruence|]. simpl. unfold call; simpl.
      by rewrite <- !app_assoc.
    + intros [-> | [-> | ->]]; simpl; unfold call; simpl;
        by rewrite <- !app_assoc.
Qed.

End StudioSpec.

(** ** Theme *)
Module ThemeSpec.
Import Theme.

(** A toggled theme survives a restart: after [toggleTheme], a fresh
    [initializeTheme] on the same browser, whatever the system preference
    then is, finds the very theme the toggle chose and leaves the browser
    as it is. *)
Theorem toggled_theme_survives_restart (prefersDark isDarkMode : bool)
    (b : Browser) :
  initializeTheme prefersDark (toggleTheme isDarkMode b).2
  = toggleTheme isDarkMode b.
Proof.
  unfold initializeTheme, toggleTheme, applyTheme; simpl.
  rewrite lookup_insert_eq. by destruct isDarkMode.
Qed.

(** The theme the application starts with is decided by the key [theme]
    and the system preference alone: two browsers that agree on that key
    start with the same theme whatever else they store, so the key
    [solanam-theme], the one [initializeApp] reads, never makes a
    difference to it. *)
Theorem startup_theme_decided_by_theme_key (prefersDark : bool)
    (b b' : Browser) :
  localStorage b' !! "theme" = localStorage b !! "theme" ->
  (startup prefersDark b').1 = (startup prefersDark b).1
  /\ dataTheme (startup prefersDark b').2 = dataTheme (startup prefersDark b).2
  /\ (startup prefersDark b).1 = darkFrom (localStorage b !! "theme") prefersDark
  /\ dataTheme (startup prefersDark b).2
     = Some (themeName (darkFrom (localStorage b !! "theme") prefersDark)).
Proof.
  intros Hsame.
  unfold startup, initializeTheme, initializeApp, applyTheme; simpl.
  rewrite Hsame. by repeat split.
Qed.

Lemma startup_theme_decided_by_theme_key_witness :
  (startup false (mkBrowser (<["solanam-theme" := "dark"]> (<["theme" := "light"]> ∅))
                            None "" None 0)).1
  = (startup false (mkBrowser (<["theme" := "light"]> ∅) None "" None 0)).1.
Proof.
  apply (startup_theme_decided_by_theme_key false
           (mkBrowser (<["theme" := "light"]> ∅) None "" None 0)
           (mkBrowser (<["solanam-theme" := "dark"]> (<["theme" := "light"]> ∅))
                      None "" None 0)).
  reflexivity.
Defined.

End ThemeSpec.

(** ** Compression: what the encoder is asked *)
Module EncoderSpec.
Import PrimFloat.
Import CompressionManager EncoderGuard.

(** A name that is neither in the catalog nor a key of
    [Object.prototype] is compressed exactly as jpeg is: same MIME type,
    same use of the quality, same result. *)
Theorem unknown_format_compressed_as_jpeg ctx encode read image
    (quality : Q) (format : string) (ratio : bool) original :
  format ∉ knownFormats -> format ∉ Object_prototype_keys ->
  compressImage ctx encode read image
    (mkCompressionOptions quality format ratio) original
  = compressImage ctx encode read image
      (mkCompressionOptions quality "jpeg" ratio) original.
Proof.
  intros Hk Hp. unfold compressImage; simpl.
  rewrite (FormatSpec.getFormatInfo_fallback format Hk Hp).
  by destruct FormatSpec.getFormatInfo_known as (-> & _).
Qed.

Lemma unknown_format_compressed_as_jpeg_witness :
  compressImage true SampleHost.encode SampleHost.readAsDataURL SampleHost.photo
    (mkCompressionOptions 80 "heic" true) 50000
  = compressImage true SampleHost.encode SampleHost.readAsDataURL SampleHost.photo
      (mkCompressionOptions 80 "jpeg" true) 50000.
Proof.
  apply (unknown_format_compressed_as_jpeg true SampleHost.encode
           SampleHost.readAsDataURL SampleHost.photo 80 "heic" true 50000);
    apply includes_not_elem_of; reflexivity.
Defined.

(** For a quality option between 0 and 100, whatever the format,
    [compressImage] never asks the encoder for a quality outside [0, 1]
    nor hands it a canvas other than one of the image's natural size with
    a single draw: an encoder that refuses all other requests gives the
    same result. *)
Theorem encoder_asked_within_range ctx encode read image options original :
  0 <= quality options -> quality options <= 100 ->
  compressImage ctx (guarded image encode) read image options original
  = compressImage ctx encode read image options original.
Proof.
  intros H0 H100. unfold compressImage.
  destruct ctx; simpl; [|reflexivity].
  destruct (supportsQuality_of _) as [supports|]; [|reflexivity].
  destruct (mimeType_of _) as [mime|]; [|reflexivity].
  unfold guarded; simpl. rewrite !Qeq_bool_refl. simpl.
  assert (Qle_bool 0 (if supports then quality options / 100 else 1)
          && Qle_bool (if supports then quality options / 100 else 1) 1 = true)
    as ->; [|reflexivity].
  apply andb_true_iff. rewrite !Qle_bool_iff. destruct supports.
  - split.
    + apply Qle_shift_div_l; lra.
    + apply Qle_shift_div_r; lra.
  - split; lra.
Qed.

Lemma encoder_asked_within_range_witness :
  compressImage true (guarded SampleHost.photo SampleHost.encode)
    SampleHost.readAsDataURL SampleHost.photo
    (mkCompressionOptions 85 "webp" true) 50000
  = compressImage true SampleHost.encode SampleHost.readAsDataURL
      SampleHost.photo (mkCompressionOptions 85 "webp" true) 50000.
Proof.
  apply (encoder_asked_within_range true SampleHost.encode
           SampleHost.readAsDataURL SampleHost.photo
           (mkCompressionOptions 85 "webp" true) 50000); simpl; lra.
Defined.

End EncoderSpec.

(** ** From the page to the popup *)
Module ExtensionSpec.
Import PrimFloat.
Import ContentScript Background SampleExtension.

Lemma get_recent (t0 t1 : Z) (imageData : ImageData) (st : State) :
  storage st !! "contextImage" = Some (StoredImage imageData) ->
  storage st !! "contextImageTimestamp" = Some (StoredNumber t0) ->
  (t1 - t0 < 30000)%Z ->
  handleMessage "getContextImage" t1 st
  = (ContextImage (StoredImage imageData),
     mkState (delete "contextImageTimestamp" (delete "contextImage" (storage st)))
             (notifications st) (tabsOpened st)).
Proof.
  intros Himg Hts Hrecent. unfold handleMessage. simpl String.eqb. cbv iota.
  rewrite Himg, Hts. simpl.
  assert ((t1 - (if (t0 =? 0)%Z then 0 else t0) <? 30000)%Z = true) as ->.
  { apply Z.ltb_lt. destruct (Z.eqb_spec t0 0); lia. }
  reflexivity.
Qed.

(** A right-click "Import to Studio" on an image that loads in the page
    and whose canvas exports reaches the popup intact: asked within 30
    seconds, the popup receives the clicked URL, the image's natural size
    and the PNG data URL the content script produced, the user is
    notified once, and the image is then gone from storage. *)
Theorem import_reaches_popup toDataURL load toBlob (tc t0 t1 : Z)
    (url dataUrl : string) (img : HTMLImageElement) (st : State) :
  load url = Some img -> toDataURL (canvasOf img) = inl dataUrl ->
  (t1 - t0 < 30000)%Z ->
  exists st1 st2,
    handleContextMenuClick (contentChannel toDataURL load toBlob tc) t0
      (mkClick "solanam-import" url) st = st1
    /\ length (notifications st1) = S (length (notifications st))
    /\ handleMessage "getContextImage" t1 st1
       = (ContextImage
            (StoredImage (mkImageData url dataUrl (naturalWidth img)
                                      (naturalHeight img) tc)), st2)
    /\ storage st2 !! "contextImage" = None.
Proof.
  intros Hload Hurl Hrecent.
  set (send := contentChannel toDataURL load toBlob tc).
  set (d := mkImageData url dataUrl (naturalWidth img) (naturalHeight img) tc).
  assert (sendProcess send url = Some (ProcessOk d)) as Hsend.
  { unfold send, contentChannel, onProcessImageFromContext,
      processImageFromContext; simpl. by rewrite Hload, Hurl. }
  destruct (BackgroundSpec.get_after_import send t0 t1
              (mkClick "solanam-import" url) d st Hsend) as [Himg Hts].
  eexists _, _. split; [reflexivity|].
  change (handleContextMenuClick send t0 (mkClick "solanam-import" url) st)
    with (importImage send t0 (mkClick "solanam-import" url) st).
  split.
  { unfold importImage. simpl srcUrl. rewrite Hsend. simpl.
    rewrite length_app. simpl. lia. }
  split; [by apply (get_recent t0)|]. simpl. by simplify_map_eq.
Qed.

Lemma import_reaches_popup_witness :
  exists st1 st2,
    handleContextMenuClick
      (contentChannel toDataURL load toBlob 1700000000000) 1700000000500
      (mkClick "solanam-import" "https://example.org/banner.png") initial = st1
    /\ handleMessage "getContextImage" 1700000012000 st1
       = (ContextImage (StoredImage bannerData), st2)
    /\ storage st2 !! "contextImage" = None.
Proof.
  destruct (import_reaches_popup toDataURL load toBlob 1700000000000
              1700000000500 1700000012000 "https://example.org/banner.png"
              "data:image/png;base64,AAAA" banner initial eq_refl eq_refl)
    as (st1 & st2 & H1 & _ & H2 & H3); [lia|].
  exists st1, st2. by repeat split.
Defined.

(** An import that fails in the page, because the image does not load or
    its canvas cannot be exported, is silent: the background script stores
    nothing, notifies nobody and opens nothing. *)
Theorem failed_import_is_silent toDataURL load toBlob (tc t0 : Z)
    (url : string) (st : State) :
  (load url = None
   \/ exists img message,
        load url = Some img /\ toDataURL (canvasOf img) = inr message) ->
  handleContextMenuClick (contentChannel toDataURL load toBlob tc) t0
    (mkClick "solanam-import" url) st = st.
Proof.
  intros Hfail.
  change (handleContextMenuClick (contentChannel toDataURL load toBlob tc) t0
            (mkClick "solanam-import" url) st)
    with (importImage (contentChannel toDataURL load toBlob tc) t0
            (mkClick "solanam-import" url) st).
  unfold importImage, contentChannel, onProcessImageFromContext,
    processImageFromContext; simpl.
  destruct Hfail as [-> | (img & message & -> & ->)]; reflexivity.
Qed.

Lemma failed_import_is_silent_witness :
  handleContextMenuClick
    (contentChannel toDataURL load toBlob 1700000000000) 1700000000500
    (mkClick "solanam-import" "https://example.org/missing.png") initial
  = initial.
Proof.
  apply (failed_import_is_silent toDataURL load toBlob 1700000000000
           1700000000500 "https://example.org/missing.png" initial).
  left. reflexivity.
Defined.

(** A quick export in one of the four listed formats: the content script
    asks the encoder for the catalog's MIME type of that format, with
    quality 0.9 for jpeg and none otherwise, names the download
    [solanam-export-<now>] with the catalog's extension, and the
    background script then notifies the user with the format in upper
    case. *)
Theorem export_reaches_download toDataURL load toBlob (tc t0 : Z)
    (url format : string) (img : HTMLImageElement)
    (info : CompressionManager.FormatInfo) (blob : CompressionManager.Blob)
    (st : State) :
  format ∈ exportFormats ->
  CompressionManager.formatMap !! format = Some info ->
  load url = Some img ->
  toBlob (canvasOf img) (SString (CompressionManager.mimeType info))
         (if String.eqb format "jpeg" then Some (9 # 10) else None)
  = inl (Some blob) ->
  onExportImageDirect load toBlob tc url format
  = (ExportOk,
     Some (mkDownload ("solanam-export-" +:+ pretty tc)
                      (SString (CompressionManager.extension info)) blob))
  /\ handleContextMenuClick (contentChannel toDataURL load toBlob tc) t0
       (mkClick ("export-" +:+ format) url) st
     = mkState (storage st)
               (notifications st ++
                  [mkNotification "SolanaM Image Studio"
                     ("Image exported as " +:+ toUpperCase format
                      +:+ " successfully!")])
               (tabsOpened st).
Proof.
  intros Hin Hinfo Hload Hblob.
  assert (getMimeType format = SString (CompressionManager.mimeType info)
          /\ getExtension format = SString (CompressionManager.extension info))
    as [Hmime Hext].
  { unfold exportFormats in Hin.
    repeat (apply elem_of_cons in Hin as [-> | Hin]);
      try (vm_compute in Hinfo; injection Hinfo as <-; by split).
    by apply elem_of_nil in Hin. }
  assert (onExportImageDirect load toBlob tc url format
          = (ExportOk,
             Some (mkDownload ("solanam-export-" +:+ pretty tc)
                     (SString (CompressionManager.extension info)) blob)))
    as Hexport.
  { unfold onExportImageDirect, exportImageDirect.
    by rewrite Hload, Hmime, Hext, Hblob. }
  split; [exact Hexport|].
  rewrite (BackgroundSpec.click_routing_export
             (contentChannel toDataURL load toBlob tc) t0 format url st).
  unfold exportImage, contentChannel; simpl. by rewrite Hexport.
Qed.

Lemma export_reaches_download_witness :
  onExportImageDirect load toBlob 1700000000000
    "https://example.org/banner.png" "webp"
  = (ExportOk,
     Some (mkDownload ("solanam-export-" +:+ pretty 1700000000000%Z)
                      (SString "webp")
                      (CompressionManager.mkBlob 2048 "image/webp"))).
Proof.
  apply (export_reaches_download toDataURL load toBlob 1700000000000
           1700000000500 "https://example.org/banner.png" "webp" banner
           CompressionManager.webp (CompressionManager.mkBlob 2048 "image/webp")
           initial).
  - apply includes_elem_of. reflexivity.
  - vm_compute. reflexivity.
  - reflexivity.
  - reflexivity.
Defined.

End ExtensionSpec.
